(** * fluxx-ai chat client: a shallow embedding of [static/js/chat.js]
      and [static/js/auth.js]

    The file models the browser-side chat controller: the transport
    adapter [apiFetch], the sidebar renderer, chat opening and deletion,
    the message exchange and the HTML escaping helper.

    - A JavaScript string is a list of UTF-16 code units; a value is what
      [JSON.parse] can give, or [undefined].
    - The page is a record: the variable [activeChatId], the local storage,
      the location, the element children of [#chat-list] and of
      [#messages-panel], and the few other properties the script writes.
      The elements the script looks up by id are taken to exist.  Markup
      assigned to an element is kept as text; what it parses to is given
      where a container is assigned.  The location is kept as the script
      wrote it, without percent-encoding.
    - A handler is a function from the page to an outcome (a value or a
      thrown error), the page after it, and the trace of its effects in
      order.  The server and the user are an oracle asked in order.  An
      [async] function whose intermediate state matters is split at its
      [await] into a [_begin] and a [_resume] part.  One handler runs at a
      time: no other event is handled while a request is in flight.
    - [logout] takes what the sign-out of Firebase does as a parameter.
      The script of the landing page, [static/js/auth.js], is embedded in
      the module [Auth], with a page of its own and with Firebase and the
      backend as oracles. *)

From Stdlib Require Import String Ascii ZArith DecimalString.
From stdpp Require Import base decidable list gmap.

(** ** JavaScript strings

    A JavaScript string is a sequence of UTF-16 code units.  Literals of the
    source that are plain ASCII are written with [str]. *)

Definition jsstring : Type := list N.

Definition str (s : string) : jsstring :=
  map N_of_ascii (list_ascii_of_string s).

Arguments str s%_string : simpl never.

(** An HTML literal of the source, written with an apostrophe where the
    source has a double quote (no literal of the source has an apostrophe). *)
Definition markup (s : string) : jsstring :=
  map (fun c => if N.eqb c 39 then 34%N else c) (str s).

Arguments markup s%_string : simpl never.

(** [String.prototype.replace(/c/g, r)] for a one-character pattern. *)
Definition replaceAll (c : N) (r : jsstring) (s : jsstring) : jsstring :=
  flat_map (fun x => if N.eqb x c then r else [x]) s.

(** WhiteSpace and LineTerminator code units of ECMAScript, the ones
    [String.prototype.trim] strips. *)
Definition is_js_whitespace (c : N) : bool :=
  existsb (N.eqb c)
    [9; 10; 11; 12; 13; 32; 160; 5760; 8232; 8233; 8239; 8287; 12288; 65279]%N
  || ((8192 <=? c)%N && (c <=? 8202)%N).

Fixpoint trimStart (s : jsstring) : jsstring :=
  match s with
  | [] => []
  | c :: r => if is_js_whitespace c then trimStart r else s
  end.

Definition trimEnd (s : jsstring) : jsstring := rev (trimStart (rev s)).

Definition trim (s : jsstring) : jsstring := trimEnd (trimStart s).

(** [s.split(sep)] for a one-character separator: never empty, and
    [("").split("/")] is [[""]]. *)
Fixpoint split (sep : N) (s : jsstring) : list jsstring :=
  match s with
  | [] => [[]]
  | c :: r =>
      if N.eqb c sep then [] :: split sep r
      else match split sep r with
           | [] => [[c]]
           | w :: ws => (c :: w) :: ws
           end
  end.

Definition nonempty (s : jsstring) : bool :=
  match s with [] => false | _ => true end.

Definition jsstring_eqb (a b : jsstring) : bool := bool_decide (a = b).

(** ASCII whitespace of the HTML standard, which separates class names. *)
Definition is_html_space (c : N) : bool :=
  existsb (N.eqb c) [9; 10; 12; 13; 32]%N.

Fixpoint split_when (p : N -> bool) (s : jsstring) : list jsstring :=
  match s with
  | [] => [[]]
  | c :: r =>
      if p c then [] :: split_when p r
      else match split_when p r with
           | [] => [[c]]
           | w :: ws => (c :: w) :: ws
           end
  end.

Fixpoint ordered_set (seen l : list jsstring) : list jsstring :=
  match l with
  | [] => []
  | x :: rest =>
      if existsb (jsstring_eqb x) seen then ordered_set seen rest
      else x :: ordered_set (x :: seen) rest
  end.

(** The tokens of a [className] string: split on whitespace, each token
    once, in order of first occurrence. *)
Definition class_tokens (s : jsstring) : list jsstring :=
  ordered_set [] (List.filter nonempty (split_when is_html_space s)).

(** ** JavaScript values

    What [JSON.parse] can produce, plus [undefined].  Numbers are kept to
    the integers.  An object lists its properties, each key once.  Arrays
    and objects are compared by reference in JavaScript; the script never
    compares one with itself, and [strict_eq] answers [false] on them as it
    does for two distinct references. *)

#[local] Set Warnings "-register-all".

Inductive Value : Type :=
| VUndefined
| VNull
| VBool (b : bool)
| VNum (n : Z)
| VStr (s : jsstring)
| VArr (items : list Value)
| VObj (fields : list (jsstring * Value)).

Definition decimal (n : Z) : jsstring :=
  str (NilZero.string_of_int (Z.to_int n)).

(** [String(v)], also the conversion of [${v}] in a template literal. *)
Fixpoint ToString (v : Value) : jsstring :=
  match v with
  | VUndefined => str "undefined"
  | VNull => str "null"
  | VBool true => str "true"
  | VBool false => str "false"
  | VNum n => decimal n
  | VStr s => s
  | VArr items =>
      (fix join (l : list Value) : jsstring :=
         match l with
         | [] => []
         | x :: rest =>
             let e := match x with
                      | VUndefined | VNull => []
                      | _ => ToString x
                      end in
             match rest with
             | [] => e
             | _ => e ++ str "," ++ join rest
             end
         end) items
  | VObj _ => str "[object Object]"
  end.

(** Truthiness: what [!v], [v || w] and [filter(Boolean)] test. *)
Definition truthy (v : Value) : bool :=
  match v with
  | VUndefined | VNull => false
  | VBool b => b
  | VNum n => negb (n =? 0)%Z
  | VStr s => nonempty s
  | VArr _ | VObj _ => true
  end.

(** [a || b] *)
Definition or_else (a b : Value) : Value := if truthy a then a else b.

(** [a === b] *)
Definition strict_eq (a b : Value) : bool :=
  match a, b with
  | VUndefined, VUndefined => true
  | VNull, VNull => true
  | VBool x, VBool y => Bool.eqb x y
  | VNum x, VNum y => (x =? y)%Z
  | VStr x, VStr y => jsstring_eqb x y
  | _, _ => false
  end.

Definition nullish (v : Value) : bool :=
  match v with VUndefined | VNull => true | _ => false end.

Definition lookup_field (k : jsstring) (fields : list (jsstring * Value)) : Value :=
  match List.find (fun kv => jsstring_eqb (fst kv) k) fields with
  | Some kv => snd kv
  | None => VUndefined
  end.

(** ** escapeHtml (chat.js, lines 354-360) *)

Definition escapeHtml (v : Value) : jsstring :=
  replaceAll 34 (str "&quot;")
    (replaceAll 62 (str "&gt;")
       (replaceAll 60 (str "&lt;")
          (replaceAll 38 (str "&amp;") (ToString v)))).


(** ** The page: DOM nodes, browser state and effects *)

(** What a click listener installed by [renderChatList] does. *)
Inductive Action : Type :=
| OpenChat (id : Value)
| DeleteChat (id : Value).

Record Listener : Type := {
  on_selector : jsstring;
  on_event : jsstring;
  stops_propagation : bool;
  on_action : Action;
}.

(** An element child of one of the two containers.  [innerHTML] is kept as
    the text the script assigned; [classList] is the token set of the
    [className] it assigned; [node] is the identity of the DOM node. *)
Record Element : Type := {
  node : nat;
  tagName : jsstring;
  classList : list jsstring;
  dataset_id : option jsstring;
  innerHTML : jsstring;
  listeners : list Listener;
}.

Inductive Container : Type := ChatList | MessagesPanel.

Record Request : Type := {
  req_path : jsstring;
  req_method : option jsstring;
  req_body : option Value;
  req_headers : gmap jsstring jsstring;
  req_credentials : jsstring;
}.

(** The [opts] argument of [apiFetch].  A body is [JSON.stringify] of the
    value kept here. *)
Record Opts : Type := {
  opt_method : option jsstring;
  opt_body : option Value;
  opt_headers : gmap jsstring jsstring;
}.

Definition no_opts : Opts :=
  {| opt_method := None; opt_body := None; opt_headers := ∅ |}.

(** A response of the server; [json_body = None] is a body that is not
    JSON, on which [res.json()] rejects. *)
Record Response : Type := {
  status : Z;
  json_body : option Value;
}.

Definition res_ok (r : Response) : bool :=
  (200 <=? status r)%Z && (status r <=? 299)%Z.

(** The world outside the script, asked in order: the n-th interaction
    gets the answer for n.  [server] answering [None] is a [fetch] that
    rejects (network failure). *)
Record Env : Type := {
  server : nat -> Request -> option Response;
  user_confirms : nat -> jsstring -> bool;
}.

Inductive Handler : Type :=
| HCreateNewChat | HLogout | HSendMessage | HSendOnEnter.

Inductive Effect : Type :=
| Fetch (req : Request)
| Confirm (msg : jsstring)
| ConsoleError
| StorageClear
| Navigate (url : jsstring)
| PushState (url : jsstring)
| AssignActive (v : Value)
| SetInnerHTML (c : Container) (html : jsstring)
| AppendChild (c : Container) (el : Element)
| RemoveNode (n : nat)
| ToggleActive (id : Value)
| SetDisplay (element_id : jsstring) (v : jsstring)
| SetTextContent (element_id : jsstring) (v : Value)
| SetInputValue (v : jsstring)
| FocusInput
| ScrollToBottom
| AddEventListener (element_id event : jsstring) (h : Handler).

Record State : Type := {
  activeChatId : Value;
  localStorage : gmap jsstring jsstring;
  location : jsstring;              (* URL path of the document *)
  navigation : option jsstring;     (* target of [window.location.href = ...] *)
  chat_list : list Element;         (* element children of #chat-list *)
  messages_panel : list Element;    (* element children of #messages-panel *)
  msg_input : jsstring;             (* value of #msg-input *)
  input_area_display : jsstring;    (* style.display of #chat-input-area *)
  auth_overlay_display : jsstring;  (* style.display of #auth-overlay *)
  user_email : Value;               (* textContent given to #user-email *)
  wired : list (jsstring * jsstring * Handler);
  next_node : nat;
  clock : nat;
}.

Definition with_activeChatId (v : Value) (st : State) : State :=
  {| activeChatId := v; localStorage := localStorage st; location := location st;
     navigation := navigation st; chat_list := chat_list st;
     messages_panel := messages_panel st; msg_input := msg_input st;
     input_area_display := input_area_display st;
     auth_overlay_display := auth_overlay_display st; user_email := user_email st;
     wired := wired st; next_node := next_node st; clock := clock st |}.

Definition with_localStorage (m : gmap jsstring jsstring) (st : State) : State :=
  {| activeChatId := activeChatId st; localStorage := m; location := location st;
     navigation := navigation st; chat_list := chat_list st;
     messages_panel := messages_panel st; msg_input := msg_input st;
     input_area_display := input_area_display st;
     auth_overlay_display := auth_overlay_display st; user_email := user_email st;
     wired := wired st; next_node := next_node st; clock := clock st |}.

Definition with_location (u : jsstring) (st : State) : State :=
  {| activeChatId := activeChatId st; localStorage := localStorage st; location := u;
     navigation := navigation st; chat_list := chat_list st;
     messages_panel := messages_panel st; msg_input := msg_input st;
     input_area_display := input_area_display st;
     auth_overlay_display := auth_overlay_display st; user_email := user_email st;
     wired := wired st; next_node := next_node st; clock := clock st |}.

Definition with_navigation (u : option jsstring) (st : State) : State :=
  {| activeChatId := activeChatId st; localStorage := localStorage st;
     location := location st; navigation := u; chat_list := chat_list st;
     messages_panel := messages_panel st; msg_input := msg_input st;
     input_area_display := input_area_display st;
     auth_overlay_display := auth_overlay_display st; user_email := user_email st;
     wired := wired st; next_node := next_node st; clock := clock st |}.

Definition with_chat_list (l : list Element) (st : State) : State :=
  {| activeChatId := activeChatId st; localStorage := localStorage st;
     location := location st; navigation := navigation st; chat_list := l;
     messages_panel := messages_panel st; msg_input := msg_input st;
     input_area_display := input_area_display st;
     auth_overlay_display := auth_overlay_display st; user_email := user_email st;
     wired := wired st; next_node := next_node st; clock := clock st |}.

Definition with_messages_panel (l : list Element) (st : State) : State :=
  {| activeChatId := activeChatId st; localStorage := localStorage st;
     location := location st; navigation := navigation st; chat_list := chat_list st;
     messages_panel := l; msg_input := msg_input st;
     input_area_display := input_area_display st;
     auth_overlay_display := auth_overlay_display st; user_email := user_email st;
     wired := wired st; next_node := next_node st; clock := clock st |}.

Definition with_msg_input (v : jsstring) (st : State) : State :=
  {| activeChatId := activeChatId st; localStorage := localStorage st;
     location := location st; navigation := navigation st; chat_list := chat_list st;
     messages_panel := messages_panel st; msg_input := v;
     input_area_display := input_area_display st;
     auth_overlay_display := auth_overlay_display st; user_email := user_email st;
     wired := wired st; next_node := next_node st; clock := clock st |}.

Definition with_input_area_display (v : jsstring) (st : State) : State :=
  {| activeChatId := activeChatId st; localStorage := localStorage st;
     location := location st; navigation := navigation st; chat_list := chat_list st;
     messages_panel := messages_panel st; msg_input := msg_input st;
     input_area_display := v;
     auth_overlay_display := auth_overlay_display st; user_email := user_email st;
     wired := wired st; next_node := next_node st; clock := clock st |}.

Definition with_auth_overlay_display (v : jsstring) (st : State) : State :=
  {| activeChatId := activeChatId st; localStorage := localStorage st;
     location := location st; navigation := navigation st; chat_list := chat_list st;
     messages_panel := messages_panel st; msg_input := msg_input st;
     input_area_display := input_area_display st;
     auth_overlay_display := v; user_email := user_email st;
     wired := wired st; next_node := next_node st; clock := clock st |}.

Definition with_user_email (v : Value) (st : State) : State :=
  {| activeChatId := activeChatId st; localStorage := localStorage st;
     location := location st; navigation := navigation st; chat_list := chat_list st;
     messages_panel := messages_panel st; msg_input := msg_input st;
     input_area_display := input_area_display st;
     auth_overlay_display := auth_overlay_display st; user_email := v;
     wired := wired st; next_node := next_node st; clock := clock st |}.

Definition with_wired (w : list (jsstring * jsstring * Handler)) (st : State) : State :=
  {| activeChatId := activeChatId st; localStorage := localStorage st;
     location := location st; navigation := navigation st; chat_list := chat_list st;
     messages_panel := messages_panel st; msg_input := msg_input st;
     input_area_display := input_area_display st;
     auth_overlay_display := auth_overlay_display st; user_email := user_email st;
     wired := w; next_node := next_node st; clock := clock st |}.

Definition with_next_node (n : nat) (st : State) : State :=
  {| activeChatId := activeChatId st; localStorage := localStorage st;
     location := location st; navigation := navigation st; chat_list := chat_list st;
     messages_panel := messages_panel st; msg_input := msg_input st;
     input_area_display := input_area_display st;
     auth_overlay_display := auth_overlay_display st; user_email := user_email st;
     wired := wired st; next_node := n; clock := clock st |}.

Definition with_clock (n : nat) (st : State) : State :=
  {| activeChatId := activeChatId st; localStorage := localStorage st;
     location := location st; navigation := navigation st; chat_list := chat_list st;
     messages_panel := messages_panel st; msg_input := msg_input st;
     input_area_display := input_area_display st;
     auth_overlay_display := auth_overlay_display st; user_email := user_email st;
     wired := wired st; next_node := next_node st; clock := n |}.

(** ** The monad of the script: state, a trace of effects, exceptions *)

Inductive Error : Type := TypeError | NetworkError | SyntaxError.

Inductive Outcome (A : Type) : Type :=
| Ok (a : A)
| Throw (e : Error).

Arguments Ok {A} a.
Arguments Throw {A} e.

Record Run (A : Type) : Type := MkRun {
  outcome : Outcome A;
  final : State;
  trace : list Effect;
}.

Arguments MkRun {A} _ _ _.
Arguments outcome {A} _.
Arguments final {A} _.
Arguments trace {A} _.

Definition M (A : Type) : Type := State -> Run A.

Definition ret {A} (a : A) : M A := fun st => MkRun (Ok a) st [].

Definition throw {A} (e : Error) : M A := fun st => MkRun (Throw e) st [].

Definition bind {A B} (m : M A) (f : A -> M B) : M B := fun st =>
  match m st with
  | MkRun (Ok a) st1 t1 =>
      match f a st1 with
      | MkRun o st2 t2 => MkRun o st2 (t1 ++ t2)
      end
  | MkRun (Throw e) st1 t1 => MkRun (Throw e) st1 t1
  end.

(** [try { m } catch (err) { h err }] *)
Definition try_catch {A} (m : M A) (h : Error -> M A) : M A := fun st =>
  match m st with
  | MkRun (Ok a) st1 t1 => MkRun (Ok a) st1 t1
  | MkRun (Throw e) st1 t1 =>
      match h e st1 with
      | MkRun o st2 t2 => MkRun o st2 (t1 ++ t2)
      end
  end.

Definition gets {A} (f : State -> A) : M A := fun st => MkRun (Ok (f st)) st [].

Definition act (f : State -> State) (e : Effect) : M unit :=
  fun st => MkRun (Ok tt) (f st) [e].

Definition lift {A} (o : Outcome A) : M A := fun st => MkRun o st [].

Notation "x <- m ;; k" := (bind m (fun x => k))
  (at level 100, m at next level, right associativity).
Notation "m ;;; k" := (bind m (fun _ => k))
  (at level 100, right associativity).

Fixpoint forEach {A} (l : list A) (f : A -> M unit) : M unit :=
  match l with
  | [] => ret tt
  | x :: rest => f x ;;; forEach rest f
  end.

(** Property read [v.k] for the names the script reads: a [TypeError] on
    [undefined] and [null], the field of an object, [length] of an array
    or a string, [undefined] otherwise. *)
Definition getProp (v : Value) (k : jsstring) : Outcome Value :=
  match v with
  | VUndefined | VNull => Throw TypeError
  | VObj fields => Ok (lookup_field k fields)
  | VArr items =>
      if jsstring_eqb k (str "length") then Ok (VNum (Z.of_nat (length items)))
      else Ok VUndefined
  | VStr s =>
      if jsstring_eqb k (str "length") then Ok (VNum (Z.of_nat (length s)))
      else Ok VUndefined
  | VBool _ | VNum _ => Ok VUndefined
  end.

(** [v.forEach(...)]: the items of an array; anything else that JSON can
    produce has no callable [forEach]. *)
Definition array_items (v : Value) : Outcome (list Value) :=
  match v with
  | VArr items => Ok items
  | _ => Throw TypeError
  end.

(** ** Browser primitives *)

Definition children (c : Container) (st : State) : list Element :=
  match c with
  | ChatList => chat_list st
  | MessagesPanel => messages_panel st
  end.

Definition with_children (c : Container) (l : list Element) (st : State) : State :=
  match c with
  | ChatList => with_chat_list l st
  | MessagesPanel => with_messages_panel l st
  end.

Definition localStorage_getItem (k : jsstring) : M Value :=
  gets (fun st => match localStorage st !! k with
                  | Some s => VStr s
                  | None => VNull
                  end).

Definition localStorage_clear : M unit := act (with_localStorage ∅) StorageClear.

(** [window.location.href = url]: a navigation away from the page. *)
Definition location_assign (url : jsstring) : M unit :=
  act (with_navigation (Some url)) (Navigate url).

(** [history.pushState(null, "", url)]: the location changes, the page stays. *)
Definition history_pushState (url : jsstring) : M unit :=
  act (with_location url) (PushState url).

Definition assign_activeChatId (v : Value) : M unit :=
  act (with_activeChatId v) (AssignActive v).

Definition console_error : M unit := act (fun st => st) ConsoleError.

Definition createElement : M nat := fun st =>
  MkRun (Ok (next_node st)) (with_next_node (S (next_node st)) st) [].

Definition appendChild (c : Container) (el : Element) : M unit :=
  act (fun st => with_children c (children c st ++ [el]) st) (AppendChild c el).

(** An element that the HTML parser builds from markup assigned to a
    container: no listeners, no [data-id]. *)
Definition parsed_element (tag cls inner : jsstring) (n : nat) : Element :=
  {| node := n; tagName := tag; classList := class_tokens cls;
     dataset_id := None; innerHTML := inner; listeners := [] |}.

Fixpoint instantiate (n : nat) (l : list (nat -> Element)) : list Element :=
  match l with
  | [] => []
  | f :: rest => f n :: instantiate (S n) rest
  end.

(** [container.innerHTML = html]: the old children are dropped, the
    elements [html] parses to (given by [parsed]) become the children. *)
Definition set_innerHTML (c : Container) (html : jsstring)
    (parsed : list (nat -> Element)) : M unit := fun st =>
  MkRun (Ok tt)
    (with_next_node (length parsed + next_node st)
       (with_children c (instantiate (next_node st) parsed) st))
    [SetInnerHTML c html].

Definition is_not_node (n : nat) (el : Element) : bool := negb (Nat.eqb (node el) n).

(** [el.remove()]: the node leaves whichever container holds it. *)
Definition remove (el : Element) : M unit :=
  act (fun st =>
         with_messages_panel (List.filter (is_not_node (node el)) (messages_panel st))
           (with_chat_list (List.filter (is_not_node (node el)) (chat_list st)) st))
      (RemoveNode (node el)).

Definition has_class (tok : jsstring) (el : Element) : bool :=
  existsb (jsstring_eqb tok) (classList el).

Definition with_classList (l : list jsstring) (el : Element) : Element :=
  {| node := node el; tagName := tagName el; classList := l;
     dataset_id := dataset_id el; innerHTML := innerHTML el;
     listeners := listeners el |}.

(** [el.classList.toggle(tok, force)] *)
Definition classList_toggle (tok : jsstring) (force : bool) (el : Element) : Element :=
  if force then
    if has_class tok el then el else with_classList (classList el ++ [tok]) el
  else
    with_classList (List.filter (fun t => negb (jsstring_eqb tok t)) (classList el)) el.

(** [el.dataset.id] *)
Definition dataset_id_value (el : Element) : Value :=
  match dataset_id el with
  | Some s => VStr s
  | None => VUndefined
  end.

Definition toggle_active (id : Value) (el : Element) : Element :=
  if has_class (str "chat-item") el
  then classList_toggle (str "active") (strict_eq (dataset_id_value el) id) el
  else el.

(** [document.querySelectorAll(".chat-item").forEach((el) =>
      el.classList.toggle("active", el.dataset.id === id))] *)
Definition highlight_active (id : Value) : M unit :=
  act (fun st =>
         with_messages_panel (map (toggle_active id) (messages_panel st))
           (with_chat_list (map (toggle_active id) (chat_list st)) st))
      (ToggleActive id).

Definition set_display_input_area (v : jsstring) : M unit :=
  act (with_input_area_display v) (SetDisplay (str "chat-input-area") v).

Definition set_display_auth_overlay (v : jsstring) : M unit :=
  act (with_auth_overlay_display v) (SetDisplay (str "auth-overlay") v).

Definition set_user_email (v : Value) : M unit :=
  act (with_user_email v) (SetTextContent (str "user-email") v).

Definition set_msg_input (v : jsstring) : M unit :=
  act (with_msg_input v) (SetInputValue v).

Definition focus_msg_input : M unit := act (fun st => st) FocusInput.

Definition addEventListener (element_id event : jsstring) (h : Handler) : M unit :=
  act (fun st => with_wired (wired st ++ [(element_id, event, h)]) st)
      (AddEventListener element_id event h).

Definition res_json (r : Response) : M Value :=
  match json_body r with
  | Some v => ret v
  | None => throw SyntaxError
  end.

(** ** The script *)

Definition API : jsstring := str "".

Definition empty_hint_html : jsstring :=
  markup "<li class='empty-hint'>No chats yet. Start one!</li>".

Definition empty_hint : nat -> Element :=
  parsed_element (str "li") (str "empty-hint") (str "No chats yet. Start one!").

Definition empty_chat_html : jsstring :=
  [10%N] ++ markup "    <div class='empty-chat'>Select or create a chat to get started.</div>"
  ++ [10%N] ++ str "  ".

Definition empty_chat : nat -> Element :=
  parsed_element (str "div") (str "empty-chat")
    (str "Select or create a chat to get started.").

Definition row_html (title id : Value) : jsstring :=
  [10%N] ++ markup "      <span class='chat-title' title='" ++ escapeHtml title
  ++ markup "'>" ++ escapeHtml title ++ markup "</span>"
  ++ [10%N] ++ markup "      <button class='delete-btn' title='Delete chat' data-id='"
  ++ ToString id ++ markup "'>" ++ [10005%N] ++ markup "</button>"
  ++ [10%N] ++ str "    ".

Definition bubble_html (content : Value) : jsstring :=
  [10%N] ++ markup "    <div class='bubble'>" ++ escapeHtml content ++ markup "</div>"
  ++ [10%N] ++ str "  ".

Definition typing_html : jsstring :=
  markup "<div class='bubble typing'><span></span><span></span><span></span></div>".

Definition send_error_text : jsstring :=
  [9888%N] ++ str " Error: could not get a reply.".

Definition row_element (n : nat) (id title active : Value) : Element :=
  {| node := n; tagName := str "li";
     classList := class_tokens
       (str "chat-item" ++ (if strict_eq id active then str " active" else str ""));
     dataset_id := Some (ToString id);
     innerHTML := row_html title id;
     listeners :=
       [ {| on_selector := str ".chat-title"; on_event := str "click";
            stops_propagation := false; on_action := OpenChat id |};
         {| on_selector := str ".delete-btn"; on_event := str "click";
            stops_propagation := true; on_action := DeleteChat id |} ] |}.

Definition message_element (n : nat) (role content : Value) : Element :=
  {| node := n; tagName := str "div";
     classList := class_tokens (str "message " ++ ToString role);
     dataset_id := None; innerHTML := bubble_html content; listeners := [] |}.

Definition typing_element (n : nat) : Element :=
  {| node := n; tagName := str "div";
     classList := class_tokens (str "message assistant typing-wrap");
     dataset_id := None; innerHTML := typing_html; listeners := [] |}.

Definition scrollToBottom : M unit := act (fun st => st) ScrollToBottom.

Definition showNotLoggedIn : M unit := set_display_auth_overlay (str "flex").

Definition showMainError (msg : Value) : M unit :=
  set_innerHTML MessagesPanel
    (markup "<div class='empty-chat error'>" ++ escapeHtml msg ++ markup "</div>")
    [parsed_element (str "div") (str "empty-chat error") (escapeHtml msg)].

Definition clearMainPanel : M unit :=
  set_innerHTML MessagesPanel empty_chat_html [empty_chat] ;;;
  set_display_input_area (str "none").

Definition appendMessage (role content : Value) : M Element :=
  n <- createElement ;;
  let div := message_element n role content in
  appendChild MessagesPanel div ;;;
  ret div.

Definition appendTypingIndicator : M Element :=
  n <- createElement ;;
  let div := typing_element n in
  appendChild MessagesPanel div ;;;
  ret div.

Section Script.

Variable env : Env.

(** [await fetch(url, init)]: the request goes out, the oracle answers. *)
Definition fetch (req : Request) : M Response := fun st =>
  match server env (clock st) req with
  | Some r => MkRun (Ok r) (with_clock (S (clock st)) st) [Fetch req]
  | None => MkRun (Throw NetworkError) (with_clock (S (clock st)) st) [Fetch req]
  end.

(** [confirm(msg)] *)
Definition confirm (msg : jsstring) : M bool := fun st =>
  MkRun (Ok (user_confirms env (clock st) msg)) (with_clock (S (clock st)) st)
    [Confirm msg].

(** The headers object of [apiFetch]: in a spread the later entry wins. *)
Definition request_headers (token : Value) (opts : Opts) : gmap jsstring jsstring :=
  opt_headers opts
  ∪ (if truthy token
     then {[ str "Authorization" := str "Bearer " ++ ToString token ]}
     else ∅)
  ∪ {[ str "Content-Type" := str "application/json" ]}.

Definition request_of (token : Value) (path : jsstring) (opts : Opts) : Request :=
  {| req_path := API ++ path; req_method := opt_method opts;
     req_body := opt_body opts; req_headers := request_headers token opts;
     req_credentials := str "include" |}.

(** chat.js, lines 81-109 *)
Definition apiFetch (path : jsstring) (opts : Opts) : M Value :=
  token <- localStorage_getItem (str "fb_id_token") ;;
  try_catch
    (res <- fetch (request_of token path opts) ;;
     if (status res =? 401)%Z then
       localStorage_clear ;;;
       location_assign (str "/") ;;;
       ret VNull
     else if negb (res_ok res) then ret VNull
     else res_json res)
    (fun err => console_error ;;; ret VNull).

(** chat.js, lines 134-154: the callback of [chats.forEach]. *)
Definition render_row (chat : Value) : M unit :=
  n <- createElement ;;
  id <- lift (getProp chat (str "id")) ;;
  active <- gets activeChatId ;;
  title <- lift (getProp chat (str "title")) ;;
  appendChild ChatList (row_element n id title active).

(** chat.js, lines 125-155 *)
Definition renderChatList (chats : Value) : M unit :=
  set_innerHTML ChatList (str "") [] ;;;
  len <- lift (getProp chats (str "length")) ;;
  if strict_eq len (VNum 0) then
    set_innerHTML ChatList empty_hint_html [empty_hint]
  else
    items <- lift (array_items chats) ;;
    forEach items render_row.

(** chat.js, lines 116-119 *)
Definition loadChatList : M unit :=
  chats <- apiFetch (str "/api/chats") no_opts ;;
  renderChatList (or_else chats (VArr [])).

(** chat.js, lines 204-234.  [openChat_begin] is the part that runs before
    the request is sent, [openChat_resume] the part after the [await]. *)
Definition openChat_begin (chatId : Value) : M unit :=
  assign_activeChatId chatId ;;;
  history_pushState (str "/c/" ++ ToString chatId) ;;;
  highlight_active chatId.

(** chat.js, lines 226-228: the callback of [(chat.messages || []).forEach],
    which destructures its argument into [role] and [content]. *)
Definition render_message (m : Value) : M unit :=
  role <- lift (getProp m (str "role")) ;;
  content <- lift (getProp m (str "content")) ;;
  appendMessage role content ;;;
  ret tt.

Definition openChat_resume (chat : Value) : M unit :=
  if negb (truthy chat) then
    showMainError (VStr (str "Could not load this chat."))
  else
    set_innerHTML MessagesPanel (str "") [] ;;;
    messages <- lift (getProp chat (str "messages")) ;;
    items <- lift (array_items (or_else messages (VArr []))) ;;
    forEach items render_message ;;;
    set_display_input_area (str "flex") ;;;
    focus_msg_input ;;;
    scrollToBottom.

Definition openChat (chatId : Value) : M unit :=
  openChat_begin chatId ;;;
  chat <- apiFetch (str "/api/chats/" ++ ToString chatId) no_opts ;;
  openChat_resume chat.

(** chat.js, lines 162-172 *)
Definition createNewChat : M unit :=
  chat <- apiFetch (str "/api/chats")
            {| opt_method := Some (str "POST");
               opt_body := Some (VObj [(str "title", VStr (str "New Chat"))]);
               opt_headers := ∅ |} ;;
  if negb (truthy chat) then ret tt
  else
    loadChatList ;;;
    id <- lift (getProp chat (str "id")) ;;
    openChat id.

Definition confirm_text : jsstring := str "Delete this chat?".

Definition delete_opts : Opts :=
  {| opt_method := Some (str "DELETE"); opt_body := None; opt_headers := ∅ |}.

(** chat.js, lines 179-193 *)
Definition deleteChat (chatId : Value) : M unit :=
  confirmed <- confirm confirm_text ;;
  if negb confirmed then ret tt
  else
    result <- apiFetch (str "/api/chats/" ++ ToString chatId) delete_opts ;;
    if strict_eq result VNull then ret tt
    else
      active <- gets activeChatId ;;
      (if strict_eq chatId active then
         assign_activeChatId VNull ;;;
         clearMainPanel ;;;
         history_pushState (str "/c/")
       else ret tt) ;;;
      loadChatList.

(** chat.js, lines 248-288.  [sendMessage_begin] runs up to the request
    (it answers [None] when the function returns early), [sendMessage_resume]
    is the part after the [await]. *)
Definition sendMessage_begin : M (option (jsstring * Element)) :=
  active <- gets activeChatId ;;
  if negb (truthy active) then ret None
  else
    value <- gets msg_input ;;
    let message := trim value in
    if negb (nonempty message) then ret None
    else
      appendMessage (VStr (str "user")) (VStr message) ;;;
      set_msg_input (str "") ;;;
      scrollToBottom ;;;
      typingEl <- appendTypingIndicator ;;
      ret (Some (message, typingEl)).

Definition send_opts (message : jsstring) : Opts :=
  {| opt_method := Some (str "POST");
     opt_body := Some (VObj [(str "message", VStr message)]);
     opt_headers := ∅ |}.

Definition sendMessage_resume (typingEl : Element) (result : Value) : M unit :=
  remove typingEl ;;;
  (if negb (truthy result) then
     appendMessage (VStr (str "assistant")) (VStr send_error_text) ;;;
     ret tt
   else
     assistant <- lift (getProp result (str "assistant")) ;;
     appendMessage (VStr (str "assistant")) assistant ;;;
     loadChatList ;;;
     active <- gets activeChatId ;;
     highlight_active active) ;;;
  scrollToBottom.

Definition sendMessage : M unit :=
  started <- sendMessage_begin ;;
  match started with
  | None => ret tt
  | Some (message, typingEl) =>
      active <- gets activeChatId ;;
      result <- apiFetch (str "/api/chats/" ++ ToString active ++ str "/messages")
                  (send_opts message) ;;
      sendMessage_resume typingEl result
  end.

(** chat.js, lines 59-64: open the chat that the location names. *)
Definition openChatFromLocation : M unit :=
  pathname <- gets location ;;
  let pathParts := List.filter nonempty (split 47 pathname) in
  match pathParts with
  | [root; id] =>
      if jsstring_eqb root (str "c") then openChat (VStr id) else ret tt
  | _ => ret tt
  end.

(** chat.js, lines 23-65: the [DOMContentLoaded] handler. *)
Definition onDOMContentLoaded : M unit :=
  token <- localStorage_getItem (str "fb_id_token") ;;
  if negb (truthy token) then showNotLoggedIn
  else
    me <- apiFetch (str "/api/auth/me") no_opts ;;
    if negb (truthy me) then showNotLoggedIn
    else
      email <- lift (getProp me (str "email")) ;;
      uid <- lift (getProp me (str "uid")) ;;
      set_user_email (or_else email uid) ;;;
      addEventListener (str "btn-new-chat") (str "click") HCreateNewChat ;;;
      addEventListener (str "btn-logout") (str "click") HLogout ;;;
      addEventListener (str "send-btn") (str "click") HSendMessage ;;;
      addEventListener (str "msg-input") (str "keydown") HSendOnEnter ;;;
      loadChatList ;;;
      openChatFromLocation.

(** A click that reaches a listener of a sidebar row. *)
Definition run_action (a : Action) : M unit :=
  match a with
  | OpenChat id => openChat id
  | DeleteChat id => deleteChat id
  end.

End Script.

(** ** Logging out *)

(** The request of [logout]: sent with [fetch] itself, not through
    [apiFetch]. *)
Definition logout_request : Request :=
  {| req_path := str "/api/auth/logout"; req_method := Some (str "POST");
     req_body := None; req_headers := ∅; req_credentials := str "include" |}.

(** [await firebaseAuth.signOut().catch(() => {})] when [firebaseAuth] is
    defined.  [firebaseAuth] is [None] on a page without the Firebase SDK;
    otherwise it holds what [signOut()] does, which may reject. *)
Definition firebase_signOut (firebaseAuth : option (M unit)) : M unit :=
  match firebaseAuth with
  | Some signOut => try_catch signOut (fun _ => ret tt)
  | None => ret tt
  end.

(** chat.js, lines 325-338 *)
Definition logout (env : Env) (firebaseAuth : option (M unit)) : M unit :=
  firebase_signOut firebaseAuth ;;;
  localStorage_clear ;;;
  fetch env logout_request ;;;
  location_assign (str "/").

(** * The landing page: [static/js/auth.js]

    The second script of the client: sign-up and log-in against Firebase,
    then the exchange of the Firebase ID token for a session of the
    backend.  Firebase and the backend are oracles; the page is the two
    inputs, the error line, the local storage and the navigation target. *)

Module Auth.

(** A promise of the Firebase SDK once settled: its value, or the message
    of the error it rejects with. *)
Inductive Settled (A : Type) : Type :=
| Fulfilled (a : A)
| Rejected (message : jsstring).

Arguments Fulfilled {A} a.
Arguments Rejected {A} message.

(** A [firebase.User], as far as the script reads it; [email] is [None]
    for [null]. *)
Record User : Type := {
  uid : jsstring;
  email : option jsstring;
}.

(** What is thrown: an error of the engine (a failed [fetch], a body that
    is not JSON, a property read on [null]) or a rejection of Firebase. *)
Inductive Err : Type :=
| Engine (e : Error)
| Firebase (message : jsstring).

Record Env : Type := {
  createUserWithEmailAndPassword : jsstring -> jsstring -> Settled User;
  signInWithEmailAndPassword : jsstring -> jsstring -> Settled User;
  getIdToken : User -> Settled jsstring;
  server : Request -> option Response;
  engine_message : Error -> jsstring;     (* [err.message] of an engine error *)
}.

(** [err.message] *)
Definition message (env : Env) (err : Err) : jsstring :=
  match err with
  | Engine e => engine_message env e
  | Firebase m => m
  end.

Record Page : Type := {
  emailInput : jsstring;             (* value of #auth-email *)
  passwordInput : jsstring;          (* value of #auth-password *)
  authError_textContent : Value;     (* what was assigned to #auth-error *)
  authError_display : jsstring;
  storage : gmap jsstring jsstring;  (* localStorage *)
  href : option jsstring;            (* target of [window.location.href = ...] *)
}.

Inductive Event : Type :=
| CreateUser (email password : jsstring)
| SignIn (email password : jsstring)
| GetIdToken (user : User)
| SetItem (k v : jsstring)
| Fetch (req : Request)
| Assign (url : jsstring)
| ShowError (msg : Value)
| ClearError.

Inductive Result (A : Type) : Type :=
| Done (a : A)
| Thrown (err : Err).

Arguments Done {A} a.
Arguments Thrown {A} err.

Record Run (A : Type) : Type := MkRun {
  outcome : Result A;
  final : Page;
  trace : list Event;
}.

Arguments MkRun {A} outcome final trace.
Arguments outcome {A} r.
Arguments final {A} r.
Arguments trace {A} r.

Definition M (A : Type) : Type := Page -> Run A.

Definition ret {A} (a : A) : M A := fun pg => MkRun (Done a) pg [].

Definition throw {A} (err : Err) : M A := fun pg => MkRun (Thrown err) pg [].

Definition bind {A B} (m : M A) (f : A -> M B) : M B := fun pg =>
  match m pg with
  | MkRun (Done a) pg1 t1 =>
      match f a pg1 with
      | MkRun o pg2 t2 => MkRun o pg2 (t1 ++ t2)
      end
  | MkRun (Thrown err) pg1 t1 => MkRun (Thrown err) pg1 t1
  end.

Definition try_catch {A} (m : M A) (h : Err -> M A) : M A := fun pg =>
  match m pg with
  | MkRun (Done a) pg1 t1 => MkRun (Done a) pg1 t1
  | MkRun (Thrown err) pg1 t1 =>
      match h err pg1 with
      | MkRun o pg2 t2 => MkRun o pg2 (t1 ++ t2)
      end
  end.

Definition gets {A} (f : Page -> A) : M A := fun pg => MkRun (Done (f pg)) pg [].

Definition act (f : Page -> Page) (e : Event) : M unit :=
  fun pg => MkRun (Done tt) (f pg) [e].

(** An engine operation that returns or throws. *)
Definition lift {A} (o : Outcome A) : M A :=
  match o with
  | Ok a => ret a
  | Throw e => throw (Engine e)
  end.

(** [await] on a promise of Firebase, after the call [e]. *)
Definition await {A} (e : Event) (p : Settled A) : M A := fun pg =>
  match p with
  | Fulfilled a => MkRun (Done a) pg [e]
  | Rejected m => MkRun (Thrown (Firebase m)) pg [e]
  end.

Declare Scope auth_scope.
Notation "x <- m ;; k" := (bind m (fun x => k))
  (at level 100, m at next level, right associativity) : auth_scope.
Notation "m ;;; k" := (bind m (fun _ => k))
  (at level 100, right associativity) : auth_scope.
#[local] Open Scope auth_scope.

Definition with_error (text : Value) (display : jsstring) (pg : Page) : Page :=
  {| emailInput := emailInput pg; passwordInput := passwordInput pg;
     authError_textContent := text; authError_display := display;
     storage := storage pg; href := href pg |}.

Definition with_storage (s : gmap jsstring jsstring) (pg : Page) : Page :=
  {| emailInput := emailInput pg; passwordInput := passwordInput pg;
     authError_textContent := authError_textContent pg;
     authError_display := authError_display pg;
     storage := s; href := href pg |}.

Definition with_href (url : option jsstring) (pg : Page) : Page :=
  {| emailInput := emailInput pg; passwordInput := passwordInput pg;
     authError_textContent := authError_textContent pg;
     authError_display := authError_display pg;
     storage := storage pg; href := url |}.

(** auth.js, lines 130-133 *)
Definition showError (msg : Value) : M unit :=
  act (with_error msg (str "block")) (ShowError msg).

(** auth.js, lines 135-138 *)
Definition clearError : M unit :=
  act (with_error (VStr (str "")) (str "none")) ClearError.

Definition localStorage_setItem (k v : jsstring) : M unit :=
  act (fun pg => with_storage (<[k := v]> (storage pg)) pg) (SetItem k v).

Definition location_assign (url : jsstring) : M unit :=
  act (with_href (Some url)) (Assign url).

Definition fetch (env : Env) (req : Request) : M Response := fun pg =>
  match server env req with
  | Some r => MkRun (Done r) pg [Fetch req]
  | None => MkRun (Thrown (Engine NetworkError)) pg [Fetch req]
  end.

Definition res_json (r : Response) : M Value :=
  match json_body r with
  | Some v => ret v
  | None => throw (Engine SyntaxError)
  end.

(** The request that hands the ID token to the backend. *)
Definition login_request (idToken : jsstring) : Request :=
  {| req_path := str "/api/auth/login"; req_method := Some (str "POST");
     req_body := Some (VObj [(str "idToken", VStr idToken)]);
     req_headers := {[ str "Content-Type" := str "application/json" ]};
     req_credentials := str "include" |}.

(** [user.email || ""] *)
Definition email_or_empty (user : User) : jsstring :=
  match email user with
  | Some s => if nonempty s then s else str ""
  | None => str ""
  end.

(** auth.js, lines 95-124 *)
Definition exchangeTokenAndRedirect (env : Env) (user : User) : M unit :=
  try_catch
    (idToken <- await (GetIdToken user) (getIdToken env user) ;;
     localStorage_setItem (str "fb_id_token") idToken ;;;
     localStorage_setItem (str "fb_uid") (uid user) ;;;
     localStorage_setItem (str "fb_email") (email_or_empty user) ;;;
     res <- fetch env (login_request idToken) ;;
     if negb (res_ok res) then
       body <- res_json res ;;
       error <- lift (getProp body (str "error")) ;;
       showError (or_else error (VStr (str "Login failed.")))
     else
       location_assign (str "/c/"))
    (fun err => showError (VStr (str "Token exchange failed: " ++ message env err))).

Definition missing_text : jsstring := str "Please enter both email and password.".

(** auth.js, lines 39-56 *)
Definition handleSignup (env : Env) : M unit :=
  email <- gets (fun pg => trim (emailInput pg)) ;;
  password <- gets passwordInput ;;
  clearError ;;;
  if negb (nonempty email) || negb (nonempty password) then
    showError (VStr missing_text)
  else
    try_catch
      (user <- await (CreateUser email password)
                 (createUserWithEmailAndPassword env email password) ;;
       exchangeTokenAndRedirect env user)
      (fun err => showError (VStr (message env err))).

(** auth.js, lines 62-79 *)
Definition handleLogin (env : Env) : M unit :=
  email <- gets (fun pg => trim (emailInput pg)) ;;
  password <- gets passwordInput ;;
  clearError ;;;
  if negb (nonempty email) || negb (nonempty password) then
    showError (VStr missing_text)
  else
    try_catch
      (user <- await (SignIn email password)
                 (signInWithEmailAndPassword env email password) ;;
       exchangeTokenAndRedirect env user)
      (fun err => showError (VStr (message env err))).

(** auth.js, lines 28-32: the callback given to [onAuthStateChanged]. *)
Definition onAuthStateChanged (env : Env) (user : option User) : M unit :=
  match user with
  | Some u => exchangeTokenAndRedirect env u
  | None => ret tt
  end.

End Auth.

(** * The vocabulary of the properties *)

(** ** Escaped text *)

(** What one code unit becomes. *)
Definition entity (c : N) : jsstring :=
  if N.eqb c 38 then str "&amp;"
  else if N.eqb c 60 then str "&lt;"
  else if N.eqb c 62 then str "&gt;"
  else if N.eqb c 34 then str "&quot;"
  else [c].

(** How an HTML parser reads the character references of escaped text
    back: used to say what the escaped text denotes. *)
Fixpoint decode_entities (s : jsstring) : jsstring :=
  match s with
  | [] => []
  | c :: r =>
      if N.eqb c 38 then
        match r with
        | 97 :: 109 :: 112 :: 59 :: r' => 38 :: decode_entities r'
        | 108 :: 116 :: 59 :: r' => 60 :: decode_entities r'
        | 103 :: 116 :: 59 :: r' => 62 :: decode_entities r'
        | 113 :: 117 :: 111 :: 116 :: 59 :: r' => 34 :: decode_entities r'
        | _ => c :: decode_entities r
        end%N
      else c :: decode_entities r
  end.

(** The characters that open or close markup in element text and in a
    double-quoted attribute value. *)
Definition is_markup_char (c : N) : bool :=
  N.eqb c 60 || N.eqb c 62 || N.eqb c 34.

(** ** Requests *)

(** What [localStorage.getItem("fb_id_token")] returns. *)
Definition token_of (st : State) : Value :=
  match localStorage st !! str "fb_id_token" with
  | Some s => VStr s
  | None => VNull
  end.

(** The page once the oracle has been asked. *)
Definition sent (st : State) : State := with_clock (S (clock st)) st.

(** The page after the 401 branch of [apiFetch]. *)
Definition signed_out (st : State) : State :=
  with_navigation (Some (str "/")) (with_localStorage ∅ st).

(** ** Sidebar rows *)

(** The value of [chat.k] when the read does not throw. *)
Definition prop (v : Value) (k : jsstring) : Value :=
  match getProp v k with
  | Ok x => x
  | Throw _ => VUndefined
  end.

(** The row of one chat. *)
Definition chat_row (active : Value) (n : nat) (chat : Value) : Element :=
  row_element n (prop chat (str "id")) (prop chat (str "title")) active.

(** The rows [renderChatList] builds for an array of chats, the first one
    on node [n]. *)
Fixpoint rows_from (active : Value) (n : nat) (items : list Value) : list Element :=
  match items with
  | [] => []
  | chat :: rest => chat_row active n chat :: rows_from active (S n) rest
  end.

(** A row without the identity of its DOM node: what the user sees of it. *)
Definition content (el : Element) : Element :=
  {| node := 0; tagName := tagName el; classList := classList el;
     dataset_id := dataset_id el; innerHTML := innerHTML el;
     listeners := listeners el |}.

(** ** Frames *)

(** Two states that differ at most in the sidebar rows and in the supply
    of node identities. *)
Definition sidebar_frame (st st' : State) : Prop :=
  with_chat_list [] (with_next_node 0 st') = with_chat_list [] (with_next_node 0 st).

(** Effects on the sidebar container. *)
Definition is_sidebar_effect (e : Effect) : bool :=
  match e with
  | SetInnerHTML ChatList _ | AppendChild ChatList _ => true
  | _ => false
  end.

(** Two states that differ at most in the thread, the display of the
    input area and the supply of node identities. *)
Definition thread_frame (st st' : State) : Prop :=
  with_messages_panel [] (with_input_area_display [] (with_next_node 0 st'))
  = with_messages_panel [] (with_input_area_display [] (with_next_node 0 st)).

(** ** Highlight, routing, deletion *)

(** A sidebar row that shows as the open chat. *)
Definition is_active_row (row : Element) : bool :=
  has_class (str "chat-item") row && has_class (str "active") row.

(** A sidebar row of the chat [id]. *)
Definition is_row_of (id : Value) (row : Element) : bool :=
  has_class (str "chat-item") row && strict_eq (dataset_id_value row) id.

(** The non-empty segments of a path: [pathname.split("/").filter(Boolean)]. *)
Definition segments (pathname : jsstring) : list jsstring :=
  List.filter nonempty (split 47 pathname).

(** The state after the three steps taken when the deleted chat was the
    open one. *)
Definition main_panel_cleared (st : State) : State :=
  with_location (str "/c/")
    (with_input_area_display (str "none")
       (with_next_node (S (next_node st))
          (with_messages_panel [empty_chat (next_node st)]
             (with_activeChatId VNull st)))).

(** The effects of those three steps, in order. *)
Definition clear_effects : list Effect :=
  [AssignActive VNull; SetInnerHTML MessagesPanel empty_chat_html;
   SetDisplay (str "chat-input-area") (str "none"); PushState (str "/c/")].

(** ** The thread *)

(** Effects that add a child to the thread, remove a node or replace the
    thread. *)
Definition is_panel_event (e : Effect) : bool :=
  match e with
  | AppendChild MessagesPanel _ | SetInnerHTML MessagesPanel _ | RemoveNode _ => true
  | _ => false
  end.

(** The thread events of a trace, in order. *)
Definition panel_events (t : list Effect) : list Effect :=
  List.filter is_panel_event t.

(** Every node of the page is older than the next node to be created. *)
Definition nodes_fresh (st : State) : Prop :=
  Forall (fun el => node el < next_node st) (chat_list st ++ messages_panel st).

(** A thread whose bubbles are those of [P], re-marked at most. *)
Definition same_bubbles (P P' : list Element) : Prop :=
  exists f : Element -> Element,
    P' = map f P
    /\ forall el, node (f el) = node el
                  /\ (has_class (str "chat-item") el = false -> f el = el).

(** What follows the reply on success: the list reload and the re-marking
    of the rows. *)
Definition refresh_sidebar (env : Env) : M unit :=
  loadChatList env ;;;
  active <- gets activeChatId ;;
  highlight_active active.

(** The text of the bubble that answers a send: the assistant's reply when
    the request gave a result, the error text otherwise. *)
Definition reply_content (result : Value) : Value :=
  if truthy result then prop result (str "assistant") else VStr send_error_text.

(** [m] keeps every node of the page older than the next one to be made. *)
Definition keeps_fresh {A} (m : M A) : Prop :=
  forall st, nodes_fresh st -> nodes_fresh (final (m st)).

(** ** Requests, threads and what the page-load handler writes *)

Definition is_fetch (e : Effect) : bool :=
  match e with Fetch _ => true | _ => false end.

Definition is_metachar (c : N) : bool :=
  N.eqb c 38 || N.eqb c 60 || N.eqb c 62 || N.eqb c 34.

(** The bubble of one message of a chat. *)
Definition bubble_of (n : nat) (m : Value) : Element :=
  message_element n (prop m (str "role")) (prop m (str "content")).

(** The bubbles [openChat] builds for the messages of a chat, the first one
    on node [n]. *)
Fixpoint bubbles_from (n : nat) (items : list Value) : list Element :=
  match items with
  | [] => []
  | m :: rest => bubble_of n m :: bubbles_from (S n) rest
  end.

(** The method and the path of each request of a trace, in order. *)
Definition request_lines (t : list Effect) : list (option jsstring * jsstring) :=
  flat_map (fun e => match e with
                     | Fetch r => [(req_method r, req_path r)]
                     | _ => []
                     end) t.

(** The options of the request that creates a chat. *)
Definition create_opts : Opts :=
  {| opt_method := Some (str "POST");
     opt_body := Some (VObj [(str "title", VStr (str "New Chat"))]);
     opt_headers := ∅ |}.

(** What the page-load handler alone writes: the shown user, the wired
    controls and the overlay. *)
Definition chrome (st : State)
  : Value * list (jsstring * jsstring * Handler) * jsstring :=
  (user_email st, wired st, auth_overlay_display st).

(** The controls the page-load handler wires, in order. *)
Definition wired_controls : list (jsstring * jsstring * Handler) :=
  [(str "btn-new-chat", str "click", HCreateNewChat);
   (str "btn-logout", str "click", HLogout);
   (str "send-btn", str "click", HSendMessage);
   (str "msg-input", str "keydown", HSendOnEnter)].

(** The request of the routing step on a path. *)
Definition route_requests (pathname : jsstring) : list (option jsstring * jsstring) :=
  match segments pathname with
  | [root; id] =>
      if jsstring_eqb root (str "c") then [(None, str "/api/chats/" ++ id)] else []
  | _ => []
  end.

(** ** The landing page *)

(** The local storage once [exchangeTokenAndRedirect] has written the
    credentials of [user] under the ID token [tok]. *)
Definition stored_credentials (tok : jsstring) (user : Auth.User)
    (s : gmap jsstring jsstring) : gmap jsstring jsstring :=
  <[str "fb_email" := Auth.email_or_empty user]>
    (<[str "fb_uid" := Auth.uid user]> (<[str "fb_id_token" := tok]> s)).

(** Firebase gives an ID token for [user] and the backend answers the
    login request with a success status. *)
Definition login_accepted (env : Auth.Env) (user : Auth.User) : bool :=
  match Auth.getIdToken env user with
  | Auth.Fulfilled tok =>
      match Auth.server env (Auth.login_request tok) with
      | Some r => res_ok r
      | None => false
      end
  | Auth.Rejected _ => false
  end.

Definition is_assign (e : Auth.Event) : bool :=
  match e with Auth.Assign _ => true | _ => false end.

Definition is_firebase_call (e : Auth.Event) : bool :=
  match e with
  | Auth.CreateUser _ _ | Auth.SignIn _ _ | Auth.GetIdToken _ => true
  | _ => false
  end.

Definition is_login_fetch (e : Auth.Event) : bool :=
  match e with Auth.Fetch _ => true | _ => false end.

(** * Concrete pages and servers *)

(** The page as loaded at "/c/abc", with a stored token. *)
Definition page0 : State :=
  {| activeChatId := VNull;
     localStorage := {[ str "fb_id_token" := str "tok" ]};
     location := str "/c/abc"; navigation := None;
     chat_list := []; messages_panel := []; msg_input := str "";
     input_area_display := str "none"; auth_overlay_display := str "none";
     user_email := VUndefined; wired := []; next_node := 0; clock := 0 |}.

(** A server that answers every request with status 500. *)
Definition failing_server : Env :=
  {| server := fun _ _ => Some {| status := 500; json_body := None |};
     user_confirms := fun _ _ => true |}.

(** A server with the chat "abc" whose list request fails. *)
Definition no_list_server : Env :=
  {| server := fun _ req =>
       if jsstring_eqb (req_path req) (str "/api/auth/me") then
         Some {| status := 200;
                 json_body := Some (VObj [(str "uid", VStr (str "u1"))]) |}
       else if jsstring_eqb (req_path req) (str "/api/chats/abc") then
         Some {| status := 200;
                 json_body := Some (VObj
                   [(str "id", VStr (str "abc")); (str "title", VStr (str "T"));
                    (str "messages",
                     VArr [VObj [(str "role", VStr (str "user"));
                                 (str "content", VStr (str "hi"))]])]) |}
       else Some {| status := 500; json_body := None |};
     user_confirms := fun _ _ => true |}.

(** The page loaded at "/c/abc" against [no_list_server], when the handler
    gets to the routing step: the sidebar holds the placeholder. *)
Definition unlisted_page : State :=
  {| activeChatId := VNull;
     localStorage := {[ str "fb_id_token" := str "tok" ]};
     location := str "/c/abc"; navigation := None;
     chat_list := [empty_hint 0];
     messages_panel := []; msg_input := str "";
     input_area_display := str "none"; auth_overlay_display := str "none";
     user_email := VStr (str "u1");
     wired := [(str "btn-new-chat", str "click", HCreateNewChat);
               (str "btn-logout", str "click", HLogout);
               (str "send-btn", str "click", HSendMessage);
               (str "msg-input", str "keydown", HSendOnEnter)];
     next_node := 1; clock := 2 |}.

(** A server with one user and one chat, "abc". *)
Definition demo_server : Env :=
  {| server := fun _ req =>
       if jsstring_eqb (req_path req) (str "/api/auth/me") then
         Some {| status := 200;
                 json_body := Some (VObj [(str "uid", VStr (str "u1"));
                                          (str "email", VStr (str "a@b.c"))]) |}
       else if jsstring_eqb (req_path req) (str "/api/chats") then
         Some {| status := 200;
                 json_body := Some (VArr [VObj [(str "id", VStr (str "abc"));
                                                (str "title", VStr (str "T"))]]) |}
       else if jsstring_eqb (req_path req) (str "/api/chats/abc") then
         Some {| status := 200;
                 json_body := Some (VObj
                   [(str "id", VStr (str "abc")); (str "title", VStr (str "T"));
                    (str "messages",
                     VArr [VObj [(str "role", VStr (str "user"));
                                 (str "content", VStr (str "hi"))]])]) |}
       else if jsstring_eqb (req_path req) (str "/api/chats/abc/messages") then
         Some {| status := 200;
                 json_body := Some (VObj [(str "assistant", VStr (str "hello"))]) |}
       else Some {| status := 404; json_body := None |};
     user_confirms := fun _ _ => true |}.

(** The page loaded at "/c/abc" against [demo_server], when the handler
    has finished: the chat "abc" is listed, marked active and open. *)
Definition open_page : State :=
  {| activeChatId := VStr (str "abc");
     localStorage := {[ str "fb_id_token" := str "tok" ]};
     location := str "/c/abc"; navigation := None;
     chat_list :=
       rows_from (VStr (str "abc")) 0
         [VObj [(str "id", VStr (str "abc")); (str "title", VStr (str "T"))]];
     messages_panel := [message_element 1 (VStr (str "user")) (VStr (str "hi"))];
     msg_input := str "";
     input_area_display := str "flex"; auth_overlay_display := str "none";
     user_email := VStr (str "a@b.c");
     wired := [(str "btn-new-chat", str "click", HCreateNewChat);
               (str "btn-logout", str "click", HLogout);
               (str "send-btn", str "click", HSendMessage);
               (str "msg-input", str "keydown", HSendOnEnter)];
     next_node := 2; clock := 3 |}.

(** A server for which the session has expired. *)
Definition expired_server : Env :=
  {| server := fun _ _ => Some {| status := 401; json_body := None |};
     user_confirms := fun _ _ => true |}.

(** A server that accepts a deletion and lists no chats. *)
Definition deleting_server : Env :=
  {| server := fun _ req =>
       match req_method req with
       | Some _ =>
           Some {| status := 200; json_body := Some (VObj [(str "ok", VBool true)]) |}
       | None => Some {| status := 200; json_body := Some (VArr []) |}
       end;
     user_confirms := fun _ _ => true |}.

(** The chat "abc" is open and the user has typed " hi ". *)
Definition typing_page : State := with_msg_input (str " hi ") open_page.

(** A list of two chats, one with markup in its title. *)
Definition two_chats : list Value :=
  [VObj [(str "id", VStr (str "abc")); (str "title", VStr (str "T"))];
   VObj [(str "id", VStr (str "x")); (str "title", VStr (str "<X>"))]].

(** A user who declines every confirmation, on [demo_server]. *)
Definition declining_user : Env :=
  {| server := server demo_server; user_confirms := fun _ _ => false |}.

(** A chat whose second message is [null]. *)
Definition broken_chat : Value :=
  VObj [(str "id", VStr (str "abc")); (str "title", VStr (str "T"));
        (str "messages",
         VArr ([VObj [(str "role", VStr (str "user"));
                      (str "content", VStr (str "hi"))]]
               ++ VNull
                  :: [VObj [(str "role", VStr (str "assistant"));
                            (str "content", VStr (str "hello"))]]))].

(** A server that answers every request with [broken_chat]. *)
Definition malformed_server : Env :=
  {| server := fun _ _ => Some {| status := 200; json_body := Some broken_chat |};
     user_confirms := fun _ _ => true |}.

(** The chat that [creating_server] creates. *)
Definition new_chat : Value :=
  VObj [(str "id", VStr (str "n1")); (str "title", VStr (str "New Chat"));
        (str "messages", VArr [])].

(** A server that creates the chat "n1", lists it and serves it. *)
Definition creating_server : Env :=
  {| server := fun _ req =>
       match req_method req with
       | Some _ => Some {| status := 201; json_body := Some new_chat |}
       | None =>
           if jsstring_eqb (req_path req) (str "/api/chats") then
             Some {| status := 200; json_body := Some (VArr [new_chat]) |}
           else Some {| status := 200; json_body := Some new_chat |}
       end;
     user_confirms := fun _ _ => true |}.

(** A list with one chat, whose identifier is the number 7. *)
Definition numbered_chats : list Value :=
  [VObj [(str "id", VNum 7); (str "title", VStr (str "T"))]].

(** No network: every request fails. *)
Definition offline : Env :=
  {| server := fun _ _ => None; user_confirms := fun _ _ => true |}.

(** A Firebase user with an email. *)
Definition alice : Auth.User :=
  {| Auth.uid := str "u1"; Auth.email := Some (str "a@b.c") |}.

(** Firebase knows [alice] under the password "pw" and gives her the ID
    token "tok"; the backend accepts every login. *)
Definition auth_demo : Auth.Env :=
  {| Auth.createUserWithEmailAndPassword := fun _ _ =>
       Auth.Rejected (str "auth/email-already-in-use");
     Auth.signInWithEmailAndPassword := fun _ password =>
       if jsstring_eqb password (str "pw") then Auth.Fulfilled alice
       else Auth.Rejected (str "auth/wrong-password");
     Auth.getIdToken := fun _ => Auth.Fulfilled (str "tok");
     Auth.server := fun _ =>
       Some {| status := 200; json_body := Some (VObj [(str "ok", VBool true)]) |};
     Auth.engine_message := fun _ => str "engine" |}.

(** As [auth_demo], with a backend that refuses every login. *)
Definition auth_refusing : Auth.Env :=
  {| Auth.createUserWithEmailAndPassword :=
       Auth.createUserWithEmailAndPassword auth_demo;
     Auth.signInWithEmailAndPassword := Auth.signInWithEmailAndPassword auth_demo;
     Auth.getIdToken := Auth.getIdToken auth_demo;
     Auth.server := fun _ =>
       Some {| status := 401;
               json_body := Some (VObj [(str "error", VStr (str "Invalid token"))]) |};
     Auth.engine_message := Auth.engine_message auth_demo |}.

(** The landing page with both fields filled. *)
Definition landing : Auth.Page :=
  {| Auth.emailInput := str " a@b.c "; Auth.passwordInput := str "pw";
     Auth.authError_textContent := VStr (str ""); Auth.authError_display := str "none";
     Auth.storage := ∅; Auth.href := None |}.

(** The landing page with blanks for an email. *)
Definition blank_landing : Auth.Page :=
  {| Auth.emailInput := str "  "; Auth.passwordInput := str "pw";
     Auth.authError_textContent := VStr (str ""); Auth.authError_display := str "none";
     Auth.storage := ∅; Auth.href := None |}.

(** * Properties *)

(** ** Running the monad *)

Lemma bind_ok {A B} (m : M A) (f : A -> M B) st a st1 t1 :
  m st = MkRun (Ok a) st1 t1 ->
  bind m f st = MkRun (outcome (f a st1)) (final (f a st1)) (t1 ++ trace (f a st1)).
Proof. unfold bind. intros ->. destruct (f a st1). reflexivity. Qed.

Lemma bind_throw {A B} (m : M A) (f : A -> M B) st e st1 t1 :
  m st = MkRun (Throw e) st1 t1 ->
  bind m f st = MkRun (Throw e) st1 t1.
Proof. unfold bind. intros ->. reflexivity. Qed.

Lemma run_eta {A} (r : Run A) : MkRun (outcome r) (final r) (trace r) = r.
Proof. destruct r. reflexivity. Qed.

Lemma run_of_outcome {A} (r : Run A) a :
  outcome r = Ok a -> r = MkRun (Ok a) (final r) (trace r).
Proof. destruct r; cbn; intros ->; reflexivity. Qed.

Lemma forEach_cons {A} (x : A) rest (f : A -> M unit) :
  forEach (x :: rest) f = (f x ;;; forEach rest f).
Proof. reflexivity. Qed.

Lemma forEach_frame {A} (R : State -> State -> Prop) (f : A -> M unit) :
  (forall st, R st st) ->
  (forall a b c, R a b -> R b c -> R a c) ->
  (forall x st, R st (final (f x st))) ->
  forall items st, R st (final (forEach items f st)).
Proof.
  intros Hrefl Htrans Hf. induction items as [|x items IH]; intros st.
  - apply Hrefl.
  - rewrite forEach_cons. unfold bind.
    pose proof (Hf x st) as Hx. destruct (f x st) as [[[]|e] st1 t1]; cbn in *.
    + pose proof (IH st1) as Hrest. destruct (forEach items f st1) as [o st2 t2].
      cbn in *. eapply Htrans; eassumption.
    + exact Hx.
Qed.

(** ** JavaScript values and strings *)

Lemma jsstring_eqb_refl s : jsstring_eqb s s = true.
Proof. unfold jsstring_eqb. apply bool_decide_eq_true. reflexivity. Qed.

Lemma jsstring_eqb_eq a b : jsstring_eqb a b = true <-> a = b.
Proof. unfold jsstring_eqb. apply bool_decide_eq_true. Qed.

Lemma jsstring_eqb_neq a b : a <> b -> jsstring_eqb a b = false.
Proof. unfold jsstring_eqb. intros H. apply bool_decide_eq_false. exact H. Qed.

Lemma getProp_nullish v k : nullish v = true -> getProp v k = Throw TypeError.
Proof. destruct v; cbn; intros; try discriminate; reflexivity. Qed.

Lemma getProp_defined v k : nullish v = false -> getProp v k = Ok (prop v k).
Proof.
  unfold prop, getProp. destruct v; intros H; try discriminate; try reflexivity;
    destruct (jsstring_eqb k (str "length")); reflexivity.
Qed.

Lemma truthy_not_nullish v : truthy v = true -> nullish v = false.
Proof. destruct v; cbn; intros; try discriminate; reflexivity. Qed.

Lemma split_no_separator sep s : sep ∉ s -> split sep s = [s].
Proof.
  induction s as [|c s IH]; intros H; [reflexivity|].
  cbn [split]. destruct (N.eqb_spec c sep) as [->|Hne].
  - exfalso. apply H. left.
  - rewrite IH; [reflexivity|]. intros Hin. apply H. right. exact Hin.
Qed.

Lemma segments_chat_location id :
  id <> [] -> 47%N ∉ id -> segments (str "/c/" ++ id) = [str "c"; id].
Proof.
  intros Hne Hsep. unfold segments.
  change (str "/c/" ++ id) with (47 :: 99 :: 47 :: id)%N.
  cbn [split N.eqb Pos.eqb]. rewrite (split_no_separator _ _ Hsep).
  destruct id; [congruence|reflexivity].
Qed.

(** ** escapeHtml *)

Example escapeHtml_demo :
  escapeHtml (VStr (markup "<a href='x'>T&C</a>")) =
  str "&lt;a href=&quot;x&quot;&gt;T&amp;C&lt;/a&gt;".
Proof. vm_compute. reflexivity. Qed.

Lemma replaceAll_app c r a b :
  replaceAll c r (a ++ b) = replaceAll c r a ++ replaceAll c r b.
Proof. unfold replaceAll. apply flat_map_app. Qed.

Lemma replaceAll_cons c r x s :
  replaceAll c r (x :: s) = (if N.eqb x c then r else [x]) ++ replaceAll c r s.
Proof. reflexivity. Qed.

Lemma entity_other c :
  c <> 38%N -> c <> 60%N -> c <> 62%N -> c <> 34%N -> entity c = [c].
Proof.
  intros H1 H2 H3 H4. unfold entity.
  rewrite !(proj2 (N.eqb_neq _ _)) by assumption. reflexivity.
Qed.

Lemma entity_cases c :
  (c = 38%N \/ c = 60%N \/ c = 62%N \/ c = 34%N) \/
  (c <> 38%N /\ c <> 60%N /\ c <> 62%N /\ c <> 34%N).
Proof.
  destruct (N.eq_dec c 38%N); [tauto|].
  destruct (N.eq_dec c 60%N); [tauto|].
  destruct (N.eq_dec c 62%N); [tauto|].
  destruct (N.eq_dec c 34%N); tauto.
Qed.

Lemma escape_one c :
  replaceAll 34 (str "&quot;")
    (replaceAll 62 (str "&gt;")
       (replaceAll 60 (str "&lt;")
          (if N.eqb c 38 then str "&amp;" else [c]))) = entity c.
Proof.
  destruct (entity_cases c) as [[-> | [-> | [-> | ->]]] | (H1 & H2 & H3 & H4)];
    try reflexivity.
  rewrite entity_other by assumption.
  rewrite (proj2 (N.eqb_neq _ _) H1).
  rewrite !replaceAll_cons, !app_nil_r.
  rewrite (proj2 (N.eqb_neq _ _) H2). rewrite replaceAll_cons, app_nil_r.
  rewrite (proj2 (N.eqb_neq _ _) H3). rewrite replaceAll_cons, app_nil_r.
  rewrite (proj2 (N.eqb_neq _ _) H4). reflexivity.
Qed.

Lemma escapeHtml_cons c s :
  escapeHtml (VStr (c :: s)) = entity c ++ escapeHtml (VStr s).
Proof.
  unfold escapeHtml. cbn [ToString].
  rewrite replaceAll_cons, !replaceAll_app, escape_one. reflexivity.
Qed.

Lemma escapeHtml_flat_map s : escapeHtml (VStr s) = flat_map entity s.
Proof.
  induction s as [|c s IH]; [reflexivity|].
  rewrite escapeHtml_cons, IH. reflexivity.
Qed.

Lemma escapeHtml_app a b :
  escapeHtml (VStr (a ++ b)) = escapeHtml (VStr a) ++ escapeHtml (VStr b).
Proof. rewrite !escapeHtml_flat_map. apply flat_map_app. Qed.

Lemma entity_no_markup c : forallb (fun x => negb (is_markup_char x)) (entity c) = true.
Proof.
  destruct (entity_cases c) as [[-> | [-> | [-> | ->]]] | (H1 & H2 & H3 & H4)];
    try reflexivity.
  rewrite entity_other by assumption. cbn. unfold is_markup_char.
  rewrite !(proj2 (N.eqb_neq _ _)) by assumption. reflexivity.
Qed.

Lemma escapeHtml_no_markup s :
  forallb (fun x => negb (is_markup_char x)) (escapeHtml (VStr s)) = true.
Proof.
  induction s as [|c s IH]; [reflexivity|].
  rewrite escapeHtml_cons, forallb_app, entity_no_markup, IH. reflexivity.
Qed.

Lemma decode_entity c rest :
  decode_entities (entity c ++ rest) = c :: decode_entities rest.
Proof.
  destruct (entity_cases c) as [[-> | [-> | [-> | ->]]] | (H1 & H2 & H3 & H4)];
    try reflexivity.
  rewrite entity_other by assumption. cbn [app decode_entities].
  rewrite (proj2 (N.eqb_neq _ _) H1). reflexivity.
Qed.

Lemma decode_escapeHtml s : decode_entities (escapeHtml (VStr s)) = s.
Proof.
  induction s as [|c s IH]; [reflexivity|].
  rewrite escapeHtml_cons, decode_entity, IH. reflexivity.
Qed.

Lemma escaped_is_metachar c :
  escapeHtml (VStr [c]) <> [c] -> c ∈ [38; 60; 62; 34]%N.
Proof.
  intros H. destruct (entity_cases c) as [[-> | [-> | [-> | ->]]] | (H1 & H2 & H3 & H4)].
  - set_solver.
  - set_solver.
  - set_solver.
  - set_solver.
  - exfalso. apply H. rewrite escapeHtml_flat_map. cbn. rewrite app_nil_r.
    apply entity_other; assumption.
Qed.

Lemma appendMessage_run role content st :
  appendMessage role content st =
  let div := message_element (next_node st) role content in
  MkRun (Ok div)
    (with_messages_panel (messages_panel st ++ [div])
       (with_next_node (S (next_node st)) st))
    [AppendChild MessagesPanel div].
Proof. reflexivity. Qed.

(** C1, as amended: [escapeHtml] escapes four characters, the ampersand,
    the two angle brackets and the double quote.  For every string, each
    code unit of the input becomes its entity when it is one of the four
    and stays as it is otherwise (the apostrophe included); the result has
    no angle bracket and no double quote, and reading its character
    references back gives the input.  The markup of a message bubble and of
    a sidebar row carries message content and chat title in this escaped
    form only. *)
Theorem escapeHtml_escapes_four (s : jsstring) :
  escapeHtml (VStr s) = flat_map entity s
  /\ entity 38 = str "&amp;" /\ entity 60 = str "&lt;"
  /\ entity 62 = str "&gt;" /\ entity 34 = str "&quot;"
  /\ (forall c, c ∉ [38; 60; 62; 34]%N -> entity c = [c])
  /\ forallb (fun c => negb (is_markup_char c)) (escapeHtml (VStr s)) = true
  /\ decode_entities (escapeHtml (VStr s)) = s
  /\ (forall role st,
        exists div,
          outcome (appendMessage role (VStr s) st) = Ok div
          /\ messages_panel (final (appendMessage role (VStr s) st))
             = messages_panel st ++ [div]
          /\ innerHTML div
             = [10%N] ++ markup "    <div class='bubble'>" ++ flat_map entity s
               ++ markup "</div>" ++ [10%N] ++ str "  ")
  /\ (forall n id active,
        innerHTML (row_element n id (VStr s) active)
        = [10%N] ++ markup "      <span class='chat-title' title='"
          ++ flat_map entity s ++ markup "'>" ++ flat_map entity s
          ++ markup "</span>" ++ [10%N]
          ++ markup "      <button class='delete-btn' title='Delete chat' data-id='"
          ++ ToString id ++ markup "'>" ++ [10005%N] ++ markup "</button>"
          ++ [10%N] ++ str "    ").
Proof.
  split; [apply escapeHtml_flat_map|].
  do 4 (split; [reflexivity|]).
  split.
  { intros c Hc. apply entity_other; intros ->; apply Hc; set_solver. }
  split; [apply escapeHtml_no_markup|].
  split; [apply decode_escapeHtml|].
  split.
  - intros role st. rewrite appendMessage_run. cbn zeta.
    eexists. split; [reflexivity|]. split; [reflexivity|].
    cbn [innerHTML message_element]. unfold bubble_html.
    rewrite escapeHtml_flat_map. reflexivity.
  - intros n id active. cbn [innerHTML row_element]. unfold row_html.
    rewrite escapeHtml_flat_map. reflexivity.
Qed.

(** C1 as stated fails: five metacharacters are announced, four are
    escaped.  The apostrophe comes back unchanged, and no five distinct
    code units are changed by [escapeHtml]. *)
Lemma escapeHtml_five_metacharacters_cex :
  escapeHtml (VStr (str "'")) = str "'"
  /\ ~ (exists l : list N,
          NoDup l /\ length l = 5
          /\ Forall (fun c => escapeHtml (VStr [c]) <> [c]) l).
Proof.
  split; [reflexivity|].
  intros (l & Hnd & Hlen & Hall).
  assert (Hsub : l ⊆+ [38; 60; 62; 34]%N).
  { apply NoDup_submseteq; [assumption|].
    intros c Hc. apply escaped_is_metachar.
    rewrite Forall_forall in Hall. apply Hall. assumption. }
  apply submseteq_length in Hsub. cbn in Hsub. lia.
Qed.

(** ** The transport adapter *)

Lemma apiFetch_run env path opts st :
  apiFetch env path opts st =
  let req := request_of (token_of st) path opts in
  match server env (clock st) req with
  | None => MkRun (Ok VNull) (sent st) [Fetch req; ConsoleError]
  | Some r =>
      if (status r =? 401)%Z then
        MkRun (Ok VNull) (signed_out (sent st)) [Fetch req; StorageClear; Navigate (str "/")]
      else if negb (res_ok r) then MkRun (Ok VNull) (sent st) [Fetch req]
      else match json_body r with
           | Some v => MkRun (Ok v) (sent st) [Fetch req]
           | None => MkRun (Ok VNull) (sent st) [Fetch req; ConsoleError]
           end
  end.
Proof.
  unfold apiFetch, bind, try_catch, localStorage_getItem, gets, fetch.
  fold (token_of st). cbn zeta.
  destruct (server env (clock st) (request_of (token_of st) path opts)) as [r|];
    [|reflexivity].
  destruct (status r =? 401)%Z; [reflexivity|].
  destruct (res_ok r); cbn [negb]; [|reflexivity].
  unfold res_json. destruct (json_body r); reflexivity.
Qed.

Lemma res_ok_not_401 r : res_ok r = true -> (status r =? 401)%Z = false.
Proof. unfold res_ok. intros H. apply andb_true_iff in H. lia. Qed.

(** C4: [apiFetch] never throws.  A network failure, a response that is
    not a success (the 401 included) and a success whose body is not JSON
    all give [null]; a success gives the parsed payload. *)
Theorem apiFetch_never_throws (env : Env) (path : jsstring) (opts : Opts) (st : State) :
  let req := request_of (token_of st) path opts in
  let run := apiFetch env path opts st in
  (exists v, outcome run = Ok v)
  /\ (server env (clock st) req = None -> outcome run = Ok VNull)
  /\ (forall r, server env (clock st) req = Some r ->
        res_ok r = false -> outcome run = Ok VNull)
  /\ (forall r, server env (clock st) req = Some r ->
        res_ok r = true -> json_body r = None -> outcome run = Ok VNull)
  /\ (forall r payload, server env (clock st) req = Some r ->
        res_ok r = true -> json_body r = Some payload -> outcome run = Ok payload).
Proof.
  cbn zeta. rewrite apiFetch_run. cbn zeta.
  destruct (server env (clock st) (request_of (token_of st) path opts)) as [r|].
  - destruct (status r =? 401)%Z eqn:E401.
    + split; [eexists; reflexivity|]. split; [discriminate|].
      split; [reflexivity|].
      split; intros ? **; simplify_eq; exfalso;
        match goal with H : res_ok _ = true |- _ =>
          apply res_ok_not_401 in H; congruence end.
    + destruct (res_ok r) eqn:Eok; cbn [negb];
        [destruct (json_body r) as [p|] eqn:Ebody|];
        (split; [eexists; reflexivity|]); (split; [discriminate|]);
        repeat split; intros; simplify_eq;
        first [reflexivity | exfalso; congruence | cbn; congruence].
  - split; [eexists; reflexivity|]. split; [reflexivity|].
    split; [discriminate|]. split; discriminate.
Qed.

Lemma apiFetch_shape env path opts st :
  exists v st1 extra,
    apiFetch env path opts st
    = MkRun (Ok v) st1 (Fetch (request_of (token_of st) path opts) :: extra)
    /\ (st1 = sent st /\ (extra = [] \/ extra = [ConsoleError] /\ v = VNull)
        \/ st1 = signed_out (sent st)
           /\ extra = [StorageClear; Navigate (str "/")] /\ v = VNull).
Proof.
  rewrite apiFetch_run. cbn zeta.
  destruct (server env (clock st) (request_of (token_of st) path opts)) as [r|].
  - destruct (status r =? 401)%Z; [eauto 10|].
    destruct (res_ok r); cbn [negb]; [|eauto 10].
    destruct (json_body r) as [p|]; eauto 10.
  - eauto 10.
Qed.

(** What a request leaves of the page: everything but the clock, and the
    stored credentials and the location when it met a 401. *)
Lemma apiFetch_page env path opts st :
  let st1 := final (apiFetch env path opts st) in
  activeChatId st1 = activeChatId st
  /\ chat_list st1 = chat_list st
  /\ messages_panel st1 = messages_panel st
  /\ msg_input st1 = msg_input st
  /\ location st1 = location st
  /\ input_area_display st1 = input_area_display st
  /\ next_node st1 = next_node st
  /\ clock st1 = S (clock st).
Proof.
  destruct (apiFetch_shape env path opts st)
    as (v & st1 & extra & -> & [[-> _] | [-> _]]); repeat split.
Qed.

Lemma apiFetch_401 env path opts st r :
  server env (clock st) (request_of (token_of st) path opts) = Some r ->
  status r = 401%Z ->
  apiFetch env path opts st
  = MkRun (Ok VNull) (signed_out (sent st))
      [Fetch (request_of (token_of st) path opts); StorageClear; Navigate (str "/")].
Proof. intros Hr Hs. rewrite apiFetch_run. cbn zeta. rewrite Hr, Hs. reflexivity. Qed.

Lemma apiFetch_not_401 env path opts st :
  (forall r, server env (clock st) (request_of (token_of st) path opts) = Some r ->
             status r <> 401%Z) ->
  final (apiFetch env path opts st) = sent st.
Proof.
  intros H. rewrite apiFetch_run. cbn zeta.
  destruct (server env (clock st) (request_of (token_of st) path opts)) as [r|];
    [|reflexivity].
  specialize (H r eq_refl).
  rewrite (proj2 (Z.eqb_neq _ _) H).
  destruct (res_ok r); cbn [negb]; [|reflexivity].
  destruct (json_body r); reflexivity.
Qed.

Lemma apiFetch_signed_out_only_401 env path opts st :
  final (apiFetch env path opts st) = sent st
  \/ (final (apiFetch env path opts st) = signed_out (sent st)
      /\ exists r, server env (clock st) (request_of (token_of st) path opts) = Some r
                   /\ status r = 401%Z).
Proof.
  rewrite apiFetch_run. cbn zeta.
  destruct (server env (clock st) (request_of (token_of st) path opts)) as [r|];
    [|left; reflexivity].
  destruct (status r =? 401)%Z eqn:E.
  - right. split; [reflexivity|]. exists r. split; [reflexivity|]. lia.
  - left. destruct (res_ok r); cbn [negb]; [|reflexivity].
    destruct (json_body r); reflexivity.
Qed.

(** ** Losing the session *)

Lemma signed_out_idempotent st : signed_out (signed_out st) = signed_out st.
Proof. reflexivity. Qed.

Lemma token_of_signed_out st : token_of (signed_out st) = VNull.
Proof. reflexivity. Qed.

Lemma onDOMContentLoaded_no_token env st :
  truthy (token_of st) = false ->
  onDOMContentLoaded env st
  = MkRun (Ok tt) (with_auth_overlay_display (str "flex") st)
      [SetDisplay (str "auth-overlay") (str "flex")].
Proof.
  intros H. unfold onDOMContentLoaded.
  erewrite bind_ok by reflexivity. fold (token_of st). rewrite H. reflexivity.
Qed.

Lemma onDOMContentLoaded_check_failed env st me :
  truthy (token_of st) = true ->
  outcome (apiFetch env (str "/api/auth/me") no_opts st) = Ok me ->
  truthy me = false ->
  let check := apiFetch env (str "/api/auth/me") no_opts st in
  onDOMContentLoaded env st
  = MkRun (Ok tt) (with_auth_overlay_display (str "flex") (final check))
      (trace check ++ [SetDisplay (str "auth-overlay") (str "flex")]).
Proof.
  intros Htok Hme Hfalsy check. unfold onDOMContentLoaded.
  erewrite bind_ok by reflexivity. fold (token_of st). rewrite Htok. cbn [negb].
  rewrite (bind_ok _ _ _ _ _ _ (run_of_outcome _ _ Hme)). rewrite Hfalsy.
  reflexivity.
Qed.

(** C3, as amended: a request that receives status 401 clears the local
    storage and sends the browser to "/", after one attempt and whatever
    the page was doing; a further 401 leaves credentials and target as they
    are.  The startup guard shows the not-logged-in overlay and stops when
    no token is stored or the identity check gives no result; the stored
    credentials are cleared when that check received a 401, and kept when it
    failed in another way. *)
Theorem unauthenticated_transition (env : Env) (st : State) :
  (forall path opts r,
      server env (clock st) (request_of (token_of st) path opts) = Some r ->
      status r = 401%Z ->
      let run := apiFetch env path opts st in
      outcome run = Ok VNull
      /\ trace run = [Fetch (request_of (token_of st) path opts);
                      StorageClear; Navigate (str "/")]
      /\ localStorage (final run) = ∅
      /\ navigation (final run) = Some (str "/")
      /\ forall path' opts' r',
           server env (clock (final run))
             (request_of (token_of (final run)) path' opts') = Some r' ->
           status r' = 401%Z ->
           final (apiFetch env path' opts' (final run)) = sent (final run))
  /\ (truthy (token_of st) = false ->
      onDOMContentLoaded env st
      = MkRun (Ok tt) (with_auth_overlay_display (str "flex") st)
          [SetDisplay (str "auth-overlay") (str "flex")])
  /\ (forall me,
      truthy (token_of st) = true ->
      outcome (apiFetch env (str "/api/auth/me") no_opts st) = Ok me ->
      truthy me = false ->
      let run := onDOMContentLoaded env st in
      let req := request_of (token_of st) (str "/api/auth/me") no_opts in
      outcome run = Ok tt
      /\ auth_overlay_display (final run) = str "flex"
      /\ wired (final run) = wired st
      /\ chat_list (final run) = chat_list st
      /\ clock (final run) = S (clock st)
      /\ (forall r, server env (clock st) req = Some r -> status r = 401%Z ->
            localStorage (final run) = ∅
            /\ navigation (final run) = Some (str "/"))
      /\ ((forall r, server env (clock st) req = Some r -> status r <> 401%Z) ->
            localStorage (final run) = localStorage st
            /\ navigation (final run) = navigation st)).
Proof.
  split; [|split].
  - intros path opts r Hr Hs run. unfold run.
    rewrite (apiFetch_401 _ _ _ _ _ Hr Hs). cbn [outcome trace final].
    repeat split.
    intros path' opts' r' Hr' Hs'.
    rewrite (apiFetch_401 _ _ _ _ _ Hr' Hs'). reflexivity.
  - apply onDOMContentLoaded_no_token.
  - intros me Htok Hme Hfalsy run req. unfold run.
    rewrite (onDOMContentLoaded_check_failed env st me Htok Hme Hfalsy).
    cbn [outcome final trace].
    split; [reflexivity|].
    split; [reflexivity|].
    destruct (apiFetch_shape env (str "/api/auth/me") no_opts st)
      as (v & st1 & extra & Hrun & Hcases).
    split; [rewrite Hrun; destruct Hcases as [[-> _] | [-> _]]; reflexivity|].
    split; [rewrite Hrun; destruct Hcases as [[-> _] | [-> _]]; reflexivity|].
    split; [rewrite Hrun; destruct Hcases as [[-> _] | [-> _]]; reflexivity|].
    split.
    + intros r Hr Hs. rewrite (apiFetch_401 _ _ _ _ _ Hr Hs). split; reflexivity.
    + intros Hnot. unfold req in Hnot.
      rewrite (apiFetch_not_401 _ _ _ _ Hnot). split; reflexivity.
Qed.

(** C3 as stated fails at the startup guard: with a stored token and an
    identity check that fails with status 500, the overlay is shown but the
    token stays in local storage and no navigation starts. *)
Lemma startup_guard_keeps_credentials_cex :
  let run := onDOMContentLoaded failing_server page0 in
  outcome (apiFetch failing_server (str "/api/auth/me") no_opts page0) = Ok VNull
  /\ outcome run = Ok tt
  /\ auth_overlay_display (final run) = str "flex"
  /\ localStorage (final run) !! str "fb_id_token" = Some (str "tok")
  /\ localStorage (final run) <> ∅
  /\ navigation (final run) = None.
Proof.
  cbn zeta. repeat split; try (vm_compute; reflexivity).
  intros H. apply (f_equal (fun m => m !! str "fb_id_token")) in H.
  vm_compute in H. discriminate H.
Qed.

(** ** The sidebar *)

Lemma rows_from_length active n items :
  length (rows_from active n items) = length items.
Proof.
  revert n. induction items as [|c items IH]; intros n; cbn; [reflexivity|].
  rewrite IH. reflexivity.
Qed.

Lemma render_row_run chat st :
  nullish chat = false ->
  render_row chat st =
  let li := chat_row (activeChatId st) (next_node st) chat in
  MkRun (Ok tt)
    (with_chat_list (chat_list st ++ [li]) (with_next_node (S (next_node st)) st))
    [AppendChild ChatList li].
Proof.
  intros H. unfold render_row, bind, createElement, lift, gets, appendChild, act.
  rewrite !(getProp_defined _ _ H). reflexivity.
Qed.

Lemma render_row_throws chat st :
  nullish chat = true ->
  render_row chat st =
  MkRun (Throw TypeError) (with_next_node (S (next_node st)) st) [].
Proof.
  intros H. unfold render_row, bind, createElement, lift.
  rewrite !(getProp_nullish _ _ H). reflexivity.
Qed.

Lemma render_rows_run items : forall st,
  Forall (fun c => nullish c = false) items ->
  forEach items render_row st =
  let rows := rows_from (activeChatId st) (next_node st) items in
  MkRun (Ok tt)
    (with_chat_list (chat_list st ++ rows)
       (with_next_node (next_node st + length items) st))
    (map (AppendChild ChatList) rows).
Proof.
  induction items as [|c items IH]; intros st Hall.
  - cbn. rewrite app_nil_r, Nat.add_0_r. destruct st; reflexivity.
  - inversion Hall as [|? ? Hc Hrest]; subst.
    rewrite forEach_cons.
    rewrite (bind_ok _ _ _ _ _ _ (render_row_run c st Hc)).
    rewrite (IH _ Hrest). cbn.
    rewrite <- app_assoc, Nat.add_succ_r. reflexivity.
Qed.

Lemma renderChatList_empty st :
  renderChatList (VArr []) st =
  MkRun (Ok tt)
    (with_next_node (S (next_node st))
       (with_chat_list [empty_hint (next_node st)] st))
    [SetInnerHTML ChatList (str ""); SetInnerHTML ChatList empty_hint_html].
Proof. destruct st; reflexivity. Qed.

Lemma renderChatList_rows c items st :
  Forall (fun c => nullish c = false) (c :: items) ->
  renderChatList (VArr (c :: items)) st =
  let rows := rows_from (activeChatId st) (next_node st) (c :: items) in
  MkRun (Ok tt)
    (with_chat_list rows (with_next_node (next_node st + length (c :: items)) st))
    (SetInnerHTML ChatList (str "") :: map (AppendChild ChatList) rows).
Proof.
  intros Hall. unfold renderChatList.
  erewrite bind_ok by reflexivity.
  erewrite bind_ok by reflexivity.
  change (strict_eq (VNum (Z.of_nat (length (c :: items)))) (VNum 0))
    with (Z.of_nat (S (length items)) =? 0)%Z.
  rewrite (proj2 (Z.eqb_neq _ _)) by lia.
  erewrite bind_ok by reflexivity.
  rewrite (render_rows_run _ _ Hall). destruct st; reflexivity.
Qed.

Lemma rows_from_content active n m items :
  map content (rows_from active n items) = map content (rows_from active m items).
Proof.
  revert n m. induction items as [|c items IH]; intros n m; cbn; [reflexivity|].
  f_equal. apply IH.
Qed.

Lemma renderChatList_array items st :
  Forall (fun c => nullish c = false) items ->
  let run := renderChatList (VArr items) st in
  outcome run = Ok tt
  /\ activeChatId (final run) = activeChatId st
  /\ chat_list (final run)
     = match items with
       | [] => [empty_hint (next_node st)]
       | _ => rows_from (activeChatId st) (next_node st) items
       end.
Proof.
  intros Hall. destruct items as [|c items].
  - cbn zeta. rewrite renderChatList_empty. repeat split.
  - cbn zeta. rewrite (renderChatList_rows _ _ _ Hall). repeat split.
Qed.

(** C10: [renderChatList] first empties the list container, so what it
    leaves does not depend on what was there.  For every array of chats and
    every active identifier, rendering twice shows what rendering once
    shows; there is one row per chat, or the single placeholder when the
    array is empty. *)
Theorem renderChatList_idempotent (items : list Value) (st : State) :
  Forall (fun c => nullish c = false) items ->
  let once := renderChatList (VArr items) st in
  let twice := renderChatList (VArr items) (final once) in
  outcome once = Ok tt /\ outcome twice = Ok tt
  /\ map content (chat_list (final twice)) = map content (chat_list (final once))
  /\ (items = [] ->
      map content (chat_list (final once)) = [content (empty_hint 0)])
  /\ (items <> [] ->
      length (chat_list (final once)) = length items
      /\ Forall (fun row => has_class (str "chat-item") row = true)
           (chat_list (final once))).
Proof.
  intros Hall once twice.
  destruct (renderChatList_array items st Hall) as (Ho1 & Ha1 & Hl1).
  destruct (renderChatList_array items (final once) Hall) as (Ho2 & Ha2 & Hl2).
  fold once in Ho1, Ha1, Hl1. fold twice in Ho2, Ha2, Hl2.
  split; [exact Ho1|]. split; [exact Ho2|].
  rewrite Hl1, Hl2, Ha1.
  split.
  { destruct items; [reflexivity|]. apply rows_from_content. }
  split.
  { intros ->. reflexivity. }
  intros Hne. destruct items as [|c items]; [congruence|].
  split; [apply rows_from_length|].
  generalize (next_node st). generalize (c :: items). clear.
  intros l. induction l as [|x l IH]; intros n; cbn [rows_from]; constructor.
  - unfold chat_row, row_element, has_class. cbn [classList].
    destruct (strict_eq _ _); vm_compute; reflexivity.
  - apply IH.
Qed.

(** C9: when the list request gives no result, or gives the empty array,
    [loadChatList] leaves exactly one row in the sidebar, the placeholder:
    it is no chat row, carries no identifier and has no listener. *)
Theorem loadChatList_placeholder (env : Env) (st : State) (chats : Value) :
  outcome (apiFetch env (str "/api/chats") no_opts st) = Ok chats ->
  chats = VNull \/ chats = VArr [] ->
  let run := loadChatList env st in
  outcome run = Ok tt
  /\ chat_list (final run) = [empty_hint (next_node st)]
  /\ Forall (fun row =>
               classList row = [str "empty-hint"]
               /\ innerHTML row = str "No chats yet. Start one!"
               /\ dataset_id row = None
               /\ listeners row = []
               /\ has_class (str "chat-item") row = false)
       (chat_list (final run)).
Proof.
  intros Hfetch Hchats run.
  pose proof (apiFetch_page env (str "/api/chats") no_opts st) as Hpage.
  cbn zeta in Hpage. destruct Hpage as (_ & _ & _ & _ & _ & _ & Hnode & _).
  unfold run, loadChatList.
  rewrite (bind_ok _ _ _ _ _ _ (run_of_outcome _ _ Hfetch)).
  assert (Hor : or_else chats (VArr []) = VArr [])
    by (destruct Hchats as [-> | ->]; reflexivity).
  rewrite Hor, renderChatList_empty. cbn [outcome final chat_list with_next_node
    with_chat_list]. rewrite Hnode.
  split; [reflexivity|]. split; [reflexivity|].
  constructor; [|constructor]. repeat split.
Qed.

(** ** What the sidebar renderer leaves alone *)

Lemma sidebar_frame_refl st : sidebar_frame st st.
Proof. reflexivity. Qed.

Lemma sidebar_frame_trans a b c :
  sidebar_frame a b -> sidebar_frame b c -> sidebar_frame a c.
Proof. unfold sidebar_frame. congruence. Qed.

Lemma sidebar_frame_fields st st' :
  sidebar_frame st st' ->
  activeChatId st' = activeChatId st
  /\ localStorage st' = localStorage st
  /\ location st' = location st
  /\ navigation st' = navigation st
  /\ messages_panel st' = messages_panel st
  /\ msg_input st' = msg_input st
  /\ input_area_display st' = input_area_display st
  /\ clock st' = clock st.
Proof.
  unfold sidebar_frame. intros H.
  repeat split;
    [ apply (f_equal activeChatId) in H | apply (f_equal localStorage) in H
    | apply (f_equal location) in H | apply (f_equal navigation) in H
    | apply (f_equal messages_panel) in H | apply (f_equal msg_input) in H
    | apply (f_equal input_area_display) in H | apply (f_equal clock) in H ];
    exact H.
Qed.

Lemma render_rows_frame items : forall st,
  sidebar_frame st (final (forEach items render_row st))
  /\ forallb is_sidebar_effect (trace (forEach items render_row st)) = true.
Proof.
  induction items as [|c items IH]; intros st; [split; reflexivity|].
  rewrite forEach_cons. destruct (nullish c) eqn:Hc.
  - rewrite (bind_throw _ _ _ _ _ _ (render_row_throws c st Hc)).
    split; reflexivity.
  - rewrite (bind_ok _ _ _ _ _ _ (render_row_run c st Hc)). cbn [final trace].
    destruct (IH (with_chat_list
                    (chat_list st ++ [chat_row (activeChatId st) (next_node st) c])
                    (with_next_node (S (next_node st)) st))) as [Hf Ht].
    split.
    + eapply sidebar_frame_trans; [|exact Hf]. reflexivity.
    + cbn [app forallb is_sidebar_effect andb]. exact Ht.
Qed.

Lemma renderChatList_frame chats st :
  sidebar_frame st (final (renderChatList chats st))
  /\ forallb is_sidebar_effect (trace (renderChatList chats st)) = true.
Proof.
  unfold renderChatList.
  erewrite bind_ok by reflexivity.
  destruct (getProp chats (str "length")) as [len|e] eqn:Hlen.
  - erewrite bind_ok by reflexivity.
    destruct (strict_eq len (VNum 0)); [split; reflexivity|].
    destruct (array_items chats) as [items|e] eqn:Hitems.
    + erewrite bind_ok by reflexivity. cbn [final trace].
      destruct (render_rows_frame items
                  (with_next_node (length (@nil (nat -> Element)) + next_node st)
                     (with_children ChatList (instantiate (next_node st) []) st)))
        as [Hf Ht].
      split.
      * eapply sidebar_frame_trans; [|exact Hf]. reflexivity.
      * cbn [app forallb is_sidebar_effect andb]. exact Ht.
    + erewrite bind_throw by reflexivity. split; reflexivity.
  - erewrite bind_throw by reflexivity. split; reflexivity.
Qed.

(** [loadChatList] sends the list request and then touches the sidebar only. *)
Lemma loadChatList_run env st :
  exists v st1 extra rest,
    apiFetch env (str "/api/chats") no_opts st
    = MkRun (Ok v) st1 (Fetch (request_of (token_of st) (str "/api/chats") no_opts) :: extra)
    /\ trace (loadChatList env st)
       = Fetch (request_of (token_of st) (str "/api/chats") no_opts) :: extra ++ rest
    /\ forallb is_sidebar_effect rest = true
    /\ sidebar_frame st1 (final (loadChatList env st)).
Proof.
  destruct (apiFetch_shape env (str "/api/chats") no_opts st)
    as (v & st1 & extra & Hrun & _).
  exists v, st1, extra, (trace (renderChatList (or_else v (VArr [])) st1)).
  split; [exact Hrun|].
  unfold loadChatList. rewrite (bind_ok _ _ _ _ _ _ Hrun). cbn [trace final].
  destruct (renderChatList_frame (or_else v (VArr [])) st1) as [Hf Ht].
  repeat split; assumption.
Qed.

(** ** Opening a chat *)

Lemma openChat_begin_run chatId st :
  openChat_begin chatId st
  = MkRun (Ok tt)
      (with_messages_panel (map (toggle_active chatId) (messages_panel st))
         (with_chat_list (map (toggle_active chatId) (chat_list st))
            (with_location (str "/c/" ++ ToString chatId)
               (with_activeChatId chatId st))))
      [AssignActive chatId; PushState (str "/c/" ++ ToString chatId);
       ToggleActive chatId].
Proof. reflexivity. Qed.

Lemma thread_frame_trans a b c :
  thread_frame a b -> thread_frame b c -> thread_frame a c.
Proof. unfold thread_frame. congruence. Qed.

Lemma thread_frame_fields st st' :
  thread_frame st st' ->
  activeChatId st' = activeChatId st
  /\ localStorage st' = localStorage st
  /\ location st' = location st
  /\ navigation st' = navigation st
  /\ chat_list st' = chat_list st
  /\ clock st' = clock st.
Proof.
  unfold thread_frame. intros H.
  repeat split;
    [ apply (f_equal activeChatId) in H | apply (f_equal localStorage) in H
    | apply (f_equal location) in H | apply (f_equal navigation) in H
    | apply (f_equal chat_list) in H | apply (f_equal clock) in H ];
    exact H.
Qed.

Lemma render_message_frame m st :
  thread_frame st (final (render_message m st)).
Proof.
  unfold render_message, bind, lift.
  destruct (getProp m (str "role")); [|reflexivity].
  destruct (getProp m (str "content")); reflexivity.
Qed.

Lemma openChat_resume_frame chat st :
  thread_frame st (final (openChat_resume chat st)).
Proof.
  unfold openChat_resume. destruct (truthy chat); cbn [negb]; [|reflexivity].
  erewrite bind_ok by reflexivity.
  destruct (getProp chat (str "messages")) as [messages|e];
    [|erewrite bind_throw by reflexivity; reflexivity].
  erewrite bind_ok by reflexivity.
  destruct (array_items (or_else messages (VArr []))) as [items|e];
    [|erewrite bind_throw by reflexivity; reflexivity].
  erewrite bind_ok by reflexivity. cbn [final].
  unfold bind at 1.
  set (st0 := with_next_node _ _).
  pose proof (forEach_frame thread_frame render_message
                (fun s => eq_refl) thread_frame_trans render_message_frame
                items st0) as Hloop.
  destruct (forEach items render_message st0) as [[[]|e] st1 t1]; cbn in *.
  - eapply thread_frame_trans; [|eapply thread_frame_trans; [exact Hloop|]];
      reflexivity.
  - eapply thread_frame_trans; [|exact Hloop]. reflexivity.
Qed.

Lemma openChat_run env chatId st :
  let begin := openChat_begin chatId st in
  let req := request_of (token_of st) (str "/api/chats/" ++ ToString chatId) no_opts in
  exists rest,
    trace (openChat env chatId st) = trace begin ++ Fetch req :: rest
    /\ activeChatId (final (openChat env chatId st)) = chatId
    /\ location (final (openChat env chatId st)) = str "/c/" ++ ToString chatId
    /\ chat_list (final (openChat env chatId st))
       = map (toggle_active chatId) (chat_list st).
Proof.
  cbn zeta. unfold openChat.
  rewrite (bind_ok _ _ _ _ _ _ (openChat_begin_run chatId st)).
  set (mid := with_messages_panel _ _).
  destruct (apiFetch_shape env (str "/api/chats/" ++ ToString chatId) no_opts mid)
    as (v & st1 & extra & Hrun & Hcases).
  rewrite (bind_ok _ _ _ _ _ _ Hrun). cbn [trace final].
  rewrite openChat_begin_run. cbn [trace].
  exists (extra ++ trace (openChat_resume v st1)).
  split; [reflexivity|].
  destruct (thread_frame_fields _ _ (openChat_resume_frame v st1))
    as (Ha & _ & Hl & _ & Hc & _).
  rewrite Ha, Hl, Hc.
  destruct Hcases as [[-> _] | [-> _]]; repeat split.
Qed.

Lemma has_class_toggle tok force el :
  has_class tok (classList_toggle tok force el) = force.
Proof.
  unfold classList_toggle. destruct force.
  - destruct (has_class tok el) eqn:H; [exact H|].
    unfold has_class. cbn [classList with_classList].
    rewrite existsb_app. cbn. rewrite jsstring_eqb_refl.
    apply orb_true_iff. right. reflexivity.
  - unfold has_class. cbn [classList with_classList].
    induction (classList el) as [|t l IH]; [reflexivity|].
    cbn [List.filter]. destruct (jsstring_eqb tok t) eqn:E; cbn [negb].
    + exact IH.
    + cbn [existsb]. rewrite E, IH. reflexivity.
Qed.

Lemma has_class_toggle_other tok tok' force el :
  tok' <> tok ->
  has_class tok' (classList_toggle tok force el) = has_class tok' el.
Proof.
  intros Hne. unfold classList_toggle. destruct force.
  - destruct (has_class tok el); [reflexivity|].
    unfold has_class. cbn [classList with_classList].
    rewrite existsb_app. cbn. rewrite (jsstring_eqb_neq _ _ Hne).
    rewrite !orb_false_r. reflexivity.
  - unfold has_class. cbn [classList with_classList].
    induction (classList el) as [|t l IH]; [reflexivity|].
    cbn [List.filter]. destruct (jsstring_eqb tok t) eqn:E; cbn [negb existsb].
    + apply jsstring_eqb_eq in E. subst t.
      rewrite (jsstring_eqb_neq _ _ Hne). exact IH.
    + rewrite IH. reflexivity.
Qed.

Lemma dataset_id_toggle tok force el :
  dataset_id (classList_toggle tok force el) = dataset_id el.
Proof.
  unfold classList_toggle. destruct force; [destruct (has_class tok el)|];
    reflexivity.
Qed.

Lemma chat_item_neq_active : str "chat-item" <> str "active".
Proof. discriminate. Qed.

Lemma toggle_active_node id el : node (toggle_active id el) = node el.
Proof.
  unfold toggle_active, classList_toggle.
  destruct (has_class (str "chat-item") el); [|reflexivity].
  destruct (strict_eq _ _); [destruct (has_class _ el)|]; reflexivity.
Qed.

Lemma toggle_active_other id el :
  has_class (str "chat-item") el = false -> toggle_active id el = el.
Proof. unfold toggle_active. intros ->. reflexivity. Qed.

Lemma is_active_row_toggle id row :
  is_active_row (toggle_active id row) = is_row_of id row.
Proof.
  unfold is_active_row, is_row_of, toggle_active.
  destruct (has_class (str "chat-item") row) eqn:H.
  - rewrite has_class_toggle.
    rewrite (has_class_toggle_other _ _ _ _ chat_item_neq_active), H. reflexivity.
  - rewrite H. reflexivity.
Qed.

Lemma filter_map_length {A} (p q : A -> bool) (f : A -> A) l :
  (forall x, p (f x) = q x) ->
  length (List.filter p (map f l)) = length (List.filter q l).
Proof.
  intros H. induction l as [|x l IH]; [reflexivity|].
  cbn. rewrite H. destruct (q x); cbn; rewrite IH; reflexivity.
Qed.

(** C5, as amended: [openChat id] stores the identifier, writes it into the
    location and re-marks the rows before the request is sent; when it has
    finished, whatever the request gave, the location is ["/c/" ++ id] and
    a chat row is marked active exactly when its identifier is [id].  So
    the number of active rows is the number of rendered rows of that chat:
    one when the sidebar shows the chat once, none when it does not show it. *)
Theorem openChat_highlight (env : Env) (id : jsstring) (st : State) :
  let begin := openChat_begin (VStr id) st in
  let run := openChat env (VStr id) st in
  let req := request_of (token_of st) (str "/api/chats/" ++ id) no_opts in
  outcome begin = Ok tt
  /\ trace begin = [AssignActive (VStr id); PushState (str "/c/" ++ id);
                    ToggleActive (VStr id)]
  /\ activeChatId (final begin) = VStr id
  /\ chat_list (final begin) = map (toggle_active (VStr id)) (chat_list st)
  /\ (exists rest, trace run = trace begin ++ Fetch req :: rest)
  /\ activeChatId (final run) = VStr id
  /\ location (final run) = str "/c/" ++ id
  /\ chat_list (final run) = map (toggle_active (VStr id)) (chat_list st)
  /\ Forall (fun row =>
               has_class (str "chat-item") row = true ->
               (has_class (str "active") row = true <-> dataset_id row = Some id))
       (chat_list (final run))
  /\ length (List.filter is_active_row (chat_list (final run)))
     = length (List.filter (is_row_of (VStr id)) (chat_list st)).
Proof.
  cbn zeta.
  destruct (openChat_run env (VStr id) st) as (rest & Ht & Ha & Hl & Hc).
  cbn zeta in Ht. cbn [ToString] in *.
  split; [reflexivity|]. split; [reflexivity|].
  split; [reflexivity|]. split; [reflexivity|].
  split; [exists rest; exact Ht|].
  split; [exact Ha|]. split; [exact Hl|]. split; [exact Hc|].
  rewrite Hc. split.
  - apply Forall_forall. intros row Hin.
    apply list_elem_of_In, in_map_iff in Hin. destruct Hin as (old & <- & _).
    unfold toggle_active. destruct (has_class (str "chat-item") old) eqn:Hitem.
    + intros _. rewrite has_class_toggle, dataset_id_toggle.
      unfold dataset_id_value. destruct (dataset_id old) as [d|]; cbn [strict_eq].
      * rewrite jsstring_eqb_eq. split; [intros ->; reflexivity|congruence].
      * split; discriminate.
    + intros H. congruence.
  - apply filter_map_length. apply is_active_row_toggle.
Qed.

(** C5 as stated fails when the sidebar does not show the chat.  The page
    is loaded at "/c/abc" and the list request fails: the routing step runs
    [openChat] on "abc", which completes; the location names the chat, its
    message is rendered and the input area is shown, but the sidebar holds
    the placeholder and no row is marked active. *)
Lemma openChat_unlisted_chat_cex :
  let run := openChat no_list_server (VStr (str "abc")) unlisted_page in
  final (onDOMContentLoaded no_list_server page0) = final run
  /\ outcome run = Ok tt
  /\ activeChatId (final run) = VStr (str "abc")
  /\ location (final run) = str "/c/abc"
  /\ length (messages_panel (final run)) = 1
  /\ input_area_display (final run) = str "flex"
  /\ length (chat_list (final run)) = 1
  /\ List.filter (has_class (str "active")) (chat_list (final run)) = [].
Proof. vm_compute. repeat split. Qed.

(** ** Routing at page load *)

Lemma openChat_trace_nonempty env chatId st : trace (openChat env chatId st) <> [].
Proof.
  destruct (openChat_run env chatId st) as (rest & Ht & _). rewrite Ht.
  rewrite openChat_begin_run. discriminate.
Qed.

(** With a valid session the page-load handler gets to the routing step,
    on the location it started with, once the list load has returned. *)
Lemma onDOMContentLoaded_routes env st me :
  truthy (token_of st) = true ->
  outcome (apiFetch env (str "/api/auth/me") no_opts st) = Ok me ->
  truthy me = true ->
  exists st1 t1,
    location st1 = location st
    /\ (outcome (loadChatList env st1) = Ok tt ->
        let st2 := final (loadChatList env st1) in
        let route := openChatFromLocation env st2 in
        location st2 = location st
        /\ onDOMContentLoaded env st
           = MkRun (outcome route) (final route)
               (t1 ++ trace (loadChatList env st1) ++ trace route)).
Proof.
  intros Htok Hme Htruthy.
  pose proof (apiFetch_page env (str "/api/auth/me") no_opts st) as Hpage.
  cbn zeta in Hpage. destruct Hpage as (_ & _ & _ & _ & Hloc & _).
  set (check := apiFetch env (str "/api/auth/me") no_opts st) in *.
  set (email := or_else (prop me (str "email")) (prop me (str "uid"))).
  set (st1 :=
         final (addEventListener (str "msg-input") (str "keydown") HSendOnEnter
           (final (addEventListener (str "send-btn") (str "click") HSendMessage
             (final (addEventListener (str "btn-logout") (str "click") HLogout
               (final (addEventListener (str "btn-new-chat") (str "click") HCreateNewChat
                 (final (set_user_email email (final check))))))))))).
  exists st1.
  exists (trace check
          ++ [SetTextContent (str "user-email") email;
              AddEventListener (str "btn-new-chat") (str "click") HCreateNewChat;
              AddEventListener (str "btn-logout") (str "click") HLogout;
              AddEventListener (str "send-btn") (str "click") HSendMessage;
              AddEventListener (str "msg-input") (str "keydown") HSendOnEnter]).
  split; [exact Hloc|].
  intros Hload st2 route.
  destruct (loadChatList_run env st1) as (v & sta & extra & rest & _ & _ & _ & Hframe).
  assert (Hloc2 : location st2 = location st).
  { unfold st2.
    destruct (apiFetch_page env (str "/api/chats") no_opts st1)
      as (_ & _ & _ & _ & Hl1 & _).
    unfold loadChatList. destruct (apiFetch_shape env (str "/api/chats") no_opts st1)
      as (v' & st1' & extra' & Hrun & _).
    rewrite Hrun in Hl1. cbn [final] in Hl1.
    rewrite (bind_ok _ _ _ _ _ _ Hrun). cbn [final].
    destruct (sidebar_frame_fields _ _
                (proj1 (renderChatList_frame (or_else v' (VArr [])) st1')))
      as (_ & _ & Hl2 & _).
    rewrite Hl2, Hl1. exact Hloc. }
  split; [exact Hloc2|].
  unfold onDOMContentLoaded.
  erewrite bind_ok by reflexivity. fold (token_of st). rewrite Htok. cbn [negb].
  rewrite (bind_ok _ _ _ _ _ _ (run_of_outcome _ _ Hme)). rewrite Htruthy.
  cbn [negb outcome final trace].
  rewrite !(getProp_defined _ _ (truthy_not_nullish _ Htruthy)).
  do 7 (erewrite bind_ok by reflexivity). cbn [outcome final trace].
  fold check. fold email.
  change (with_wired _ (with_wired _ _)) with st1.
  rewrite (bind_ok _ _ _ _ _ _ (run_of_outcome _ _ Hload)).
  cbn [outcome final trace]. fold st2. fold route.
  f_equal. rewrite <- !app_assoc. reflexivity.
Qed.

(** C8: the routing step of the page-load handler opens the chat named by
    the location exactly when the non-empty segments of the path are the
    root "c" and one identifier, and it then runs [openChat] on that
    identifier; otherwise it does nothing, as for "/c/" and "/c".  A path
    "/c/id" with a non-empty identifier free of "/" is of the first kind.
    The handler ends with this step, on the location the page was loaded
    with, once the session check has passed and the list has loaded. *)
Theorem openChatFromLocation_iff (env : Env) (st : State) :
  (forall id, segments (location st) = [str "c"; id] ->
              openChatFromLocation env st = openChat env (VStr id) st)
  /\ ((forall id, segments (location st) <> [str "c"; id]) ->
      openChatFromLocation env st = MkRun (Ok tt) st [])
  /\ ((exists id, segments (location st) = [str "c"; id])
      <-> trace (openChatFromLocation env st) <> [])
  /\ (forall id, id <> [] -> 47%N ∉ id ->
                 segments (str "/c/" ++ id) = [str "c"; id])
  /\ segments (str "/c/") = [str "c"]
  /\ segments (str "/c") = [str "c"]
  /\ (forall me,
      truthy (token_of st) = true ->
      outcome (apiFetch env (str "/api/auth/me") no_opts st) = Ok me ->
      truthy me = true ->
      exists st1 t1,
        location st1 = location st
        /\ (outcome (loadChatList env st1) = Ok tt ->
            let st2 := final (loadChatList env st1) in
            let route := openChatFromLocation env st2 in
            location st2 = location st
            /\ onDOMContentLoaded env st
               = MkRun (outcome route) (final route)
                   (t1 ++ trace (loadChatList env st1) ++ trace route))).
Proof.
  assert (Hyes : forall id, segments (location st) = [str "c"; id] ->
                   openChatFromLocation env st = openChat env (VStr id) st).
  { intros id H. unfold openChatFromLocation.
    erewrite bind_ok by reflexivity. fold (segments (location st)). rewrite H.
    rewrite jsstring_eqb_refl. cbn [app]. apply run_eta. }
  assert (Hno : (forall id, segments (location st) <> [str "c"; id]) ->
                openChatFromLocation env st = MkRun (Ok tt) st []).
  { intros H. unfold openChatFromLocation.
    erewrite bind_ok by reflexivity. fold (segments (location st)).
    destruct (segments (location st)) as [|root [|id [|x l]]]; try reflexivity.
    destruct (jsstring_eqb root (str "c")) eqn:E; [|reflexivity].
    apply jsstring_eqb_eq in E. subst root. exfalso. exact (H id eq_refl). }
  split; [exact Hyes|]. split; [exact Hno|].
  split.
  { split.
    - intros [id H]. rewrite (Hyes id H). apply openChat_trace_nonempty.
    - intros Htrace.
      destruct (segments (location st)) as [|root [|id [|x l]]] eqn:Hseg;
        try (exfalso; apply Htrace; rewrite Hno; [reflexivity|];
             intros id'; rewrite ?Hseg; discriminate).
      destruct (jsstring_eqb root (str "c")) eqn:E.
      + apply jsstring_eqb_eq in E. subst root. exists id. reflexivity.
      + exfalso. apply Htrace. rewrite Hno; [reflexivity|].
        intros id' Heq. injection Heq as -> _.
        rewrite jsstring_eqb_refl in E. discriminate E. }
  split; [exact segments_chat_location|].
  split; [reflexivity|]. split; [reflexivity|].
  intros me. apply onDOMContentLoaded_routes.
Qed.

(** ** Deleting a chat *)

Lemma deleteChat_declined env chatId st :
  user_confirms env (clock st) confirm_text = false ->
  deleteChat env chatId st = MkRun (Ok tt) (sent st) [Confirm confirm_text].
Proof.
  intros H. unfold deleteChat.
  erewrite bind_ok by reflexivity. fold confirm_text. rewrite H. reflexivity.
Qed.

Lemma deleteChat_failed env chatId st st1 t1 :
  user_confirms env (clock st) confirm_text = true ->
  apiFetch env (str "/api/chats/" ++ ToString chatId) delete_opts (sent st)
  = MkRun (Ok VNull) st1 t1 ->
  deleteChat env chatId st = MkRun (Ok tt) st1 (Confirm confirm_text :: t1).
Proof.
  intros Hc Hrun. unfold deleteChat.
  erewrite bind_ok by reflexivity. fold confirm_text. rewrite Hc. cbn [negb].
  fold delete_opts. cbn [final]. fold (sent st).
  rewrite (bind_ok _ _ _ _ _ _ Hrun). cbn [strict_eq ret outcome final trace app].
  rewrite app_nil_r. reflexivity.
Qed.

Lemma deleteChat_done env chatId st result st1 t1 :
  user_confirms env (clock st) confirm_text = true ->
  apiFetch env (str "/api/chats/" ++ ToString chatId) delete_opts (sent st)
  = MkRun (Ok result) st1 t1 ->
  strict_eq result VNull = false ->
  let was_active := strict_eq chatId (activeChatId st1) in
  let st2 := if was_active then main_panel_cleared st1 else st1 in
  let reload := loadChatList env st2 in
  deleteChat env chatId st
  = MkRun (outcome reload) (final reload)
      (Confirm confirm_text :: t1
       ++ (if was_active then clear_effects else []) ++ trace reload).
Proof.
  intros Hc Hrun Hres. cbn zeta. unfold deleteChat.
  erewrite bind_ok by reflexivity. fold confirm_text. rewrite Hc. cbn [negb].
  fold delete_opts. cbn [final]. fold (sent st).
  rewrite (bind_ok _ _ _ _ _ _ Hrun). rewrite Hres. cbn [outcome final trace].
  erewrite bind_ok by reflexivity. cbn [outcome final trace].
  destruct (strict_eq chatId (activeChatId st1)).
  - erewrite bind_ok by reflexivity. cbn [outcome final trace app].
    f_equal.
  - erewrite bind_ok by reflexivity. cbn [outcome final trace app].
    f_equal.
Qed.

(** C6, as amended: once the user has confirmed, [deleteChat id] sends the
    DELETE request.  When it gives a result other than [null], and [id] is
    the active identifier, the active identifier is cleared, then the
    thread shows the empty-state placeholder and the input area is hidden,
    then the location is reset to "/c/", and then the list is reloaded;
    when [id] is not active only the reload happens.  When the request
    gives [null], nothing of the chat state changes: identifier, sidebar,
    thread and location stay, and the only change beyond the clock is the
    sign-out that [apiFetch] performs on a 401. *)
Theorem deleteChat_effects (env : Env) (chatId : Value) (st : State)
    (result : Value) (st1 : State) (t1 : list Effect) :
  user_confirms env (clock st) confirm_text = true ->
  apiFetch env (str "/api/chats/" ++ ToString chatId) delete_opts (sent st)
  = MkRun (Ok result) st1 t1 ->
  let run := deleteChat env chatId st in
  (strict_eq result VNull = false ->
   exists st2 cleanup rest,
     trace run
     = Confirm confirm_text :: t1 ++ cleanup
       ++ Fetch (request_of (token_of st2) (str "/api/chats") no_opts) :: rest
     /\ final run = final (loadChatList env st2)
     /\ (strict_eq chatId (activeChatId st) = true ->
         cleanup = clear_effects /\ st2 = main_panel_cleared st1
         /\ activeChatId (final run) = VNull
         /\ location (final run) = str "/c/"
         /\ messages_panel (final run) = [empty_chat (next_node st)]
         /\ input_area_display (final run) = str "none")
     /\ (strict_eq chatId (activeChatId st) = false ->
         cleanup = [] /\ st2 = st1
         /\ activeChatId (final run) = activeChatId st
         /\ location (final run) = location st
         /\ messages_panel (final run) = messages_panel st
         /\ input_area_display (final run) = input_area_display st))
  /\ (result = VNull ->
      run = MkRun (Ok tt) st1 (Confirm confirm_text :: t1)
      /\ activeChatId st1 = activeChatId st
      /\ chat_list st1 = chat_list st
      /\ messages_panel st1 = messages_panel st
      /\ location st1 = location st
      /\ input_area_display st1 = input_area_display st
      /\ (st1 = sent (sent st)
          \/ st1 = signed_out (sent (sent st))
             /\ exists r,
                  server env (S (clock st))
                    (request_of (token_of st)
                       (str "/api/chats/" ++ ToString chatId) delete_opts) = Some r
                  /\ status r = 401%Z)).
Proof.
  intros Hc Hrun run.
  pose proof (apiFetch_page env (str "/api/chats/" ++ ToString chatId) delete_opts
                (sent st)) as Hpage.
  cbn zeta in Hpage. rewrite Hrun in Hpage. cbn [final] in Hpage.
  destruct Hpage as (Ha & Hcl & Hmp & _ & Hloc & Hdisp & Hnode & _).
  change (activeChatId (sent st)) with (activeChatId st) in Ha.
  change (chat_list (sent st)) with (chat_list st) in Hcl.
  change (messages_panel (sent st)) with (messages_panel st) in Hmp.
  change (location (sent st)) with (location st) in Hloc.
  change (input_area_display (sent st)) with (input_area_display st) in Hdisp.
  change (next_node (sent st)) with (next_node st) in Hnode.
  split.
  - intros Hres.
    pose proof (deleteChat_done env chatId st result st1 t1 Hc Hrun Hres) as Hdone.
    cbn zeta in Hdone. rewrite Ha in Hdone.
    set (st2 := if strict_eq chatId (activeChatId st)
                then main_panel_cleared st1 else st1) in *.
    destruct (loadChatList_run env st2)
      as (v & sta & extra & rest & Hfetch & Htrace & _ & Hframe).
    pose proof (apiFetch_page env (str "/api/chats") no_opts st2) as Hpage2.
    cbn zeta in Hpage2. rewrite Hfetch in Hpage2. cbn [final] in Hpage2.
    destruct Hpage2 as (Ha2 & _ & Hmp2 & _ & Hloc2 & Hdisp2 & _).
    destruct (sidebar_frame_fields _ _ Hframe)
      as (Ha3 & _ & Hloc3 & _ & Hmp3 & _ & Hdisp3 & _).
    exists st2, (if strict_eq chatId (activeChatId st) then clear_effects else []),
           (extra ++ rest).
    unfold run. rewrite Hdone. cbn [trace final]. rewrite Htrace.
    split; [reflexivity|]. split; [reflexivity|].
    rewrite Ha3, Hloc3, Hmp3, Hdisp3, Ha2, Hmp2, Hloc2, Hdisp2.
    unfold st2.
    split; intros Hact; rewrite Hact.
    + cbn. rewrite Hnode. repeat split.
    + repeat split; assumption.
  - intros ->.
    split; [apply (deleteChat_failed env chatId st st1 t1 Hc Hrun)|].
    do 5 (split; [assumption|]).
    destruct (apiFetch_signed_out_only_401 env
                (str "/api/chats/" ++ ToString chatId) delete_opts (sent st))
      as [H | [H Hr]]; rewrite Hrun in H; cbn [final] in H.
    + left. exact H.
    + right. split; [exact H|exact Hr].
Qed.

(** C6 as stated fails twice.  A deletion that fails with status 401 does
    not leave the state unchanged: the local storage is emptied and the
    browser is sent to "/".  And on success the thread is reset before the
    location, not after it. *)
Lemma deleteChat_failure_and_order_cex :
  let failed := deleteChat expired_server (VStr (str "abc")) open_page in
  let done := deleteChat deleting_server (VStr (str "abc")) open_page in
  outcome (apiFetch expired_server (str "/api/chats/abc") delete_opts (sent open_page))
  = Ok VNull
  /\ localStorage open_page !! str "fb_id_token" = Some (str "tok")
  /\ localStorage (final failed) !! str "fb_id_token" = None
  /\ navigation open_page = None
  /\ navigation (final failed) = Some (str "/")
  /\ firstn 4 (skipn 2 (trace done))
     = [AssignActive VNull; SetInnerHTML MessagesPanel empty_chat_html;
        SetDisplay (str "chat-input-area") (str "none"); PushState (str "/c/")].
Proof. vm_compute. repeat split. Qed.

(** ** Node identities stay fresh *)

Create HintDb fresh discriminated.

Lemma keeps_fresh_ret {A} (a : A) : keeps_fresh (ret a).
Proof. intros st H. exact H. Qed.

Lemma keeps_fresh_lift {A} (o : Outcome A) : keeps_fresh (lift o).
Proof. intros st H. exact H. Qed.

Lemma keeps_fresh_gets {A} (f : State -> A) : keeps_fresh (gets f).
Proof. intros st H. exact H. Qed.

Lemma keeps_fresh_bind {A B} (m : M A) (f : A -> M B) :
  keeps_fresh m -> (forall a, keeps_fresh (f a)) -> keeps_fresh (bind m f).
Proof.
  intros Hm Hf st H. unfold bind. specialize (Hm st H).
  destruct (m st) as [[a|e] st1 t1]; cbn [final] in *; [|exact Hm].
  specialize (Hf a st1 Hm). destruct (f a st1). exact Hf.
Qed.

Lemma keeps_fresh_try_catch {A} (m : M A) (h : Error -> M A) :
  keeps_fresh m -> (forall e, keeps_fresh (h e)) -> keeps_fresh (try_catch m h).
Proof.
  intros Hm Hh st H. unfold try_catch. specialize (Hm st H).
  destruct (m st) as [[a|e] st1 t1]; cbn [final] in *; [exact Hm|].
  specialize (Hh e st1 Hm). destruct (h e st1). exact Hh.
Qed.

Lemma keeps_fresh_forEach {A} (l : list A) (f : A -> M unit) :
  (forall x, keeps_fresh (f x)) -> keeps_fresh (forEach l f).
Proof.
  intros Hf. induction l as [|x l IH]; [apply keeps_fresh_ret|].
  rewrite forEach_cons. apply keeps_fresh_bind; [apply Hf|intros _; exact IH].
Qed.

Lemma nodes_fresh_intro st L P n :
  chat_list st = L -> messages_panel st = P -> next_node st = n ->
  Forall (fun el => node el < n) L -> Forall (fun el => node el < n) P ->
  nodes_fresh st.
Proof.
  intros <- <- <- HL HP. unfold nodes_fresh. apply Forall_app. split; assumption.
Qed.

Lemma nodes_fresh_elim st :
  nodes_fresh st ->
  Forall (fun el => node el < next_node st) (chat_list st)
  /\ Forall (fun el => node el < next_node st) (messages_panel st).
Proof. unfold nodes_fresh. apply Forall_app. Qed.

Lemma Forall_older n l :
  Forall (fun el : Element => node el < n) l ->
  Forall (fun el : Element => node el < S n) l.
Proof. intros H. eapply Forall_impl; [exact H|]. cbn. intros el Hel. lia. Qed.

Lemma keeps_fresh_append (c : Container) (mk : nat -> Element) :
  (forall n, node (mk n) = n) ->
  keeps_fresh (n <- createElement ;; appendChild c (mk n)).
Proof.
  intros Hmk st H. destruct (nodes_fresh_elim st H) as [HL HP].
  destruct c.
  - eapply nodes_fresh_intro; try reflexivity.
    + apply Forall_app. split; [apply Forall_older, HL|].
      constructor; [rewrite Hmk; cbn; lia|constructor].
    + apply Forall_older, HP.
  - eapply nodes_fresh_intro; try reflexivity.
    + apply Forall_older, HL.
    + apply Forall_app. split; [apply Forall_older, HP|].
      constructor; [rewrite Hmk; cbn; lia|constructor].
Qed.

Lemma appendMessage_fresh role content : keeps_fresh (appendMessage role content).
Proof.
  intros st H.
  exact (keeps_fresh_append MessagesPanel
           (fun n => message_element n role content) (fun n => eq_refl) st H).
Qed.

Lemma appendTypingIndicator_fresh : keeps_fresh appendTypingIndicator.
Proof.
  intros st H.
  exact (keeps_fresh_append MessagesPanel typing_element (fun n => eq_refl) st H).
Qed.

Lemma render_row_fresh chat : keeps_fresh (render_row chat).
Proof.
  intros st H. destruct (nullish chat) eqn:Hc.
  - rewrite (render_row_throws chat st Hc). cbn [final].
    destruct (nodes_fresh_elim st H) as [HL HP].
    eapply nodes_fresh_intro; try reflexivity; apply Forall_older; assumption.
  - rewrite (render_row_run chat st Hc). cbn zeta.
    exact (keeps_fresh_append ChatList
             (fun n => chat_row (activeChatId st) n chat) (fun n => eq_refl) st H).
Qed.

Lemma set_innerHTML_empty_fresh c html : keeps_fresh (set_innerHTML c html []).
Proof.
  intros st H. destruct (nodes_fresh_elim st H) as [HL HP].
  destruct c; eapply nodes_fresh_intro; try reflexivity;
    first [constructor | assumption].
Qed.

Lemma set_innerHTML_parsed_fresh c html tag cls inner :
  keeps_fresh (set_innerHTML c html [parsed_element tag cls inner]).
Proof.
  intros st H. destruct (nodes_fresh_elim st H) as [HL HP].
  destruct c; eapply nodes_fresh_intro; try reflexivity;
    first [ constructor; [cbn; lia|constructor] | apply Forall_older; assumption ].
Qed.

Lemma Forall_filter_keep (P : Element -> Prop) p l :
  Forall P l -> Forall P (List.filter p l).
Proof.
  intros H. induction H as [|x l Hx _ IH]; [constructor|].
  cbn [List.filter]. destruct (p x); [constructor; assumption|exact IH].
Qed.

Lemma remove_fresh el : keeps_fresh (remove el).
Proof.
  intros st H. destruct (nodes_fresh_elim st H) as [HL HP].
  eapply nodes_fresh_intro; try reflexivity; apply Forall_filter_keep; assumption.
Qed.

Lemma highlight_active_fresh id : keeps_fresh (highlight_active id).
Proof.
  intros st H. destruct (nodes_fresh_elim st H) as [HL HP].
  eapply nodes_fresh_intro; try reflexivity;
    apply Forall_map; (eapply Forall_impl; [eassumption|]);
    intros el Hel; cbn; rewrite toggle_active_node; exact Hel.
Qed.

#[local] Hint Resolve keeps_fresh_ret keeps_fresh_lift keeps_fresh_gets
  appendMessage_fresh appendTypingIndicator_fresh render_row_fresh
  set_innerHTML_empty_fresh set_innerHTML_parsed_fresh remove_fresh
  highlight_active_fresh : fresh.

(** Steps that touch neither the containers nor the supply of nodes. *)
#[local] Hint Extern 5 (keeps_fresh _) =>
  (let st := fresh "st" in let H := fresh "H" in intros st H; exact H) : fresh.

Ltac keeps_fresh_steps :=
  repeat match goal with
    | |- keeps_fresh (bind _ _) => apply keeps_fresh_bind; [|intros ?]
    | |- keeps_fresh (try_catch _ _) => apply keeps_fresh_try_catch; [|intros ?]
    | |- keeps_fresh (forEach _ _) => apply keeps_fresh_forEach; intros ?
    | |- keeps_fresh (match ?x with _ => _ end) => destruct x
    end;
  auto with fresh.

Lemma fetch_fresh env req : keeps_fresh (fetch env req).
Proof.
  intros st H. unfold fetch. destruct (server env (clock st) req); exact H.
Qed.

#[local] Hint Resolve fetch_fresh : fresh.

Lemma apiFetch_fresh env path opts : keeps_fresh (apiFetch env path opts).
Proof. unfold apiFetch, res_json. keeps_fresh_steps. Qed.

#[local] Hint Resolve apiFetch_fresh : fresh.

Lemma renderChatList_fresh chats : keeps_fresh (renderChatList chats).
Proof. unfold renderChatList, empty_hint. keeps_fresh_steps. Qed.

#[local] Hint Resolve renderChatList_fresh : fresh.

Lemma loadChatList_fresh env : keeps_fresh (loadChatList env).
Proof. unfold loadChatList. keeps_fresh_steps. Qed.

#[local] Hint Resolve loadChatList_fresh : fresh.

Lemma openChat_fresh env chatId : keeps_fresh (openChat env chatId).
Proof.
  unfold openChat, openChat_begin, openChat_resume, render_message, showMainError.
  keeps_fresh_steps.
Qed.

#[local] Hint Resolve openChat_fresh : fresh.

Lemma deleteChat_fresh env chatId : keeps_fresh (deleteChat env chatId).
Proof. unfold deleteChat, clearMainPanel, empty_chat. keeps_fresh_steps. Qed.

Lemma sendMessage_fresh env : keeps_fresh (sendMessage env).
Proof.
  unfold sendMessage, sendMessage_begin, sendMessage_resume. keeps_fresh_steps.
Qed.

Lemma createNewChat_fresh env : keeps_fresh (createNewChat env).
Proof. unfold createNewChat. keeps_fresh_steps. Qed.

Lemma onDOMContentLoaded_fresh env : keeps_fresh (onDOMContentLoaded env).
Proof.
  unfold onDOMContentLoaded, openChatFromLocation, showNotLoggedIn.
  keeps_fresh_steps.
Qed.

(** Every handler of the script keeps the node identities fresh, and the
    page as loaded, with both containers empty, has them fresh. *)
Lemma nodes_fresh_invariant env (a : Action) :
  keeps_fresh (onDOMContentLoaded env)
  /\ keeps_fresh (sendMessage env)
  /\ keeps_fresh (createNewChat env)
  /\ keeps_fresh (run_action env a)
  /\ forall st, chat_list st = [] -> messages_panel st = [] -> nodes_fresh st.
Proof.
  split; [apply onDOMContentLoaded_fresh|].
  split; [apply sendMessage_fresh|].
  split; [apply createNewChat_fresh|].
  split.
  - destruct a; [apply openChat_fresh|apply deleteChat_fresh].
  - intros st HL HP. unfold nodes_fresh. rewrite HL, HP. constructor.
Qed.

(** ** The message exchange *)

Lemma sendMessage_begin_noop st :
  truthy (activeChatId st) = false \/ trim (msg_input st) = [] ->
  sendMessage_begin st = MkRun (Ok None) st [].
Proof.
  intros H. unfold sendMessage_begin, bind, gets.
  destruct (truthy (activeChatId st)); cbn [negb]; [|reflexivity].
  destruct H as [H|H]; [discriminate|]. rewrite H. reflexivity.
Qed.

(** C7: with no active chat, or with a text that is empty once trimmed,
    [sendMessage] does nothing: no request goes out, no bubble is added,
    the page is as it was. *)
Theorem sendMessage_noop (env : Env) (st : State) :
  truthy (activeChatId st) = false \/ trim (msg_input st) = [] ->
  sendMessage env st = MkRun (Ok tt) st [].
Proof.
  intros H. unfold sendMessage.
  rewrite (bind_ok _ _ _ _ _ _ (sendMessage_begin_noop st H)). reflexivity.
Qed.

Lemma panel_events_app a b : panel_events (a ++ b) = panel_events a ++ panel_events b.
Proof. apply List.filter_app. Qed.

Lemma panel_events_sidebar t :
  forallb is_sidebar_effect t = true -> panel_events t = [].
Proof.
  induction t as [|e t IH]; [reflexivity|].
  cbn [forallb]. intros H. apply andb_true_iff in H. destruct H as [He Ht].
  cbn [panel_events List.filter].
  destruct e as [| | | | | | |c ?|c ?| | | | | | | |]; try discriminate He;
    destruct c; try discriminate He; cbn [is_panel_event]; exact (IH Ht).
Qed.

Lemma sendMessage_begin_run st :
  truthy (activeChatId st) = true ->
  trim (msg_input st) <> [] ->
  let message := trim (msg_input st) in
  let userEl := message_element (next_node st) (VStr (str "user")) (VStr message) in
  let typingEl := typing_element (S (next_node st)) in
  sendMessage_begin st
  = MkRun (Ok (Some (message, typingEl)))
      (with_messages_panel (messages_panel st ++ [userEl; typingEl])
         (with_next_node (S (S (next_node st))) (with_msg_input (str "") st)))
      [AppendChild MessagesPanel userEl; SetInputValue (str ""); ScrollToBottom;
       AppendChild MessagesPanel typingEl].
Proof.
  intros Hact Hmsg. cbn zeta. unfold sendMessage_begin.
  erewrite bind_ok by reflexivity. rewrite Hact. cbn [negb outcome final trace].
  erewrite bind_ok by reflexivity. cbn [outcome final trace].
  destruct (trim (msg_input st)) as [|c m] eqn:Htrim; [congruence|].
  cbn [nonempty negb].
  unfold bind, appendMessage, appendTypingIndicator, createElement, appendChild,
    act, set_msg_input, scrollToBottom, ret. cbn.
  rewrite <- app_assoc. reflexivity.
Qed.

Lemma same_bubbles_refl P : same_bubbles P P.
Proof. exists (fun el => el). split; [symmetry; apply map_id|]. auto. Qed.

Lemma same_bubbles_toggle id P : same_bubbles P (map (toggle_active id) P).
Proof.
  exists (toggle_active id). split; [reflexivity|].
  intros el. split; [apply toggle_active_node|apply toggle_active_other].
Qed.

Lemma apiFetch_extra_quiet env path opts st v st1 extra :
  apiFetch env path opts st
  = MkRun (Ok v) st1 (Fetch (request_of (token_of st) path opts) :: extra) ->
  panel_events extra = [].
Proof.
  intros H. destruct (apiFetch_shape env path opts st)
    as (v' & st1' & extra' & Hrun & Hcases).
  rewrite Hrun in H. injection H as _ _ ->.
  destruct Hcases as [[_ [-> | [-> _]]] | [_ [-> _]]]; reflexivity.
Qed.

Lemma refresh_sidebar_thread env st :
  same_bubbles (messages_panel st) (messages_panel (final (refresh_sidebar env st)))
  /\ panel_events (trace (refresh_sidebar env st)) = [].
Proof.
  unfold refresh_sidebar.
  destruct (loadChatList_run env st)
    as (v & st1 & extra & rest & Hfetch & Htrace & Hrest & Hframe).
  pose proof (apiFetch_page env (str "/api/chats") no_opts st) as Hpage.
  cbn zeta in Hpage. rewrite Hfetch in Hpage. cbn [final] in Hpage.
  destruct Hpage as (_ & _ & Hmp1 & _).
  destruct (sidebar_frame_fields _ _ Hframe) as (_ & _ & _ & _ & Hmp2 & _).
  assert (Hquiet : panel_events (trace (loadChatList env st)) = []).
  { rewrite Htrace. change (Fetch ?r :: ?l) with ([Fetch r] ++ l).
    rewrite !panel_events_app, (apiFetch_extra_quiet _ _ _ _ _ _ _ Hfetch),
      (panel_events_sidebar _ Hrest). reflexivity. }
  destruct (loadChatList env st) as [[[]|e] st2 t2] eqn:Hload; cbn [final trace] in *.
  - rewrite (bind_ok _ _ _ _ _ _ Hload).
    unfold bind, gets, highlight_active, act. cbn [final trace messages_panel
      with_messages_panel].
    split.
    + rewrite Hmp2, Hmp1. apply same_bubbles_toggle.
    + rewrite panel_events_app, Hquiet. reflexivity.
  - rewrite (bind_throw _ _ _ _ _ _ Hload). cbn [final trace].
    split; [|exact Hquiet]. rewrite Hmp2, Hmp1. apply same_bubbles_refl.
Qed.

Lemma remove_typing P L userEl typingEl :
  Forall (fun el => node el <> node typingEl) (L ++ P ++ [userEl]) ->
  List.filter (is_not_node (node typingEl)) L = L
  /\ List.filter (is_not_node (node typingEl)) (P ++ [userEl; typingEl])
     = P ++ [userEl].
Proof.
  intros Hall.
  assert (Hkeep : forall l, Forall (fun el => node el <> node typingEl) l ->
                    List.filter (is_not_node (node typingEl)) l = l).
  { intros l Hl. induction Hl as [|el l Hel _ IH]; [reflexivity|].
    cbn [List.filter]. unfold is_not_node at 1.
    rewrite (proj2 (Nat.eqb_neq _ _) Hel). cbn [negb]. rewrite IH. reflexivity. }
  apply Forall_app in Hall. destruct Hall as [HL HP].
  split; [apply Hkeep; exact HL|].
  change (P ++ [userEl; typingEl]) with (P ++ [userEl] ++ [typingEl]).
  rewrite app_assoc, List.filter_app, (Hkeep _ HP).
  cbn [List.filter]. unfold is_not_node. rewrite Nat.eqb_refl. cbn [negb].
  apply app_nil_r.
Qed.

Lemma assistant_bubble_no_chat_item n content :
  has_class (str "chat-item") (message_element n (VStr (str "assistant")) content)
  = false.
Proof. reflexivity. Qed.

Lemma user_bubble_no_chat_item n content :
  has_class (str "chat-item") (message_element n (VStr (str "user")) content)
  = false.
Proof. reflexivity. Qed.

Lemma sendMessage_resume_run env typingEl result st P userEl :
  messages_panel st = P ++ [userEl; typingEl] ->
  Forall (fun el => node el <> node typingEl) (chat_list st ++ P ++ [userEl]) ->
  has_class (str "chat-item") userEl = false ->
  let replyEl := message_element (next_node st) (VStr (str "assistant"))
                   (reply_content result) in
  exists rest old,
    trace (sendMessage_resume env typingEl result st)
    = RemoveNode (node typingEl) :: AppendChild MessagesPanel replyEl :: rest
    /\ panel_events rest = []
    /\ messages_panel (final (sendMessage_resume env typingEl result st))
       = old ++ [userEl; replyEl]
    /\ map node old = map node P.
Proof.
  intros Hpanel Hfresh Huser replyEl.
  destruct (remove_typing P (chat_list st) userEl typingEl Hfresh) as [HL HP].
  unfold sendMessage_resume.
  erewrite bind_ok by reflexivity. cbn [outcome final trace].
  rewrite Hpanel, HL, HP.
  set (st_r := with_messages_panel (P ++ [userEl]) (with_chat_list (chat_list st) st)).
  unfold replyEl, reply_content. destruct (truthy result) eqn:Htruthy; cbn [negb].
  - (* a result: the assistant's reply, then the sidebar refresh *)
    set (reply := message_element (next_node st) (VStr (str "assistant"))
                    (prop result (str "assistant"))).
    set (st2 := with_messages_panel (P ++ [userEl] ++ [reply])
                  (with_next_node (S (next_node st)) st_r)).
    assert (Hinner :
      (assistant <- lift (getProp result (str "assistant")) ;;
       appendMessage (VStr (str "assistant")) assistant ;;;
       loadChatList env ;;;
       active <- gets activeChatId ;;
       highlight_active active) st_r
      = MkRun (outcome (refresh_sidebar env st2)) (final (refresh_sidebar env st2))
          ([AppendChild MessagesPanel reply] ++ trace (refresh_sidebar env st2))).
    { rewrite (getProp_defined _ _ (truthy_not_nullish _ Htruthy)).
      erewrite bind_ok by reflexivity. cbn [outcome final trace app].
      erewrite bind_ok by (rewrite appendMessage_run; reflexivity).
      cbn [outcome final trace app].
      unfold st2, st_r. cbn [messages_panel with_messages_panel with_chat_list
        next_node]. rewrite <- app_assoc. reflexivity. }
    destruct (refresh_sidebar_thread env st2) as [(f & Hmap & Hf) Hquiet].
    assert (Hfinal : messages_panel (final (refresh_sidebar env st2))
                     = map f P ++ [userEl; reply]).
    { rewrite Hmap. unfold st2. cbn [messages_panel with_messages_panel].
      rewrite !map_app. cbn [map].
      rewrite (proj2 (Hf userEl) Huser).
      rewrite (proj2 (Hf reply) (assistant_bubble_no_chat_item _ _)).
      reflexivity. }
    assert (Hnodes : map node (map f P) = map node P).
    { rewrite map_map. apply map_ext. intros el. apply (proj1 (Hf el)). }
    destruct (refresh_sidebar env st2) as [[[]|e] st3 t3] eqn:Hrefresh;
      cbn [outcome final trace] in *.
    + erewrite bind_ok by exact Hinner. cbn [outcome final trace app scrollToBottom act].
      exists (t3 ++ [ScrollToBottom]), (map f P).
      split; [reflexivity|].
      split; [rewrite panel_events_app, Hquiet; reflexivity|].
      split; [exact Hfinal|exact Hnodes].
    + erewrite bind_throw by exact Hinner. cbn [outcome final trace app].
      exists t3, (map f P).
      split; [reflexivity|].
      split; [exact Hquiet|].
      split; [exact Hfinal|exact Hnodes].
  - (* no result: the error bubble *)
    exists [ScrollToBottom], P.
    unfold bind, appendMessage, createElement, appendChild, act, scrollToBottom, ret.
    cbn. rewrite <- app_assoc. repeat split.
Qed.

(** C2: sending a message that is not empty once trimmed, on an active
    chat.  Up to the request the thread gains the user's bubble and then
    the typing placeholder; after the response the placeholder is removed
    and exactly one bubble is appended, the assistant's reply when the
    request gave a result and the error text otherwise.  The thread ends
    with the user's bubble followed by that bubble, and the placeholder is
    in the thread neither before the send nor after it. *)
Theorem sendMessage_sequence (env : Env) (st : State) :
  truthy (activeChatId st) = true ->
  trim (msg_input st) <> [] ->
  nodes_fresh st ->
  let message := trim (msg_input st) in
  let userEl := message_element (next_node st) (VStr (str "user")) (VStr message) in
  let typingEl := typing_element (S (next_node st)) in
  let path := str "/api/chats/" ++ ToString (activeChatId st) ++ str "/messages" in
  let begin := sendMessage_begin st in
  let run := sendMessage env st in
  outcome begin = Ok (Some (message, typingEl))
  /\ panel_events (trace begin)
     = [AppendChild MessagesPanel userEl; AppendChild MessagesPanel typingEl]
  /\ messages_panel (final begin) = messages_panel st ++ [userEl; typingEl]
  /\ Forall (fun el => node el <> node typingEl) (messages_panel st)
  /\ exists result after old,
       let replyEl := message_element (S (S (next_node st))) (VStr (str "assistant"))
                        (reply_content result) in
       outcome (apiFetch env path (send_opts message) (final begin)) = Ok result
       /\ trace run
          = trace begin
            ++ Fetch (request_of (token_of st) path (send_opts message)) :: after
       /\ panel_events after
          = [RemoveNode (node typingEl); AppendChild MessagesPanel replyEl]
       /\ messages_panel (final run) = old ++ [userEl; replyEl]
       /\ map node old = map node (messages_panel st)
       /\ Forall (fun el => node el <> node typingEl) (messages_panel (final run)).
Proof.
  intros Hact Hmsg Hfresh message userEl typingEl path begin run.
  pose proof (sendMessage_begin_run st Hact Hmsg) as Hbegin. cbn zeta in Hbegin.
  fold message userEl typingEl in Hbegin.
  set (mid := with_messages_panel _ _) in Hbegin.
  unfold nodes_fresh in Hfresh. apply Forall_app in Hfresh.
  destruct Hfresh as [HfreshL HfreshP].
  assert (Hold : Forall (fun el => node el <> node typingEl) (messages_panel st)).
  { eapply Forall_impl; [exact HfreshP|]. cbn. intros el H. lia. }
  unfold begin. rewrite Hbegin. cbn [outcome trace final].
  split; [reflexivity|]. split; [reflexivity|]. split; [reflexivity|].
  split; [exact Hold|].
  destruct (apiFetch_shape env path (send_opts message) mid)
    as (result & st1 & extra & Hfetch & Hcases).
  assert (Hst1 : messages_panel st1 = messages_panel st ++ [userEl; typingEl]
                 /\ chat_list st1 = chat_list st
                 /\ next_node st1 = S (S (next_node st))).
  { destruct Hcases as [[-> _] | [-> _]]; repeat split. }
  destruct Hst1 as (Hpanel1 & Hlist1 & Hnode1).
  assert (Hfresh1 : Forall (fun el => node el <> node typingEl)
                      (chat_list st1 ++ messages_panel st ++ [userEl])).
  { rewrite Hlist1. apply Forall_app. split.
    - eapply Forall_impl; [exact HfreshL|]. cbn. intros el H. lia.
    - apply Forall_app. split; [exact Hold|].
      constructor; [cbn; lia|constructor]. }
  destruct (sendMessage_resume_run env typingEl result st1 (messages_panel st)
              userEl Hpanel1 Hfresh1 (user_bubble_no_chat_item _ _))
    as (rest & old & Htrace & Hquiet & Hfinal & Hnodes).
  rewrite Hnode1 in Htrace, Hfinal.
  exists result, (extra ++ RemoveNode (node typingEl)
                  :: AppendChild MessagesPanel
                       (message_element (S (S (next_node st)))
                          (VStr (str "assistant")) (reply_content result))
                  :: rest), old.
  cbn zeta.
  assert (Hrun : sendMessage env st
                 = MkRun (outcome (sendMessage_resume env typingEl result st1))
                     (final (sendMessage_resume env typingEl result st1))
                     ([AppendChild MessagesPanel userEl; SetInputValue (str "");
                       ScrollToBottom; AppendChild MessagesPanel typingEl]
                      ++ (Fetch (request_of (token_of st) path (send_opts message))
                          :: extra)
                      ++ trace (sendMessage_resume env typingEl result st1))).
  { unfold sendMessage. rewrite (bind_ok _ _ _ _ _ _ Hbegin).
    cbn [outcome final trace].
    erewrite bind_ok by reflexivity. cbn [outcome final trace app].
    change (activeChatId mid) with (activeChatId st). fold path.
    rewrite (bind_ok _ _ _ _ _ _ Hfetch). cbn [outcome final trace].
    reflexivity. }
  split; [rewrite Hfetch; reflexivity|].
  unfold run. rewrite Hrun. cbn [trace final]. rewrite Htrace.
  split; [reflexivity|].
  split.
  { rewrite panel_events_app, (apiFetch_extra_quiet _ _ _ _ _ _ _ Hfetch).
    cbn [app panel_events List.filter is_panel_event]. fold (panel_events rest).
    rewrite Hquiet. reflexivity. }
  split; [exact Hfinal|]. split; [exact Hnodes|].
  rewrite Hfinal. apply Forall_app. split.
  - apply Forall_forall. intros el Hin.
    assert (Hn : node el ∈ map node old) by (apply list_elem_of_fmap; eauto).
    rewrite Hnodes in Hn. apply list_elem_of_fmap in Hn.
    destruct Hn as (el' & Heq & Hin'). rewrite Heq.
    rewrite Forall_forall in Hold. apply Hold. exact Hin'.
  - constructor; [cbn; lia|]. constructor; [cbn; lia|constructor].
Qed.

(** * More of the script *)

(** ** Requests of the transport adapter *)

Lemma request_headers_lookup token opts k :
  request_headers token opts !! k
  = match opt_headers opts !! k with
    | Some v => Some v
    | None =>
        if truthy token && jsstring_eqb k (str "Authorization")
        then Some (str "Bearer " ++ ToString token)
        else if jsstring_eqb k (str "Content-Type")
             then Some (str "application/json") else None
    end.
Proof.
  unfold request_headers.
  destruct (opt_headers opts !! k) as [v|] eqn:Hk.
  - apply lookup_union_Some_l, lookup_union_Some_l. exact Hk.
  - assert (Hct : ({[str "Content-Type" := str "application/json"]}
                   : gmap jsstring jsstring) !! k
                  = if jsstring_eqb k (str "Content-Type")
                    then Some (str "application/json") else None).
    { destruct (jsstring_eqb k (str "Content-Type")) eqn:E.
      - apply jsstring_eqb_eq in E. subst k. apply lookup_singleton_eq.
      - apply lookup_singleton_ne. intros <-. rewrite jsstring_eqb_refl in E.
        discriminate E. }
    destruct (truthy token); cbn [andb].
    + destruct (jsstring_eqb k (str "Authorization")) eqn:E.
      * apply jsstring_eqb_eq in E. subst k.
        apply lookup_union_Some_l. rewrite lookup_union_r by exact Hk.
        apply lookup_singleton_eq.
      * rewrite lookup_union_r; [exact Hct|].
        rewrite lookup_union_r by exact Hk.
        apply lookup_singleton_ne. intros <-. rewrite jsstring_eqb_refl in E.
        discriminate E.
    + rewrite lookup_union_r; [exact Hct|].
      rewrite lookup_union_r by exact Hk. apply lookup_empty.
Qed.

Lemma option_match_id {A} (o : option A) :
  match o with Some v => Some v | None => None end = o.
Proof. destruct o; reflexivity. Qed.

(** X1: every call of [apiFetch] sends exactly one request, whatever the
    answer.  The request goes to the given path with the method and body of
    the options and with credentials "include"; a header of the options is
    sent as given; otherwise Authorization is "Bearer " and the stored
    token when a non-empty token is stored and is absent when none is, and
    Content-Type is "application/json". *)
Theorem apiFetch_request (env : Env) (path : jsstring) (opts : Opts) (st : State) :
  exists req,
    List.filter is_fetch (trace (apiFetch env path opts st)) = [Fetch req]
    /\ req_path req = path
    /\ req_method req = opt_method opts
    /\ req_body req = opt_body opts
    /\ req_credentials req = str "include"
    /\ (forall k v, opt_headers opts !! k = Some v -> req_headers req !! k = Some v)
    /\ (opt_headers opts !! str "Content-Type" = None ->
        req_headers req !! str "Content-Type" = Some (str "application/json"))
    /\ (opt_headers opts !! str "Authorization" = None ->
        req_headers req !! str "Authorization"
        = match localStorage st !! str "fb_id_token" with
          | Some tok => if nonempty tok then Some (str "Bearer " ++ tok) else None
          | None => None
          end)
    /\ (forall k, k <> str "Content-Type" -> k <> str "Authorization" ->
                  req_headers req !! k = opt_headers opts !! k).
Proof.
  exists (request_of (token_of st) path opts).
  destruct (apiFetch_shape env path opts st) as (v & st1 & extra & Hrun & Hcases).
  rewrite Hrun. cbn [trace].
  split.
  { destruct Hcases as [[_ [-> | [-> _]]] | [_ [-> _]]]; reflexivity. }
  do 4 (split; [reflexivity|]).
  cbn [req_headers request_of].
  split.
  { intros k hv Hk. rewrite request_headers_lookup.
    unfold jsstring in *. rewrite Hk. reflexivity. }
  split.
  { intros Hk. rewrite request_headers_lookup.
    unfold jsstring in *. rewrite Hk.
    replace (jsstring_eqb (str "Content-Type") (str "Authorization")) with false
      by reflexivity.
    rewrite andb_false_r, jsstring_eqb_refl. reflexivity. }
  split.
  { intros Hk. rewrite request_headers_lookup.
    rewrite jsstring_eqb_refl, andb_true_r.
    unfold token_of. destruct (localStorage st !! str "fb_id_token") as [tok|].
    - cbn [truthy ToString]. unfold jsstring in *. rewrite Hk.
      destruct (nonempty tok); reflexivity.
    - unfold jsstring in *. rewrite Hk. reflexivity. }
  intros k Hct Hauth. rewrite request_headers_lookup.
  rewrite (jsstring_eqb_neq _ _ Hct), (jsstring_eqb_neq _ _ Hauth), andb_false_r.
  exact (option_match_id (opt_headers opts !! k)).
Qed.

(** X2: [apiFetch] changes nothing of the page but the local storage and
    the pending navigation, and those only when the response has status
    401: after any other response, and after a network failure, the page
    is as it was (the oracle has been asked once). *)
Theorem apiFetch_leaves_page (env : Env) (path : jsstring) (opts : Opts) (st : State) :
  let run := apiFetch env path opts st in
  let req := request_of (token_of st) path opts in
  with_navigation None (with_localStorage ∅ (final run))
  = with_navigation None (with_localStorage ∅ (sent st))
  /\ ((forall r, server env (clock st) req = Some r -> status r <> 401%Z) ->
      final run = sent st
      /\ Forall (fun e => e <> StorageClear /\ forall u, e <> Navigate u) (trace run))
  /\ (final run <> sent st ->
      exists r, server env (clock st) req = Some r /\ status r = 401%Z).
Proof.
  cbn zeta. split; [|split].
  - destruct (apiFetch_shape env path opts st)
      as (v & st1 & extra & -> & [[-> _] | [-> _]]); reflexivity.
  - intros Hnot. split; [apply apiFetch_not_401; exact Hnot|].
    rewrite apiFetch_run. cbn zeta.
    destruct (server env (clock st) (request_of (token_of st) path opts)) as [r|].
    + rewrite (proj2 (Z.eqb_neq _ _) (Hnot r eq_refl)).
      destruct (res_ok r); cbn [negb]; [destruct (json_body r)|];
        cbn [trace]; repeat constructor; discriminate.
    + cbn [trace]. repeat constructor; discriminate.
  - intros Hne.
    destruct (apiFetch_signed_out_only_401 env path opts st) as [H | [_ Hr]];
      [contradiction|exact Hr].
Qed.

(** ** Declining a deletion *)

(** X3: when the user declines the confirmation, [deleteChat] sends no
    request and changes nothing: the only effect is the dialog, and the
    page is the page it was (the oracle has been asked once). *)
Theorem deleteChat_declined_noop (env : Env) (chatId : Value) (st : State) :
  user_confirms env (clock st) confirm_text = false ->
  let run := deleteChat env chatId st in
  outcome run = Ok tt
  /\ trace run = [Confirm confirm_text]
  /\ List.filter is_fetch (trace run) = []
  /\ with_clock (clock st) (final run) = st.
Proof.
  intros H run. unfold run. rewrite (deleteChat_declined env chatId st H).
  cbn [outcome trace final]. repeat split. destruct st; reflexivity.
Qed.

(** ** More on escapeHtml *)

Lemma entity_longer c : is_metachar c = true -> 1 < length (entity c).
Proof.
  unfold is_metachar.
  destruct (entity_cases c) as [[-> | [-> | [-> | ->]]] | (H1 & H2 & H3 & H4)];
    try (intros _; vm_compute; lia).
  rewrite (proj2 (N.eqb_neq _ _) H1), (proj2 (N.eqb_neq _ _) H2),
    (proj2 (N.eqb_neq _ _) H3), (proj2 (N.eqb_neq _ _) H4).
  discriminate.
Qed.

Lemma entity_plain c : is_metachar c = false -> entity c = [c].
Proof.
  unfold is_metachar. intros H.
  apply orb_false_iff in H as [H H4]. apply orb_false_iff in H as [H H3].
  apply orb_false_iff in H as [H1 H2].
  apply entity_other; apply N.eqb_neq; assumption.
Qed.

Lemma escapeHtml_length s :
  length s <= length (escapeHtml (VStr s))
  /\ (existsb is_metachar s = true -> length s < length (escapeHtml (VStr s))).
Proof.
  induction s as [|c s [IH1 IH2]]; [split; [reflexivity|discriminate]|].
  rewrite escapeHtml_cons, length_app. cbn [length existsb].
  destruct (is_metachar c) eqn:Hc.
  - pose proof (entity_longer c Hc). split; [lia|]. intros _. lia.
  - rewrite (entity_plain c Hc). cbn [length orb]. split; [lia|].
    intros H. specialize (IH2 H). lia.
Qed.

(** X4: [escapeHtml] on strings.  It returns its input unchanged exactly
    when the input has none of the four characters it escapes, and never
    returns a shorter string; escaping a concatenation is concatenating
    the escaped parts; two different strings are never escaped to the same
    text. *)
Theorem escapeHtml_strings (s t : jsstring) :
  (escapeHtml (VStr s) = s <-> existsb is_metachar s = false)
  /\ length s <= length (escapeHtml (VStr s))
  /\ escapeHtml (VStr (s ++ t)) = escapeHtml (VStr s) ++ escapeHtml (VStr t)
  /\ (escapeHtml (VStr s) = escapeHtml (VStr t) -> s = t).
Proof.
  split; [|split; [apply escapeHtml_length|split; [apply escapeHtml_app|]]].
  - split.
    + intros H. destruct (existsb is_metachar s) eqn:E; [|reflexivity].
      pose proof (proj2 (escapeHtml_length s) E) as Hlt. rewrite H in Hlt. lia.
    + intros H. induction s as [|c s IH]; [reflexivity|].
      cbn [existsb] in H. apply orb_false_iff in H as [Hc Hs].
      rewrite escapeHtml_cons, (entity_plain c Hc), (IH Hs). reflexivity.
  - intros H. apply (f_equal decode_entities) in H.
    rewrite !decode_escapeHtml in H. exact H.
Qed.

(** ** The thread of an opened chat *)

Lemma bubbles_from_length n items : length (bubbles_from n items) = length items.
Proof.
  revert n. induction items as [|m items IH]; intros n; cbn; [reflexivity|].
  rewrite IH. reflexivity.
Qed.

Lemma render_message_run m st :
  nullish m = false ->
  render_message m st
  = MkRun (Ok tt)
      (with_messages_panel (messages_panel st ++ [bubble_of (next_node st) m])
         (with_next_node (S (next_node st)) st))
      [AppendChild MessagesPanel (bubble_of (next_node st) m)].
Proof.
  intros H. unfold render_message, bind, lift.
  rewrite !(getProp_defined _ _ H). reflexivity.
Qed.

Lemma render_message_throws m st :
  nullish m = true -> render_message m st = MkRun (Throw TypeError) st [].
Proof.
  intros H. unfold render_message, bind, lift.
  rewrite !(getProp_nullish _ _ H). reflexivity.
Qed.

Lemma render_messages_run items : forall st,
  Forall (fun m => nullish m = false) items ->
  forEach items render_message st
  = MkRun (Ok tt)
      (with_messages_panel (messages_panel st ++ bubbles_from (next_node st) items)
         (with_next_node (next_node st + length items) st))
      (map (AppendChild MessagesPanel) (bubbles_from (next_node st) items)).
Proof.
  induction items as [|m items IH]; intros st Hall.
  - cbn. rewrite app_nil_r, Nat.add_0_r. destruct st; reflexivity.
  - inversion Hall as [|? ? Hm Hrest]; subst.
    rewrite forEach_cons.
    rewrite (bind_ok _ _ _ _ _ _ (render_message_run m st Hm)).
    rewrite (IH _ Hrest). cbn.
    rewrite <- app_assoc, Nat.add_succ_r. reflexivity.
Qed.

Lemma render_messages_stop pre bad post : forall st,
  Forall (fun m => nullish m = false) pre ->
  nullish bad = true ->
  forEach (pre ++ bad :: post) render_message st
  = MkRun (Throw TypeError)
      (with_messages_panel (messages_panel st ++ bubbles_from (next_node st) pre)
         (with_next_node (next_node st + length pre) st))
      (map (AppendChild MessagesPanel) (bubbles_from (next_node st) pre)).
Proof.
  induction pre as [|m pre IH]; intros st Hall Hbad.
  - cbn [app]. rewrite forEach_cons.
    rewrite (bind_throw _ _ _ _ _ _ (render_message_throws bad st Hbad)).
    cbn. rewrite app_nil_r, Nat.add_0_r. destruct st; reflexivity.
  - inversion Hall as [|? ? Hm Hrest]; subst.
    cbn [app]. rewrite forEach_cons.
    rewrite (bind_ok _ _ _ _ _ _ (render_message_run m st Hm)).
    rewrite (IH _ Hrest Hbad). cbn.
    rewrite <- app_assoc, Nat.add_succ_r. reflexivity.
Qed.

(** The page when [openChat] resumes: the page at the request, after
    [apiFetch]. *)
Lemma openChat_unfold env chatId st :
  let mid := final (openChat_begin chatId st) in
  let fetched := apiFetch env (str "/api/chats/" ++ ToString chatId) no_opts mid in
  forall chat,
    outcome fetched = Ok chat ->
    let resumed := openChat_resume chat (final fetched) in
    openChat env chatId st
    = MkRun (outcome resumed) (final resumed)
        (trace (openChat_begin chatId st) ++ trace fetched ++ trace resumed)
    /\ messages_panel (final fetched)
       = map (toggle_active chatId) (messages_panel st)
    /\ chat_list (final fetched) = map (toggle_active chatId) (chat_list st)
    /\ next_node (final fetched) = next_node st
    /\ input_area_display (final fetched) = input_area_display st
    /\ activeChatId (final fetched) = chatId
    /\ location (final fetched) = str "/c/" ++ ToString chatId.
Proof.
  intros mid fetched chat Hchat resumed.
  split.
  - unfold openChat.
    rewrite (bind_ok _ _ _ _ _ _ (openChat_begin_run chatId st)).
    cbn [outcome final trace].
    assert (Hmid : mid = with_messages_panel (map (toggle_active chatId) (messages_panel st))
         (with_chat_list (map (toggle_active chatId) (chat_list st))
            (with_location (str "/c/" ++ ToString chatId)
               (with_activeChatId chatId st)))) by reflexivity.
    rewrite <- Hmid. fold fetched.
    rewrite (bind_ok _ _ _ _ _ _ (run_of_outcome _ _ Hchat)).
    cbn [outcome final trace]. rewrite openChat_begin_run. reflexivity.
  - destruct (apiFetch_page env (str "/api/chats/" ++ ToString chatId) no_opts mid)
      as (Ha & Hcl & Hmp & _ & Hloc & Hdisp & Hnode & _).
    fold fetched in Ha, Hcl, Hmp, Hloc, Hdisp, Hnode.
    rewrite Ha, Hcl, Hmp, Hloc, Hdisp, Hnode. repeat split.
Qed.

Lemma openChat_resume_run chat items s :
  truthy chat = true ->
  array_items (or_else (prop chat (str "messages")) (VArr [])) = Ok items ->
  Forall (fun m => nullish m = false) items ->
  openChat_resume chat s
  = MkRun (Ok tt)
      (with_input_area_display (str "flex")
         (with_messages_panel (bubbles_from (next_node s) items)
            (with_next_node (next_node s + length items) s)))
      (SetInnerHTML MessagesPanel (str "")
       :: map (AppendChild MessagesPanel) (bubbles_from (next_node s) items)
       ++ [SetDisplay (str "chat-input-area") (str "flex"); FocusInput;
           ScrollToBottom]).
Proof.
  intros Htruthy Hitems Hall.
  unfold openChat_resume. rewrite Htruthy. cbn [negb].
  erewrite bind_ok by reflexivity. cbn [outcome final trace].
  rewrite (getProp_defined _ _ (truthy_not_nullish _ Htruthy)).
  erewrite bind_ok by reflexivity. cbn [outcome final trace].
  rewrite Hitems.
  erewrite bind_ok by reflexivity. cbn [outcome final trace].
  erewrite bind_ok by (apply render_messages_run; exact Hall).
  cbn [outcome final trace].
  unfold bind, set_display_input_area, focus_msg_input, scrollToBottom, act.
  cbn. destruct s; reflexivity.
Qed.

Lemma panel_events_bubbles l :
  panel_events (map (AppendChild MessagesPanel) l) = map (AppendChild MessagesPanel) l.
Proof.
  unfold panel_events.
  induction l as [|b l IH]; cbn; [reflexivity | f_equal; exact IH].
Qed.

(** X5: when the chat request gives a chat whose messages are an array of
    objects, [openChat] replaces the thread by one bubble per message, in
    the order of the array, each with the role and the content of its
    message, and shows the input area.  A chat with no [messages] gets an
    empty thread. *)
Theorem openChat_renders_thread (env : Env) (chatId chat : Value) (st : State)
    (items : list Value) :
  outcome (apiFetch env (str "/api/chats/" ++ ToString chatId) no_opts
             (final (openChat_begin chatId st))) = Ok chat ->
  truthy chat = true ->
  array_items (or_else (prop chat (str "messages")) (VArr [])) = Ok items ->
  Forall (fun m => nullish m = false) items ->
  let run := openChat env chatId st in
  outcome run = Ok tt
  /\ messages_panel (final run) = bubbles_from (next_node st) items
  /\ length (messages_panel (final run)) = length items
  /\ input_area_display (final run) = str "flex"
  /\ panel_events (trace run)
     = SetInnerHTML MessagesPanel (str "")
       :: map (AppendChild MessagesPanel) (bubbles_from (next_node st) items)
  /\ (truthy (prop chat (str "messages")) = false -> messages_panel (final run) = []).
Proof.
  intros Hchat Htruthy Hitems Hall run.
  destruct (openChat_unfold env chatId st chat Hchat)
    as (Hrun & Hmp & Hcl & Hnode & Hdisp & Ha & Hloc).
  set (fetched := apiFetch env (str "/api/chats/" ++ ToString chatId) no_opts
                    (final (openChat_begin chatId st))) in *.
  pose proof (openChat_resume_run chat items (final fetched) Htruthy Hitems Hall)
    as Hresume.
  rewrite Hnode in Hresume.
  unfold run. rewrite Hrun, Hresume. cbn [outcome final trace].
  split; [reflexivity|]. split; [reflexivity|].
  split; [apply bubbles_from_length|]. split; [reflexivity|].
  split.
  - rewrite openChat_begin_run. cbn [trace].
    rewrite !panel_events_app.
    destruct (apiFetch_shape env (str "/api/chats/" ++ ToString chatId) no_opts
                (final (openChat_begin chatId st)))
      as (v & st1 & extra & Hshape & _).
    fold fetched in Hshape. rewrite Hshape. cbn [trace].
    change (Fetch ?r :: extra) with ([Fetch r] ++ extra).
    rewrite panel_events_app, (apiFetch_extra_quiet _ _ _ _ _ _ _ Hshape).
    cbn [panel_events List.filter is_panel_event app].
    f_equal. fold (panel_events (map (AppendChild MessagesPanel)
                     (bubbles_from (next_node st) items)
                   ++ [SetDisplay (str "chat-input-area") (str "flex"); FocusInput;
                       ScrollToBottom])).
    rewrite panel_events_app. cbn [panel_events List.filter is_panel_event].
    rewrite app_nil_r.
    apply panel_events_bubbles.
  - intros Hfalsy. unfold or_else in Hitems. rewrite Hfalsy in Hitems.
    cbn in Hitems. injection Hitems as <-. reflexivity.
Qed.

Lemma openChat_resume_failed chat s :
  truthy chat = false ->
  openChat_resume chat s
  = MkRun (Ok tt)
      (with_next_node (S (next_node s))
         (with_messages_panel
            [parsed_element (str "div") (str "empty-chat error")
               (str "Could not load this chat.") (next_node s)] s))
      [SetInnerHTML MessagesPanel
         (markup "<div class='empty-chat error'>Could not load this chat.</div>")].
Proof.
  intros H. unfold openChat_resume. rewrite H. reflexivity.
Qed.

(** X6: when the chat request gives nothing, [openChat] still completes:
    the thread is replaced by the single error element, while the chat
    stays selected, the address stays on it and the input area keeps the
    display it had. *)
Theorem openChat_load_failed (env : Env) (chatId chat : Value) (st : State) :
  outcome (apiFetch env (str "/api/chats/" ++ ToString chatId) no_opts
             (final (openChat_begin chatId st))) = Ok chat ->
  truthy chat = false ->
  let run := openChat env chatId st in
  outcome run = Ok tt
  /\ messages_panel (final run)
     = [parsed_element (str "div") (str "empty-chat error")
          (str "Could not load this chat.") (next_node st)]
  /\ input_area_display (final run) = input_area_display st
  /\ activeChatId (final run) = chatId
  /\ location (final run) = str "/c/" ++ ToString chatId
  /\ chat_list (final run) = map (toggle_active chatId) (chat_list st).
Proof.
  intros Hchat Hfalsy run.
  destruct (openChat_unfold env chatId st chat Hchat)
    as (Hrun & Hmp & Hcl & Hnode & Hdisp & Ha & Hloc).
  unfold run. rewrite Hrun, (openChat_resume_failed _ _ Hfalsy).
  cbn [outcome final trace]. rewrite Hnode.
  repeat split; assumption.
Qed.

Lemma openChat_resume_not_array chat s :
  truthy chat = true ->
  array_items (or_else (prop chat (str "messages")) (VArr [])) = Throw TypeError ->
  openChat_resume chat s
  = MkRun (Throw TypeError) (with_messages_panel [] s)
      [SetInnerHTML MessagesPanel (str "")].
Proof.
  intros Htruthy Hitems.
  unfold openChat_resume. rewrite Htruthy. cbn [negb].
  erewrite bind_ok by reflexivity. cbn [outcome final trace].
  rewrite (getProp_defined _ _ (truthy_not_nullish _ Htruthy)).
  erewrite bind_ok by reflexivity. cbn [outcome final trace].
  rewrite Hitems.
  erewrite bind_throw by reflexivity.
  cbn. destruct s; reflexivity.
Qed.

Lemma openChat_resume_stop chat pre bad post s :
  truthy chat = true ->
  array_items (or_else (prop chat (str "messages")) (VArr []))
  = Ok (pre ++ bad :: post) ->
  Forall (fun m => nullish m = false) pre ->
  nullish bad = true ->
  openChat_resume chat s
  = MkRun (Throw TypeError)
      (with_messages_panel (bubbles_from (next_node s) pre)
         (with_next_node (next_node s + length pre) s))
      (SetInnerHTML MessagesPanel (str "")
       :: map (AppendChild MessagesPanel) (bubbles_from (next_node s) pre)).
Proof.
  intros Htruthy Hitems Hall Hbad.
  unfold openChat_resume. rewrite Htruthy. cbn [negb].
  erewrite bind_ok by reflexivity. cbn [outcome final trace].
  rewrite (getProp_defined _ _ (truthy_not_nullish _ Htruthy)).
  erewrite bind_ok by reflexivity. cbn [outcome final trace].
  rewrite Hitems.
  erewrite bind_ok by reflexivity. cbn [outcome final trace].
  erewrite bind_throw by (apply render_messages_stop; assumption).
  cbn. destruct s; reflexivity.
Qed.

(** X7: [openChat] throws on a chat whose messages are not what it
    expects.  When [messages] is truthy and not an array the thread is left
    empty; when an element of the array is [null] the bubbles of the
    messages before it stay, and nothing after it is rendered.  In both
    cases the input area keeps the display it had and the chat stays
    selected. *)
Theorem openChat_malformed_messages (env : Env) (chatId chat : Value) (st : State) :
  outcome (apiFetch env (str "/api/chats/" ++ ToString chatId) no_opts
             (final (openChat_begin chatId st))) = Ok chat ->
  truthy chat = true ->
  let run := openChat env chatId st in
  let messages := or_else (prop chat (str "messages")) (VArr []) in
  (array_items messages = Throw TypeError ->
     outcome run = Throw TypeError
     /\ messages_panel (final run) = []
     /\ input_area_display (final run) = input_area_display st
     /\ activeChatId (final run) = chatId)
  /\ (forall pre bad post,
        array_items messages = Ok (pre ++ bad :: post) ->
        Forall (fun m => nullish m = false) pre ->
        nullish bad = true ->
        outcome run = Throw TypeError
        /\ messages_panel (final run) = bubbles_from (next_node st) pre
        /\ input_area_display (final run) = input_area_display st
        /\ activeChatId (final run) = chatId).
Proof.
  intros Hchat Htruthy run messages.
  destruct (openChat_unfold env chatId st chat Hchat)
    as (Hrun & Hmp & Hcl & Hnode & Hdisp & Ha & Hloc).
  split.
  - intros Hitems. unfold run.
    rewrite Hrun, (openChat_resume_not_array _ _ Htruthy Hitems).
    cbn [outcome final trace]. repeat split; assumption.
  - intros pre bad post Hitems Hall Hbad. unfold run.
    rewrite Hrun, (openChat_resume_stop _ _ _ _ _ Htruthy Hitems Hall Hbad).
    cbn [outcome final trace]. rewrite Hnode. repeat split; assumption.
Qed.

(** ** Creating a chat *)

Lemma request_lines_app t u :
  request_lines (t ++ u) = request_lines t ++ request_lines u.
Proof. unfold request_lines. apply flat_map_app. Qed.

Lemma request_lines_sidebar t :
  forallb is_sidebar_effect t = true -> request_lines t = [].
Proof.
  induction t as [|e t IH]; [reflexivity|]. cbn [forallb].
  intros H. apply andb_true_iff in H as [He Ht].
  destruct e; try discriminate He. all: cbn; exact (IH Ht).
Qed.

Lemma request_lines_apiFetch env path opts st :
  request_lines (trace (apiFetch env path opts st)) = [(opt_method opts, path)].
Proof.
  destruct (apiFetch_shape env path opts st) as (v & st1 & extra & Hrun & Hcases).
  rewrite Hrun. cbn [trace].
  destruct Hcases as [(_ & [-> | (-> & _)]) | (_ & -> & _)]; reflexivity.
Qed.

Lemma request_lines_loadChatList env st :
  request_lines (trace (loadChatList env st)) = [(None, str "/api/chats")].
Proof.
  destruct (loadChatList_run env st) as (v & st1 & extra & rest & Hrun & Htrace & Hrest & _).
  pose proof (request_lines_apiFetch env (str "/api/chats") no_opts st) as Hreq.
  rewrite Hrun in Hreq. cbn [trace] in Hreq.
  rewrite Htrace.
  change (Fetch ?r :: extra ++ rest) with ((Fetch r :: extra) ++ rest).
  rewrite request_lines_app, Hreq, (request_lines_sidebar _ Hrest). reflexivity.
Qed.

Lemma request_lines_render_messages items : forall st,
  request_lines (trace (forEach items render_message st)) = [].
Proof.
  induction items as [|m items IH]; intros st; [reflexivity|].
  rewrite forEach_cons.
  destruct (nullish m) eqn:Hm.
  - rewrite (bind_throw _ _ _ _ _ _ (render_message_throws m st Hm)). reflexivity.
  - rewrite (bind_ok _ _ _ _ _ _ (render_message_run m st Hm)).
    cbn [trace]. rewrite request_lines_app, IH. reflexivity.
Qed.

Lemma request_lines_openChat_resume chat st :
  request_lines (trace (openChat_resume chat st)) = [].
Proof.
  unfold openChat_resume. destruct (truthy chat) eqn:Htruthy; [|reflexivity].
  cbn [negb].
  erewrite bind_ok by reflexivity. cbn [outcome final trace].
  rewrite (getProp_defined _ _ (truthy_not_nullish _ Htruthy)).
  erewrite bind_ok by reflexivity. cbn [outcome final trace].
  destruct (array_items (or_else (prop chat (str "messages")) (VArr [])))
    as [items|e] eqn:Hitems.
  - erewrite bind_ok by reflexivity. cbn [outcome final trace].
    set (s := with_next_node _ _).
    destruct (forEach items render_message s) as [[[]|e] s1 t1] eqn:Hloop.
    + pose proof (request_lines_render_messages items s) as Hq.
      rewrite Hloop in Hq. cbn [trace] in Hq.
      erewrite bind_ok by exact Hloop. cbn [trace app].
      change (SetInnerHTML ?c ?h :: ?t) with ([SetInnerHTML c h] ++ t).
      rewrite !request_lines_app, Hq. reflexivity.
    + pose proof (request_lines_render_messages items s) as Hq.
      rewrite Hloop in Hq. cbn [trace] in Hq.
      erewrite bind_throw by exact Hloop. cbn [trace app].
      change (SetInnerHTML ?c ?h :: ?t) with ([SetInnerHTML c h] ++ t).
      rewrite !request_lines_app, Hq. reflexivity.
  - erewrite bind_throw by reflexivity. reflexivity.
Qed.

Lemma request_lines_openChat env chatId st :
  request_lines (trace (openChat env chatId st))
  = [(None, str "/api/chats/" ++ ToString chatId)].
Proof.
  destruct (apiFetch_shape env (str "/api/chats/" ++ ToString chatId) no_opts
              (final (openChat_begin chatId st)))
    as (chat & st1 & extra & Hshape & _).
  assert (Hchat : outcome (apiFetch env (str "/api/chats/" ++ ToString chatId) no_opts
                             (final (openChat_begin chatId st))) = Ok chat)
    by (rewrite Hshape; reflexivity).
  destruct (openChat_unfold env chatId st chat Hchat) as (Hrun & _).
  rewrite Hrun. cbn [trace].
  rewrite !request_lines_app, request_lines_apiFetch, request_lines_openChat_resume.
  reflexivity.
Qed.

(** X8: when the request that creates a chat gives nothing, [createNewChat]
    stops there: that request is the only one sent, the sidebar is not
    reloaded, no chat is opened, and the thread, the selection and the
    address are as before. *)
Theorem createNewChat_failed (env : Env) (st : State) (chat : Value) :
  outcome (apiFetch env (str "/api/chats") create_opts st) = Ok chat ->
  truthy chat = false ->
  let run := createNewChat env st in
  outcome run = Ok tt
  /\ request_lines (trace run) = [(Some (str "POST"), str "/api/chats")]
  /\ chat_list (final run) = chat_list st
  /\ messages_panel (final run) = messages_panel st
  /\ activeChatId (final run) = activeChatId st
  /\ location (final run) = location st.
Proof.
  intros Hchat Hfalsy run.
  destruct (apiFetch_page env (str "/api/chats") create_opts st)
    as (Ha & Hcl & Hmp & _ & Hloc & _).
  assert (Hrun : createNewChat env st
                 = MkRun (Ok tt) (final (apiFetch env (str "/api/chats") create_opts st))
                     (trace (apiFetch env (str "/api/chats") create_opts st))).
  { unfold createNewChat. fold create_opts.
    rewrite (bind_ok _ _ _ _ _ _ (run_of_outcome _ _ Hchat)).
    rewrite Hfalsy. cbn. rewrite app_nil_r. reflexivity. }
  unfold run. rewrite Hrun. cbn [outcome final trace].
  rewrite request_lines_apiFetch. repeat split; assumption.
Qed.

(** X9: when the request that creates a chat gives a chat, [createNewChat]
    reloads the sidebar and then opens the new chat: three requests are
    sent, in the order POST /api/chats, GET /api/chats, GET /api/chats/<id>,
    and the new chat ends selected with the address on it.  When rendering
    the reloaded list throws, the new chat is not opened: only the first
    two requests are sent and selection and address stay as they were. *)
Theorem createNewChat_opens (env : Env) (st : State) (chat : Value) :
  outcome (apiFetch env (str "/api/chats") create_opts st) = Ok chat ->
  truthy chat = true ->
  let run := createNewChat env st in
  let id := prop chat (str "id") in
  let reload := loadChatList env (final (apiFetch env (str "/api/chats") create_opts st)) in
  (outcome reload = Ok tt ->
     request_lines (trace run)
     = [(Some (str "POST"), str "/api/chats"); (None, str "/api/chats");
        (None, str "/api/chats/" ++ ToString id)]
     /\ activeChatId (final run) = id
     /\ location (final run) = str "/c/" ++ ToString id
     /\ run = MkRun (outcome (openChat env id (final reload)))
                (final (openChat env id (final reload)))
                (trace (apiFetch env (str "/api/chats") create_opts st)
                 ++ trace reload ++ trace (openChat env id (final reload))))
  /\ (forall e, outcome reload = Throw e ->
        outcome run = Throw e
        /\ request_lines (trace run)
           = [(Some (str "POST"), str "/api/chats"); (None, str "/api/chats")]
        /\ activeChatId (final run) = activeChatId st
        /\ location (final run) = location st).
Proof.
  intros Hchat Htruthy run id reload.
  destruct (apiFetch_page env (str "/api/chats") create_opts st)
    as (Ha & Hcl & Hmp & _ & Hloc & _).
  set (post := apiFetch env (str "/api/chats") create_opts st) in *.
  set (rest := bind (loadChatList env)
                (fun _ => bind (lift (getProp chat (str "id")))
                            (fun id => openChat env id)) (final post)).
  assert (Hstep : run = MkRun (outcome rest) (final rest) (trace post ++ trace rest)).
  { unfold run, createNewChat. fold create_opts.
    rewrite (bind_ok _ _ _ _ _ _ (run_of_outcome _ _ Hchat)).
    rewrite Htruthy. reflexivity. }
  split.
  - intros Hload.
    assert (Hrun : run = MkRun (outcome (openChat env id (final reload)))
                (final (openChat env id (final reload)))
                (trace post ++ trace reload ++ trace (openChat env id (final reload)))).
    { rewrite Hstep. unfold rest.
      rewrite (bind_ok _ _ _ _ _ _ (run_of_outcome _ _ Hload)).
      cbn [outcome final trace].
      rewrite (getProp_defined _ _ (truthy_not_nullish _ Htruthy)).
      erewrite bind_ok by reflexivity. cbn [outcome final trace app].
      reflexivity. }
    split; [|split; [|split]]; [| | |exact Hrun].
    + rewrite Hrun. cbn [trace].
      rewrite !request_lines_app. unfold post, reload.
      rewrite request_lines_apiFetch, request_lines_loadChatList,
        request_lines_openChat. reflexivity.
    + rewrite Hrun. cbn [final].
      destruct (openChat_run env id (final reload)) as (tl & _ & Hact & _).
      exact Hact.
    + rewrite Hrun. cbn [final].
      destruct (openChat_run env id (final reload)) as (tl & _ & _ & Hl & _).
      exact Hl.
  - intros e Hload.
    assert (Hrun : run = MkRun (Throw e) (final reload) (trace post ++ trace reload)).
    { rewrite Hstep. unfold rest.
      assert (Hr : loadChatList env (final post)
                   = MkRun (Throw e) (final reload) (trace reload)).
      { fold reload. destruct reload as [o s t]. cbn in Hload. subst o. reflexivity. }
      rewrite (bind_throw _ _ _ _ _ _ Hr). reflexivity. }
    rewrite Hrun. cbn [outcome final trace].
    destruct (loadChatList_run env (final post))
      as (v & st1 & extra & rest' & Hfetch & _ & _ & Hframe).
    fold reload in Hframe.
    destruct (sidebar_frame_fields _ _ Hframe) as (Hfa & _ & Hfl & _).
    destruct (apiFetch_page env (str "/api/chats") no_opts (final post))
      as (Ha2 & _ & _ & _ & Hloc2 & _).
    rewrite Hfetch in Ha2, Hloc2. cbn [final] in Ha2, Hloc2.
    split; [reflexivity|]. split; [|split].
    + rewrite request_lines_app. unfold post, reload.
      rewrite request_lines_apiFetch, request_lines_loadChatList. reflexivity.
    + rewrite Hfa, Ha2. exact Ha.
    + rewrite Hfl, Hloc2. exact Hloc.
Qed.

(** ** The rows of the sidebar *)

Lemma is_active_row_chat_row active n chat :
  is_active_row (chat_row active n chat) = strict_eq (prop chat (str "id")) active.
Proof.
  unfold is_active_row, chat_row, row_element, has_class. cbn [classList].
  destruct (strict_eq (prop chat (str "id")) active); vm_compute; reflexivity.
Qed.

Lemma chat_row_is_item active n chat :
  has_class (str "chat-item") (chat_row active n chat) = true.
Proof.
  unfold chat_row, row_element, has_class. cbn [classList].
  destruct (strict_eq (prop chat (str "id")) active); vm_compute; reflexivity.
Qed.

Lemma rows_from_facts active items : forall n,
  map dataset_id (rows_from active n items)
  = map (fun c => Some (ToString (prop c (str "id")))) items
  /\ map is_active_row (rows_from active n items)
     = map (fun c => strict_eq (prop c (str "id")) active) items
  /\ map node (rows_from active n items) = seq n (length items)
  /\ map innerHTML (rows_from active n items)
     = map (fun c => row_html (prop c (str "title")) (prop c (str "id"))) items.
Proof.
  induction items as [|c items IH]; intros n; [repeat split|].
  destruct (IH (S n)) as (Hd & Ha & Hn & Hh).
  cbn [rows_from map length seq].
  rewrite Hd, Ha, Hn, Hh, is_active_row_chat_row. repeat split.
Qed.

(** X10: [renderChatList] on a non-empty array of chat objects replaces the
    sidebar by one row per chat, in the order of the array, on fresh
    consecutive nodes.  The row of a chat carries the text of its [id] as
    [data-id] and its escaped title, and it is marked active exactly when
    the [id] is strictly equal to the selected chat. *)
Theorem renderChatList_rows_shown (items : list Value) (st : State) :
  items <> [] ->
  Forall (fun c => nullish c = false) items ->
  let run := renderChatList (VArr items) st in
  let rows := chat_list (final run) in
  outcome run = Ok tt
  /\ length rows = length items
  /\ map dataset_id rows = map (fun c => Some (ToString (prop c (str "id")))) items
  /\ map is_active_row rows
     = map (fun c => strict_eq (prop c (str "id")) (activeChatId st)) items
  /\ map node rows = seq (next_node st) (length items)
  /\ map innerHTML rows
     = map (fun c => row_html (prop c (str "title")) (prop c (str "id"))) items
  /\ trace run = SetInnerHTML ChatList (str "") :: map (AppendChild ChatList) rows.
Proof.
  intros Hne Hall run rows.
  destruct items as [|c items]; [contradiction|].
  pose proof (renderChatList_rows c items st Hall) as Hrun. cbn zeta in Hrun.
  unfold rows, run. rewrite Hrun. cbn [outcome final trace chat_list with_chat_list].
  destruct (rows_from_facts (activeChatId st) (c :: items) (next_node st))
    as (Hd & Ha & Hn & Hh).
  split; [reflexivity|]. split; [apply rows_from_length|].
  repeat split; assumption.
Qed.

Lemma is_row_of_number k row : is_row_of (VNum k) row = false.
Proof.
  unfold is_row_of, dataset_id_value.
  destruct (has_class (str "chat-item") row); [|reflexivity].
  destruct (dataset_id row); reflexivity.
Qed.

Lemma no_active_row_number k l :
  List.filter is_active_row (map (toggle_active (VNum k)) l) = [].
Proof.
  induction l as [|row l IH]; [reflexivity|].
  cbn [map List.filter]. rewrite is_active_row_toggle, is_row_of_number. exact IH.
Qed.

(** X11: a chat whose identifier is a number.  [renderChatList] marks its
    row active when it is the selected chat, since it compares the
    identifiers themselves; [openChat] on that identifier leaves no row of
    the sidebar marked, since it compares with the text kept in [data-id]. *)
Theorem openChat_numeric_id (env : Env) (k : Z) (items : list Value) (st : State) :
  Forall (fun c => nullish c = false) items ->
  let listed := final (renderChatList (VArr items) (with_activeChatId (VNum k) st)) in
  length (List.filter is_active_row (chat_list listed))
  = length (List.filter (fun c => strict_eq (prop c (str "id")) (VNum k)) items)
  /\ List.filter is_active_row (chat_list (final (openChat env (VNum k) listed))) = [].
Proof.
  intros Hall listed. split.
  - destruct (renderChatList_array items (with_activeChatId (VNum k) st) Hall)
      as (_ & _ & Hrows).
    fold listed in Hrows. rewrite Hrows.
    destruct items as [|c items]; [reflexivity|].
    change (activeChatId (with_activeChatId (VNum k) st)) with (VNum k).
    generalize (next_node (with_activeChatId (VNum k) st)).
    generalize (c :: items). clear. intros items.
    induction items as [|c items IH]; intros n; [reflexivity|].
    cbn [rows_from List.filter]. rewrite is_active_row_chat_row.
    destruct (strict_eq (prop c (str "id")) (VNum k)); cbn [length]; rewrite IH;
      reflexivity.
  - destruct (openChat_run env (VNum k) listed) as (rest & _ & _ & _ & Hc).
    rewrite Hc. apply no_active_row_number.
Qed.

Lemma render_rows_stop pre bad post : forall st,
  Forall (fun c => nullish c = false) pre ->
  nullish bad = true ->
  forEach (pre ++ bad :: post) render_row st
  = MkRun (Throw TypeError)
      (with_chat_list (chat_list st ++ rows_from (activeChatId st) (next_node st) pre)
         (with_next_node (S (next_node st + length pre)) st))
      (map (AppendChild ChatList) (rows_from (activeChatId st) (next_node st) pre)).
Proof.
  induction pre as [|c pre IH]; intros st Hall Hbad.
  - cbn [app]. rewrite forEach_cons.
    rewrite (bind_throw _ _ _ _ _ _ (render_row_throws bad st Hbad)).
    cbn. rewrite app_nil_r, Nat.add_0_r. destruct st; reflexivity.
  - inversion Hall as [|? ? Hc Hrest]; subst.
    cbn [app]. rewrite forEach_cons.
    pose proof (render_row_run c st Hc) as Hrow. cbn zeta in Hrow.
    rewrite (bind_ok _ _ _ _ _ _ Hrow).
    rewrite (IH _ Hrest Hbad). cbn.
    rewrite <- app_assoc, Nat.add_succ_r. reflexivity.
Qed.

(** X12: [renderChatList] throws on a value that is not an array of chat
    objects, after it has emptied the sidebar.  A value that is not an
    array and whose [length] is not 0 leaves the sidebar empty; an array
    with a [null] element leaves the rows of the chats before that
    element, and none for the chats after it. *)
Theorem renderChatList_malformed (chats : Value) (st : State) :
  let run := renderChatList chats st in
  (nullish chats = false ->
   strict_eq (prop chats (str "length")) (VNum 0) = false ->
   array_items chats = Throw TypeError ->
   outcome run = Throw TypeError /\ chat_list (final run) = [])
  /\ (forall pre bad post,
        chats = VArr (pre ++ bad :: post) ->
        Forall (fun c => nullish c = false) pre ->
        nullish bad = true ->
        outcome run = Throw TypeError
        /\ chat_list (final run) = rows_from (activeChatId st) (next_node st) pre
        /\ length (chat_list (final run)) = length pre).
Proof.
  intros run. split.
  - intros Hdef Hlen Hitems. unfold run, renderChatList.
    erewrite bind_ok by reflexivity. cbn [outcome final trace].
    rewrite (getProp_defined _ _ Hdef).
    erewrite bind_ok by reflexivity. cbn [outcome final trace].
    rewrite Hlen, Hitems.
    erewrite bind_throw by reflexivity. split; reflexivity.
  - intros pre bad post -> Hall Hbad. unfold run, renderChatList.
    erewrite bind_ok by reflexivity. cbn [outcome final trace].
    erewrite bind_ok by reflexivity. cbn [outcome final trace].
    assert (Hlen : strict_eq (VNum (Z.of_nat (length (pre ++ bad :: post)))) (VNum 0)
                   = false).
    { cbn [strict_eq]. apply Z.eqb_neq. rewrite length_app. cbn [length]. lia. }
    change (getProp (VArr (pre ++ bad :: post)) (str "length"))
      with (Ok (VNum (Z.of_nat (length (pre ++ bad :: post))))).
    cbn [outcome final trace]. rewrite Hlen. cbn [array_items].
    erewrite bind_ok by reflexivity. cbn [outcome final trace].
    rewrite (render_rows_stop pre bad post _ Hall Hbad).
    cbn [outcome final trace].
    split; [reflexivity|]. split.
    + cbn. reflexivity.
    + cbn. apply rows_from_length.
Qed.

(** ** The page-load handler with a valid session *)

Lemma chrome_sidebar_frame st st' : sidebar_frame st st' -> chrome st' = chrome st.
Proof.
  unfold sidebar_frame, chrome. intros H.
  pose proof (f_equal user_email H) as H1. pose proof (f_equal wired H) as H2.
  pose proof (f_equal auth_overlay_display H) as H3. cbn in H1, H2, H3.
  rewrite H1, H2, H3. reflexivity.
Qed.

Lemma chrome_thread_frame st st' : thread_frame st st' -> chrome st' = chrome st.
Proof.
  unfold thread_frame, chrome. intros H.
  pose proof (f_equal user_email H) as H1. pose proof (f_equal wired H) as H2.
  pose proof (f_equal auth_overlay_display H) as H3. cbn in H1, H2, H3.
  rewrite H1, H2, H3. reflexivity.
Qed.

Lemma chrome_apiFetch env path opts st :
  chrome (final (apiFetch env path opts st)) = chrome st.
Proof.
  destruct (apiFetch_signed_out_only_401 env path opts st) as [-> | (-> & _)];
    reflexivity.
Qed.

Lemma chrome_loadChatList env st : chrome (final (loadChatList env st)) = chrome st.
Proof.
  destruct (loadChatList_run env st) as (v & st1 & extra & rest & Hrun & _ & _ & Hframe).
  rewrite (chrome_sidebar_frame _ _ Hframe).
  pose proof (chrome_apiFetch env (str "/api/chats") no_opts st) as H.
  rewrite Hrun in H. exact H.
Qed.

Lemma chrome_openChat env chatId st : chrome (final (openChat env chatId st)) = chrome st.
Proof.
  destruct (apiFetch_shape env (str "/api/chats/" ++ ToString chatId) no_opts
              (final (openChat_begin chatId st)))
    as (chat & st1 & extra & Hshape & _).
  assert (Hchat : outcome (apiFetch env (str "/api/chats/" ++ ToString chatId) no_opts
                             (final (openChat_begin chatId st))) = Ok chat)
    by (rewrite Hshape; reflexivity).
  destruct (openChat_unfold env chatId st chat Hchat) as (Hrun & _).
  rewrite Hrun. cbn [final].
  rewrite (chrome_thread_frame _ _ (openChat_resume_frame _ _)), chrome_apiFetch.
  reflexivity.
Qed.

Lemma openChatFromLocation_run env st :
  chrome (final (openChatFromLocation env st)) = chrome st
  /\ request_lines (trace (openChatFromLocation env st)) = route_requests (location st).
Proof.
  unfold openChatFromLocation, route_requests, segments, bind, gets.
  cbn [outcome final trace app].
  destruct (List.filter nonempty (split 47 (location st))) as [|root [|id [|x l]]];
    try (split; reflexivity).
  destruct (jsstring_eqb root (str "c")); [|split; reflexivity].
  pose proof (chrome_openChat env (VStr id) st) as Hc.
  pose proof (request_lines_openChat env (VStr id) st) as Hr.
  destruct (openChat env (VStr id) st) as [o s t]. cbn in *. split; assumption.
Qed.

Lemma onDOMContentLoaded_signed_in env st me :
  truthy (token_of st) = true ->
  outcome (apiFetch env (str "/api/auth/me") no_opts st) = Ok me ->
  truthy me = true ->
  let check := apiFetch env (str "/api/auth/me") no_opts st in
  let shown := or_else (prop me (str "email")) (prop me (str "uid")) in
  exists st1,
    chrome st1 = (shown, wired st ++ wired_controls, auth_overlay_display st)
    /\ location st1 = location st
    /\ let rest := bind (loadChatList env) (fun _ => openChatFromLocation env) st1 in
       onDOMContentLoaded env st
       = MkRun (outcome rest) (final rest)
           (trace check
            ++ SetTextContent (str "user-email") shown
               :: map (fun c => AddEventListener (fst (fst c)) (snd (fst c)) (snd c))
                    wired_controls
            ++ trace rest).
Proof.
  intros Htok Hme Htruthy check shown.
  pose proof (apiFetch_page env (str "/api/auth/me") no_opts st) as Hpage.
  cbn zeta in Hpage. destruct Hpage as (_ & _ & _ & _ & Hloc & _).
  pose proof (chrome_apiFetch env (str "/api/auth/me") no_opts st) as Hchrome.
  fold check in Hloc, Hchrome.
  set (st1 :=
         final (addEventListener (str "msg-input") (str "keydown") HSendOnEnter
           (final (addEventListener (str "send-btn") (str "click") HSendMessage
             (final (addEventListener (str "btn-logout") (str "click") HLogout
               (final (addEventListener (str "btn-new-chat") (str "click") HCreateNewChat
                 (final (set_user_email shown (final check))))))))))).
  exists st1. split; [|split].
  - unfold chrome in *. injection Hchrome as _ Hw Ho.
    revert Hw Ho. unfold st1. generalize (final check). intros s Hw Ho.
    cbn. rewrite Hw, Ho, <- !app_assoc. reflexivity.
  - exact Hloc.
  - intros rest. unfold onDOMContentLoaded.
    erewrite bind_ok by reflexivity. fold (token_of st). rewrite Htok. cbn [negb].
    rewrite (bind_ok _ _ _ _ _ _ (run_of_outcome _ _ Hme)). rewrite Htruthy.
    cbn [negb outcome final trace].
    rewrite !(getProp_defined _ _ (truthy_not_nullish _ Htruthy)).
    do 7 (erewrite bind_ok by reflexivity). cbn [outcome final trace].
    fold check. fold shown.
    change (with_wired _ (with_wired _ _)) with st1.
    fold rest. f_equal.
Qed.

(** X13: with a stored token and an identity check that gives a user, the
    page-load handler shows the user's email, or the uid when there is no
    email, wires the four controls and leaves the overlay as it was,
    whatever the list load and the routing do afterwards.  It asks for the
    identity first and for the chat list second, and then at most for the
    chat the location names. *)
Theorem onDOMContentLoaded_session (env : Env) (st : State) (me : Value) :
  truthy (token_of st) = true ->
  outcome (apiFetch env (str "/api/auth/me") no_opts st) = Ok me ->
  truthy me = true ->
  let run := onDOMContentLoaded env st in
  user_email (final run) = or_else (prop me (str "email")) (prop me (str "uid"))
  /\ wired (final run) = wired st ++ wired_controls
  /\ auth_overlay_display (final run) = auth_overlay_display st
  /\ exists rest,
       request_lines (trace run)
       = (None, str "/api/auth/me") :: (None, str "/api/chats") :: rest
       /\ (rest = [] \/ rest = route_requests (location st)).
Proof.
  intros Htok Hme Htruthy run.
  destruct (onDOMContentLoaded_signed_in env st me Htok Hme Htruthy)
    as (st1 & Hchrome & Hloc & Hrun).
  cbn zeta in Hrun. unfold run. rewrite Hrun. cbn [final trace].
  set (check := apiFetch env (str "/api/auth/me") no_opts st) in *.
  assert (Hrest :
    chrome (final (bind (loadChatList env) (fun _ => openChatFromLocation env) st1))
    = chrome st1
    /\ exists rest,
         request_lines
           (trace (bind (loadChatList env) (fun _ => openChatFromLocation env) st1))
         = (None, str "/api/chats") :: rest
         /\ (rest = [] \/ rest = route_requests (location st))).
  { pose proof (chrome_loadChatList env st1) as Hc1.
    pose proof (request_lines_loadChatList env st1) as Hr1.
    destruct (loadChatList_run env st1)
      as (v & sta & extra & tl & Hfetch & _ & _ & Hframe).
    destruct (sidebar_frame_fields _ _ Hframe) as (_ & _ & Hl2 & _).
    destruct (apiFetch_page env (str "/api/chats") no_opts st1)
      as (_ & _ & _ & _ & Hl1 & _).
    rewrite Hfetch in Hl1. cbn [final] in Hl1.
    destruct (loadChatList env st1) as [[[]|e] st2 t2] eqn:Hload.
    - rewrite (bind_ok _ _ _ _ _ _ Hload). cbn [final trace] in *.
      destruct (openChatFromLocation_run env st2) as (Hc2 & Hr2).
      split; [rewrite Hc2; exact Hc1|].
      exists (route_requests (location st)). split; [|right; reflexivity].
      rewrite request_lines_app, Hr1, Hr2, Hl2, Hl1, Hloc. reflexivity.
    - rewrite (bind_throw _ _ _ _ _ _ Hload). cbn [final trace] in *.
      split; [exact Hc1|]. exists []. split; [exact Hr1|left; reflexivity]. }
  destruct Hrest as (Hc & rest & Hreq & Hcases).
  rewrite Hchrome in Hc. unfold chrome in Hc. injection Hc as Hu Hw Ho.
  split; [exact Hu|]. split; [exact Hw|]. split; [exact Ho|].
  exists rest. split; [|exact Hcases].
  rewrite request_lines_app. unfold check. rewrite request_lines_apiFetch.
  change (SetTextContent ?a ?b :: ?l ++ ?t) with ((SetTextContent a b :: l) ++ t).
  rewrite request_lines_app, Hreq. reflexivity.
Qed.

(** ** The input and the requests of a send *)

Lemma loadChatList_fields env st :
  let st' := final (loadChatList env st) in
  activeChatId st' = activeChatId st
  /\ msg_input st' = msg_input st
  /\ messages_panel st' = messages_panel st
  /\ location st' = location st
  /\ input_area_display st' = input_area_display st.
Proof.
  cbn zeta.
  destruct (loadChatList_run env st) as (v & st1 & extra & rest & Hrun & _ & _ & Hframe).
  destruct (sidebar_frame_fields _ _ Hframe) as (Ha & _ & Hl & _ & Hp & Hm & Hd & _).
  destruct (apiFetch_page env (str "/api/chats") no_opts st)
    as (Ha1 & _ & Hp1 & Hm1 & Hl1 & Hd1 & _).
  rewrite Hrun in Ha1, Hp1, Hm1, Hl1, Hd1. cbn [final] in Ha1, Hp1, Hm1, Hl1, Hd1.
  rewrite Ha, Hm, Hp, Hl, Hd. repeat split; assumption.
Qed.

Lemma refresh_sidebar_fields env st :
  let run := refresh_sidebar env st in
  activeChatId (final run) = activeChatId st
  /\ msg_input (final run) = msg_input st
  /\ request_lines (trace run) = [(None, str "/api/chats")].
Proof.
  cbn zeta. unfold refresh_sidebar.
  destruct (loadChatList_fields env st) as (Ha & Hm & _).
  pose proof (request_lines_loadChatList env st) as Hr.
  destruct (loadChatList env st) as [[[]|e] st2 t2] eqn:Hload; cbn [final trace] in *.
  - rewrite (bind_ok _ _ _ _ _ _ Hload).
    unfold bind, gets, highlight_active, act. cbn [final trace outcome app].
    rewrite request_lines_app, Hr. repeat split; assumption.
  - rewrite (bind_throw _ _ _ _ _ _ Hload). cbn [final trace].
    repeat split; assumption.
Qed.

Lemma sendMessage_resume_fields env typingEl result st :
  let run := sendMessage_resume env typingEl result st in
  activeChatId (final run) = activeChatId st
  /\ msg_input (final run) = msg_input st
  /\ request_lines (trace run)
     = (if truthy result then [(None, str "/api/chats")] else [])
  /\ (truthy result = false ->
      outcome run = Ok tt
      /\ chat_list (final run)
         = List.filter (is_not_node (node typingEl)) (chat_list st)).
Proof.
  cbn zeta. unfold sendMessage_resume.
  erewrite bind_ok by reflexivity. cbn [outcome final trace].
  set (st_r := with_messages_panel _ _).
  destruct (truthy result) eqn:Htruthy; cbn [negb].
  - set (reply := message_element (next_node st) (VStr (str "assistant"))
                    (prop result (str "assistant"))).
    set (st2 := with_messages_panel (messages_panel st_r ++ [reply])
                  (with_next_node (S (next_node st_r)) st_r)).
    assert (Hinner :
      (assistant <- lift (getProp result (str "assistant")) ;;
       appendMessage (VStr (str "assistant")) assistant ;;;
       loadChatList env ;;;
       active <- gets activeChatId ;;
       highlight_active active) st_r
      = MkRun (outcome (refresh_sidebar env st2)) (final (refresh_sidebar env st2))
          ([AppendChild MessagesPanel reply] ++ trace (refresh_sidebar env st2))).
    { rewrite (getProp_defined _ _ (truthy_not_nullish _ Htruthy)).
      erewrite bind_ok by reflexivity. cbn [outcome final trace app].
      erewrite bind_ok by (rewrite appendMessage_run; reflexivity).
      cbn [outcome final trace app]. reflexivity. }
    destruct (refresh_sidebar_fields env st2) as (Ha & Hm & Hr).
    split; [|split; [|split; [|discriminate]]].
    all: destruct (refresh_sidebar env st2) as [[[]|e] st3 t3] eqn:Hrefresh;
      cbn [outcome final trace] in *;
      [ erewrite bind_ok by exact Hinner | erewrite bind_throw by exact Hinner ];
      cbn [outcome final trace app scrollToBottom act].
    + exact Ha.
    + exact Ha.
    + exact Hm.
    + exact Hm.
    + change (RemoveNode ?n :: AppendChild ?c ?el :: t3 ++ ?l)
        with ([RemoveNode n; AppendChild c el] ++ t3 ++ l).
      rewrite !request_lines_app, Hr. reflexivity.
    + exact Hr.
  - unfold bind, appendMessage, createElement, appendChild, act, scrollToBottom, ret.
    cbn. repeat split.
Qed.

Lemma filter_newer_node n m l :
  Forall (fun el => node el < n) l -> n <= m ->
  List.filter (is_not_node m) l = l.
Proof.
  intros Hall Hle. induction Hall as [|el l Hel _ IH]; [reflexivity|].
  cbn [List.filter]. unfold is_not_node at 1.
  destruct (Nat.eqb_spec (node el) m) as [Heq|Hne]; [lia|].
  cbn [negb]. rewrite IH. reflexivity.
Qed.

(** X14: sending a message that is not empty once trimmed, on an active
    chat.  The input is emptied before the request goes out and stays
    empty whatever the request gives, so the text of a failed send is not
    put back; the selection is kept.  A send that gives nothing completes
    with the POST as its only request and the sidebar untouched; a send
    that gives a result asks for the chat list after the POST. *)
Theorem sendMessage_input_and_requests (env : Env) (st : State) :
  truthy (activeChatId st) = true ->
  trim (msg_input st) <> [] ->
  nodes_fresh st ->
  let message := trim (msg_input st) in
  let path := str "/api/chats/" ++ ToString (activeChatId st) ++ str "/messages" in
  let run := sendMessage env st in
  msg_input (final (sendMessage_begin st)) = str ""
  /\ msg_input (final run) = str ""
  /\ activeChatId (final run) = activeChatId st
  /\ exists result,
       outcome (apiFetch env path (send_opts message) (final (sendMessage_begin st)))
       = Ok result
       /\ (truthy result = false ->
           outcome run = Ok tt
           /\ chat_list (final run) = chat_list st
           /\ request_lines (trace run) = [(Some (str "POST"), path)])
       /\ (truthy result = true ->
           request_lines (trace run)
           = [(Some (str "POST"), path); (None, str "/api/chats")]).
Proof.
  intros Hact Hmsg Hfresh message path run.
  pose proof (sendMessage_begin_run st Hact Hmsg) as Hbegin. cbn zeta in Hbegin.
  fold message in Hbegin.
  set (userEl := message_element (next_node st) (VStr (str "user")) (VStr message)) in *.
  set (typingEl := typing_element (S (next_node st))) in *.
  set (mid := with_messages_panel _ _) in Hbegin.
  rewrite Hbegin. cbn [final].
  destruct (apiFetch_shape env path (send_opts message) mid)
    as (result & st1 & extra & Hfetch & _).
  destruct (apiFetch_page env path (send_opts message) mid)
    as (Ha1 & Hl1 & _ & Hm1 & _).
  rewrite Hfetch in Ha1, Hl1, Hm1. cbn [final] in Ha1, Hl1, Hm1.
  pose proof (request_lines_apiFetch env path (send_opts message) mid) as Hq.
  rewrite Hfetch in Hq. cbn [trace] in Hq.
  assert (Hrun : sendMessage env st
                 = MkRun (outcome (sendMessage_resume env typingEl result st1))
                     (final (sendMessage_resume env typingEl result st1))
                     ([AppendChild MessagesPanel userEl; SetInputValue (str "");
                       ScrollToBottom; AppendChild MessagesPanel typingEl]
                      ++ (Fetch (request_of (token_of mid) path (send_opts message))
                          :: extra)
                      ++ trace (sendMessage_resume env typingEl result st1))).
  { unfold sendMessage. rewrite (bind_ok _ _ _ _ _ _ Hbegin).
    cbn [outcome final trace].
    erewrite bind_ok by reflexivity. cbn [outcome final trace app].
    change (activeChatId mid) with (activeChatId st). fold path.
    rewrite (bind_ok _ _ _ _ _ _ Hfetch). cbn [outcome final trace].
    reflexivity. }
  destruct (sendMessage_resume_fields env typingEl result st1)
    as (Ha & Hm & Hr & Hfail).
  unfold run. rewrite Hrun. cbn [outcome final trace].
  split; [reflexivity|].
  split; [rewrite Hm, Hm1; reflexivity|].
  split; [rewrite Ha, Ha1; reflexivity|].
  exists result. split; [rewrite Hfetch; reflexivity|].
  split.
  - intros Hfalsy. destruct (Hfail Hfalsy) as (Ho & Hl).
    split; [exact Ho|]. split.
    + rewrite Hl, Hl1. change (chat_list mid) with (chat_list st).
      unfold nodes_fresh in Hfresh. apply Forall_app in Hfresh as [HfreshL _].
      apply (filter_newer_node (next_node st)); [exact HfreshL|cbn; lia].
    + rewrite !request_lines_app, Hr, Hq, Hfalsy. reflexivity.
  - intros Htruthy. rewrite !request_lines_app, Hr, Hq, Htruthy. reflexivity.
Qed.

(** ** Logging out *)

Lemma firebase_signOut_ok firebaseAuth st :
  outcome (firebase_signOut firebaseAuth st) = Ok tt.
Proof.
  destruct firebaseAuth as [signOut|]; [|reflexivity].
  unfold firebase_signOut, try_catch.
  destruct (signOut st) as [[[]|e] s t]; reflexivity.
Qed.

(** X15: [logout] always empties the local storage, also when the sign-out
    of Firebase rejects.  It then sends POST /api/auth/logout and goes to
    "/" on any response, whatever its status; when that request fails on
    the network, [logout] throws and the page stays where it is, with the
    storage already empty. *)
Theorem logout_clears_then_leaves (env : Env) (firebaseAuth : option (M unit))
    (st : State) :
  let signed := firebase_signOut firebaseAuth st in
  let run := logout env firebaseAuth st in
  localStorage (final run) = ∅
  /\ trace run
     = trace signed ++ StorageClear :: Fetch logout_request
       :: match server env (clock (final signed)) logout_request with
          | Some _ => [Navigate (str "/")]
          | None => []
          end
  /\ (forall r, server env (clock (final signed)) logout_request = Some r ->
        outcome run = Ok tt /\ navigation (final run) = Some (str "/"))
  /\ (server env (clock (final signed)) logout_request = None ->
        outcome run = Throw NetworkError
        /\ navigation (final run) = navigation (final signed)).
Proof.
  intros signed run.
  pose proof (firebase_signOut_ok firebaseAuth st) as Hok. fold signed in Hok.
  assert (Hsigned : firebase_signOut firebaseAuth st
                    = MkRun (Ok tt) (final signed) (trace signed))
    by (apply run_of_outcome; exact Hok).
  unfold run, logout.
  rewrite (bind_ok _ _ _ _ _ _ Hsigned). cbn [outcome final trace].
  erewrite bind_ok by reflexivity. cbn [outcome final trace].
  set (s1 := with_localStorage ∅ (final signed)).
  destruct (server env (clock (final signed)) logout_request) as [r|] eqn:Hr.
  - assert (Hfetch : fetch env logout_request s1
                     = MkRun (Ok r) (with_clock (S (clock s1)) s1)
                         [Fetch logout_request]).
    { unfold fetch. change (clock s1) with (clock (final signed)).
      rewrite Hr. reflexivity. }
    rewrite (bind_ok _ _ _ _ _ _ Hfetch). cbn.
    split; [reflexivity|]. split; [reflexivity|]. split; [|discriminate].
    intros; split; reflexivity.
  - assert (Hfetch : fetch env logout_request s1
                     = MkRun (Throw NetworkError) (with_clock (S (clock s1)) s1)
                         [Fetch logout_request]).
    { unfold fetch. change (clock s1) with (clock (final signed)).
      rewrite Hr. reflexivity. }
    rewrite (bind_throw _ _ _ _ _ _ Hfetch). cbn.
    split; [reflexivity|]. split; [reflexivity|]. split; [discriminate|].
    intros; split; reflexivity.
Qed.

(** * Properties of the landing page *)

Lemma auth_bind_done {A B} (m : Auth.M A) (f : A -> Auth.M B) pg a pg1 t1 :
  m pg = Auth.MkRun (Auth.Done a) pg1 t1 ->
  Auth.bind m f pg
  = Auth.MkRun (Auth.outcome (f a pg1)) (Auth.final (f a pg1))
      (t1 ++ Auth.trace (f a pg1)).
Proof. unfold Auth.bind. intros ->. destruct (f a pg1). reflexivity. Qed.

Lemma auth_run_eta {A} (r : Auth.Run A) :
  Auth.MkRun (Auth.outcome r) (Auth.final r) (Auth.trace r) = r.
Proof. destruct r. reflexivity. Qed.

(** The text [exchangeTokenAndRedirect] shows when something was thrown. *)
Lemma exchange_cases env user pg :
  let run := Auth.exchangeTokenAndRedirect env user pg in
  match Auth.getIdToken env user with
  | Auth.Rejected m =>
      run = Auth.MkRun (Auth.Done tt)
              (Auth.with_error (VStr (str "Token exchange failed: " ++ m)) (str "block") pg)
              [Auth.GetIdToken user;
               Auth.ShowError (VStr (str "Token exchange failed: " ++ m))]
  | Auth.Fulfilled tok =>
      let pg1 := Auth.with_storage (stored_credentials tok user (Auth.storage pg)) pg in
      let writes :=
        [Auth.GetIdToken user;
         Auth.SetItem (str "fb_id_token") tok;
         Auth.SetItem (str "fb_uid") (Auth.uid user);
         Auth.SetItem (str "fb_email") (Auth.email_or_empty user);
         Auth.Fetch (Auth.login_request tok)] in
      exists last,
        Auth.outcome run = Auth.Done tt
        /\ Auth.trace run = writes ++ [last]
        /\ (if login_accepted env user
            then last = Auth.Assign (str "/c/")
                 /\ Auth.final run = Auth.with_href (Some (str "/c/")) pg1
            else exists msg,
                   last = Auth.ShowError msg
                   /\ Auth.final run = Auth.with_error msg (str "block") pg1)
  end.
Proof.
  cbn zeta. unfold login_accepted, Auth.exchangeTokenAndRedirect, Auth.try_catch.
  destruct (Auth.getIdToken env user) as [tok|m] eqn:Htok; [|reflexivity].
  unfold Auth.bind, Auth.await, Auth.localStorage_setItem, Auth.act, Auth.fetch.
  cbn beta iota. unfold stored_credentials.
  destruct (Auth.server env (Auth.login_request tok)) as [r|] eqn:Hr; cbn beta iota.
  - destruct (res_ok r) eqn:Hok; cbn [negb]; cbn beta iota.
    + eexists. cbn. split; [reflexivity|]. split; [reflexivity|].
      split; reflexivity.
    + unfold Auth.res_json.
      destruct (json_body r) as [body|]; cbn.
      * destruct (getProp body (str "error")) as [e|e]; cbn;
          eexists; (split; [reflexivity|]); (split; [reflexivity|]);
          eexists; split; reflexivity.
      * eexists. split; [reflexivity|]. split; [reflexivity|].
        eexists; split; reflexivity.
  - cbn. eexists. split; [reflexivity|]. split; [reflexivity|].
    eexists; split; reflexivity.
Qed.

Lemma exchange_done env user pg :
  Auth.outcome (Auth.exchangeTokenAndRedirect env user pg) = Auth.Done tt.
Proof.
  pose proof (exchange_cases env user pg) as H. cbn zeta in H.
  destruct (Auth.getIdToken env user) as [tok|m].
  - destruct H as (last & Ho & _). exact Ho.
  - rewrite H. reflexivity.
Qed.

(** X16: [exchangeTokenAndRedirect] never throws.  It goes to "/c/"
    exactly when Firebase gives an ID token and the backend answers the
    login request with a success status, and then shows no error; in every
    other case it stays on the page and shows an error. *)
Theorem exchange_redirects_iff_accepted (env : Auth.Env) (user : Auth.User)
    (pg : Auth.Page) :
  let run := Auth.exchangeTokenAndRedirect env user pg in
  Auth.outcome run = Auth.Done tt
  /\ (login_accepted env user = true ->
      Auth.href (Auth.final run) = Some (str "/c/")
      /\ List.filter is_assign (Auth.trace run) = [Auth.Assign (str "/c/")]
      /\ Auth.authError_display (Auth.final run) = Auth.authError_display pg
      /\ Auth.authError_textContent (Auth.final run) = Auth.authError_textContent pg)
  /\ (login_accepted env user = false ->
      Auth.href (Auth.final run) = Auth.href pg
      /\ List.filter is_assign (Auth.trace run) = []
      /\ Auth.authError_display (Auth.final run) = str "block").
Proof.
  intros run. pose proof (exchange_cases env user pg) as H. cbn zeta in H.
  fold run in H. unfold login_accepted in *.
  destruct (Auth.getIdToken env user) as [tok|m].
  - destruct H as (last & Ho & Ht & Hcase).
    split; [exact Ho|]. rewrite Ht.
    destruct (match Auth.server env (Auth.login_request tok) with
              | Some r => res_ok r | None => false end).
    + destruct Hcase as (-> & ->).
      split; [|discriminate]. intros _. repeat split.
    + destruct Hcase as (msg & -> & ->).
      split; [discriminate|]. intros _. repeat split.
  - rewrite H. split; [reflexivity|]. split; [discriminate|].
    intros _. repeat split.
Qed.

(** X17: once Firebase has given an ID token, [exchangeTokenAndRedirect]
    writes the token, the uid and the email (the empty text when there is
    none) to the local storage before it sends the login request, and they
    stay there whatever the backend answers, also when it refuses the
    login or cannot be reached.  When Firebase gives no token, nothing is
    written and no request is sent. *)
Theorem exchange_stores_before_asking (env : Auth.Env) (user : Auth.User)
    (pg : Auth.Page) :
  let run := Auth.exchangeTokenAndRedirect env user pg in
  (forall tok,
     Auth.getIdToken env user = Auth.Fulfilled tok ->
     Auth.storage (Auth.final run) = stored_credentials tok user (Auth.storage pg)
     /\ Auth.storage (Auth.final run) !! str "fb_id_token" = Some tok
     /\ Auth.storage (Auth.final run) !! str "fb_uid" = Some (Auth.uid user)
     /\ Auth.storage (Auth.final run) !! str "fb_email"
        = Some (Auth.email_or_empty user)
     /\ exists last,
          Auth.trace run
          = [Auth.GetIdToken user;
             Auth.SetItem (str "fb_id_token") tok;
             Auth.SetItem (str "fb_uid") (Auth.uid user);
             Auth.SetItem (str "fb_email") (Auth.email_or_empty user);
             Auth.Fetch (Auth.login_request tok); last])
  /\ (forall m,
        Auth.getIdToken env user = Auth.Rejected m ->
        Auth.storage (Auth.final run) = Auth.storage pg
        /\ List.filter is_login_fetch (Auth.trace run) = []
        /\ Auth.authError_textContent (Auth.final run)
           = VStr (str "Token exchange failed: " ++ m)).
Proof.
  intros run. pose proof (exchange_cases env user pg) as H. cbn zeta in H.
  fold run in H. split.
  - intros tok Htok. rewrite Htok in H. destruct H as (last & _ & Ht & Hcase).
    assert (Hs : Auth.storage (Auth.final run)
                 = stored_credentials tok user (Auth.storage pg)).
    { destruct (login_accepted env user).
      - destruct Hcase as (_ & ->). reflexivity.
      - destruct Hcase as (msg & _ & ->). reflexivity. }
    split; [exact Hs|]. rewrite Hs. unfold stored_credentials.
    split; [|split; [|split]].
    + rewrite lookup_insert_ne by discriminate.
      rewrite lookup_insert_ne by discriminate.
      apply lookup_insert_eq.
    + rewrite lookup_insert_ne by discriminate. apply lookup_insert_eq.
    + apply lookup_insert_eq.
    + exists last. exact Ht.
  - intros m Hm. rewrite Hm in H. rewrite H. repeat split.
Qed.

(** What the two handlers share: the steps of one of them, for the call
    [call] to Firebase, announced by the event [ev]. *)
Lemma handler_run (call : Auth.Env -> jsstring -> jsstring -> Auth.Settled Auth.User)
    (ev : jsstring -> jsstring -> Auth.Event) env pg :
  let email := trim (Auth.emailInput pg) in
  let password := Auth.passwordInput pg in
  let cleared := Auth.with_error (VStr (str "")) (str "none") pg in
  let body :=
    (if negb (nonempty email) || negb (nonempty password) then
       Auth.showError (VStr Auth.missing_text)
     else
       Auth.try_catch
         (Auth.bind (Auth.await (ev email password) (call env email password))
            (fun user => Auth.exchangeTokenAndRedirect env user))
         (fun err => Auth.showError (VStr (Auth.message env err)))) cleared in
  Auth.bind (Auth.gets (fun pg => trim (Auth.emailInput pg))) (fun email =>
  Auth.bind (Auth.gets Auth.passwordInput) (fun password =>
  Auth.bind Auth.clearError (fun _ =>
    if negb (nonempty email) || negb (nonempty password) then
      Auth.showError (VStr Auth.missing_text)
    else
      Auth.try_catch
        (Auth.bind (Auth.await (ev email password) (call env email password))
           (fun user => Auth.exchangeTokenAndRedirect env user))
        (fun err => Auth.showError (VStr (Auth.message env err)))))) pg
  = Auth.MkRun (Auth.outcome body) (Auth.final body) (Auth.ClearError :: Auth.trace body).
Proof.
  cbn zeta.
  unfold Auth.bind at 1 2 3. unfold Auth.gets, Auth.clearError, Auth.act.
  cbn iota beta.
  match goal with |- context [?f (Auth.with_error ?a ?b pg)] =>
    destruct (f (Auth.with_error a b pg)) as [o pg2 t2] end.
  reflexivity.
Qed.

Lemma handler_cases (call : Auth.Env -> jsstring -> jsstring -> Auth.Settled Auth.User)
    (ev : jsstring -> jsstring -> Auth.Event) env pg :
  let email := trim (Auth.emailInput pg) in
  let password := Auth.passwordInput pg in
  let cleared := Auth.with_error (VStr (str "")) (str "none") pg in
  let run :=
    Auth.bind (Auth.gets (fun pg => trim (Auth.emailInput pg))) (fun email =>
    Auth.bind (Auth.gets Auth.passwordInput) (fun password =>
    Auth.bind Auth.clearError (fun _ =>
      if negb (nonempty email) || negb (nonempty password) then
        Auth.showError (VStr Auth.missing_text)
      else
        Auth.try_catch
          (Auth.bind (Auth.await (ev email password) (call env email password))
             (fun user => Auth.exchangeTokenAndRedirect env user))
          (fun err => Auth.showError (VStr (Auth.message env err)))))) pg in
  Auth.outcome run = Auth.Done tt
  /\ (email = [] \/ password = [] ->
      run = Auth.MkRun (Auth.Done tt)
              (Auth.with_error (VStr Auth.missing_text) (str "block") pg)
              [Auth.ClearError; Auth.ShowError (VStr Auth.missing_text)])
  /\ (email <> [] -> password <> [] ->
      match call env email password with
      | Auth.Rejected m =>
          run = Auth.MkRun (Auth.Done tt)
                  (Auth.with_error (VStr m) (str "block") pg)
                  [Auth.ClearError; ev email password; Auth.ShowError (VStr m)]
      | Auth.Fulfilled user =>
          run = Auth.MkRun (Auth.Done tt)
                  (Auth.final (Auth.exchangeTokenAndRedirect env user cleared))
                  (Auth.ClearError :: ev email password
                   :: Auth.trace (Auth.exchangeTokenAndRedirect env user cleared))
      end).
Proof.
  intros email password cleared run.
  pose proof (handler_run call ev env pg) as Hrun. cbn zeta in Hrun.
  fold email password cleared run in Hrun. rewrite Hrun. clear Hrun run.
  clearbody email password.
  destruct email as [|c email'].
  { cbn. split; [reflexivity|]. split; [reflexivity|]. intros H; contradiction. }
  destruct password as [|d password'].
  { cbn. split; [reflexivity|]. split; [reflexivity|]. intros _ H; contradiction. }
  cbn [nonempty negb orb].
  unfold Auth.try_catch, Auth.bind, Auth.await.
  destruct (call env (c :: email') (d :: password')) as [user|m] eqn:Hcall.
  - pose proof (exchange_done env user cleared) as Ho.
    destruct (Auth.exchangeTokenAndRedirect env user cleared) as [o pg2 t2].
    cbn in Ho. subst o. cbn.
    split; [reflexivity|]. split; [intros [H|H]; discriminate H|].
    intros _ _. reflexivity.
  - cbn. split; [reflexivity|]. split; [intros [H|H]; discriminate H|].
    intros _ _. reflexivity.
Qed.

Lemma handleLogin_cases env pg :
  Auth.handleLogin env pg
  = Auth.bind (Auth.gets (fun pg => trim (Auth.emailInput pg))) (fun email =>
    Auth.bind (Auth.gets Auth.passwordInput) (fun password =>
    Auth.bind Auth.clearError (fun _ =>
      if negb (nonempty email) || negb (nonempty password) then
        Auth.showError (VStr Auth.missing_text)
      else
        Auth.try_catch
          (Auth.bind (Auth.await (Auth.SignIn email password)
                        (Auth.signInWithEmailAndPassword env email password))
             (fun user => Auth.exchangeTokenAndRedirect env user))
          (fun err => Auth.showError (VStr (Auth.message env err)))))) pg.
Proof. reflexivity. Qed.

Lemma handleSignup_cases env pg :
  Auth.handleSignup env pg
  = Auth.bind (Auth.gets (fun pg => trim (Auth.emailInput pg))) (fun email =>
    Auth.bind (Auth.gets Auth.passwordInput) (fun password =>
    Auth.bind Auth.clearError (fun _ =>
      if negb (nonempty email) || negb (nonempty password) then
        Auth.showError (VStr Auth.missing_text)
      else
        Auth.try_catch
          (Auth.bind (Auth.await (Auth.CreateUser email password)
                        (Auth.createUserWithEmailAndPassword env email password))
             (fun user => Auth.exchangeTokenAndRedirect env user))
          (fun err => Auth.showError (VStr (Auth.message env err)))))) pg.
Proof. reflexivity. Qed.

(** X18: with an email that is empty once trimmed, or an empty password,
    [handleSignup] and [handleLogin] do the same thing: they replace the
    error line by the request to enter both, and stop.  Firebase is not
    called, no request is sent, nothing is stored and the page stays. *)
Theorem handlers_need_both_fields (env : Auth.Env) (pg : Auth.Page) :
  trim (Auth.emailInput pg) = [] \/ Auth.passwordInput pg = [] ->
  let shown := Auth.with_error (VStr Auth.missing_text) (str "block") pg in
  Auth.handleLogin env pg
  = Auth.MkRun (Auth.Done tt) shown
      [Auth.ClearError; Auth.ShowError (VStr Auth.missing_text)]
  /\ Auth.handleSignup env pg = Auth.handleLogin env pg
  /\ Auth.storage (Auth.final (Auth.handleLogin env pg)) = Auth.storage pg
  /\ Auth.href (Auth.final (Auth.handleLogin env pg)) = Auth.href pg
  /\ List.filter is_firebase_call (Auth.trace (Auth.handleLogin env pg)) = []
  /\ List.filter is_login_fetch (Auth.trace (Auth.handleLogin env pg)) = [].
Proof.
  intros H shown.
  destruct (handler_cases Auth.signInWithEmailAndPassword Auth.SignIn env pg)
    as (_ & Hl & _).
  destruct (handler_cases Auth.createUserWithEmailAndPassword Auth.CreateUser env pg)
    as (_ & Hs & _).
  cbn zeta in Hl, Hs. rewrite <- handleLogin_cases in Hl.
  rewrite <- handleSignup_cases in Hs.
  rewrite (Hs H), (Hl H). repeat split.
Qed.

(** X19: with both fields filled, [handleLogin] and [handleSignup] never
    throw.  When Firebase rejects the sign-in or the sign-up, the handler
    shows the message of the rejection and does nothing else: nothing is
    stored and no request is sent.  When Firebase gives a user, the handler
    ends as [exchangeTokenAndRedirect] does on that user, so it reaches
    "/c/" exactly when the login is accepted. *)
Theorem handlers_report_rejection (env : Auth.Env) (pg : Auth.Page) :
  let email := trim (Auth.emailInput pg) in
  let password := Auth.passwordInput pg in
  let cleared := Auth.with_error (VStr (str "")) (str "none") pg in
  Auth.outcome (Auth.handleLogin env pg) = Auth.Done tt
  /\ Auth.outcome (Auth.handleSignup env pg) = Auth.Done tt
  /\ (email <> [] -> password <> [] ->
      (forall m,
         Auth.signInWithEmailAndPassword env email password = Auth.Rejected m ->
         Auth.handleLogin env pg
         = Auth.MkRun (Auth.Done tt) (Auth.with_error (VStr m) (str "block") pg)
             [Auth.ClearError; Auth.SignIn email password; Auth.ShowError (VStr m)])
      /\ (forall m,
            Auth.createUserWithEmailAndPassword env email password = Auth.Rejected m ->
            Auth.handleSignup env pg
            = Auth.MkRun (Auth.Done tt) (Auth.with_error (VStr m) (str "block") pg)
                [Auth.ClearError; Auth.CreateUser email password;
                 Auth.ShowError (VStr m)])
      /\ (forall user,
            Auth.signInWithEmailAndPassword env email password = Auth.Fulfilled user ->
            Auth.final (Auth.handleLogin env pg)
            = Auth.final (Auth.exchangeTokenAndRedirect env user cleared)
            /\ Auth.href (Auth.final (Auth.handleLogin env pg))
               = (if login_accepted env user then Some (str "/c/") else Auth.href pg))
      /\ (forall user,
            Auth.createUserWithEmailAndPassword env email password
            = Auth.Fulfilled user ->
            Auth.final (Auth.handleSignup env pg)
            = Auth.final (Auth.exchangeTokenAndRedirect env user cleared)
            /\ Auth.href (Auth.final (Auth.handleSignup env pg))
               = (if login_accepted env user then Some (str "/c/") else Auth.href pg))).
Proof.
  intros email password cleared.
  destruct (handler_cases Auth.signInWithEmailAndPassword Auth.SignIn env pg)
    as (Hlo & _ & Hl).
  destruct (handler_cases Auth.createUserWithEmailAndPassword Auth.CreateUser env pg)
    as (Hso & _ & Hs).
  cbn zeta in Hlo, Hl, Hso, Hs.
  rewrite <- handleLogin_cases in Hlo, Hl. rewrite <- handleSignup_cases in Hso, Hs.
  fold email password cleared in Hl, Hs.
  split; [exact Hlo|]. split; [exact Hso|].
  intros He Hp. specialize (Hl He Hp). specialize (Hs He Hp).
  assert (Hhref : forall user,
            Auth.href (Auth.final (Auth.exchangeTokenAndRedirect env user cleared))
            = (if login_accepted env user then Some (str "/c/") else Auth.href pg)).
  { intros user. pose proof (exchange_cases env user cleared) as H. cbn zeta in H.
    unfold login_accepted in *.
    destruct (Auth.getIdToken env user) as [tok|m].
    - destruct H as (last & _ & _ & Hcase).
      destruct (match Auth.server env (Auth.login_request tok) with
                | Some r => res_ok r | None => false end).
      + destruct Hcase as (_ & ->). reflexivity.
      + destruct Hcase as (msg & _ & ->). reflexivity.
    - rewrite H. reflexivity. }
  split; [|split; [|split]].
  - intros m Hm. rewrite Hm in Hl. exact Hl.
  - intros m Hm. rewrite Hm in Hs. exact Hs.
  - intros user Hu. rewrite Hu in Hl. rewrite Hl. cbn [Auth.final].
    split; [reflexivity|apply Hhref].
  - intros user Hu. rewrite Hu in Hs. rewrite Hs. cbn [Auth.final].
    split; [reflexivity|apply Hhref].
Qed.

(** * Concrete runs *)

(** The pages used below are pages the script gets to. *)
Lemma concrete_pages_reached :
  final (onDOMContentLoaded demo_server page0) = open_page
  /\ nodes_fresh page0 /\ nodes_fresh open_page /\ nodes_fresh unlisted_page.
Proof.
  split; [vm_compute; reflexivity|].
  repeat split; unfold nodes_fresh; repeat constructor.
Qed.

Lemma escapeHtml_escapes_four_witness :
  entity 39 = [39%N] /\ escapeHtml (VStr (str "a<b")) = str "a&lt;b".
Proof.
  destruct (escapeHtml_escapes_four (str "a<b")) as (H & _ & _ & _ & _ & Hother & _).
  split.
  - apply Hother. intros Hin.
    repeat (apply elem_of_cons in Hin; destruct Hin as [Hin|Hin]; [discriminate Hin|]).
    inversion Hin.
  - rewrite H. reflexivity.
Defined.

Lemma sendMessage_sequence_witness :
  truthy (activeChatId typing_page) = true
  /\ trim (msg_input typing_page) <> []
  /\ nodes_fresh typing_page
  /\ outcome (sendMessage_begin typing_page)
     = Ok (Some (str "hi", typing_element 3)).
Proof.
  assert (H1 : truthy (activeChatId typing_page) = true) by reflexivity.
  assert (H2 : trim (msg_input typing_page) <> []) by (vm_compute; discriminate).
  assert (H3 : nodes_fresh typing_page).
  { unfold nodes_fresh. repeat constructor. }
  split; [exact H1|]. split; [exact H2|]. split; [exact H3|].
  exact (proj1 (sendMessage_sequence demo_server typing_page H1 H2 H3)).
Defined.

Lemma unauthenticated_transition_witness :
  localStorage (final (apiFetch expired_server (str "/api/chats") no_opts page0)) = ∅
  /\ auth_overlay_display (final (onDOMContentLoaded failing_server page0)) = str "flex".
Proof.
  destruct (unauthenticated_transition expired_server page0) as (H401 & _ & _).
  destruct (unauthenticated_transition failing_server page0) as (_ & _ & Hguard).
  split.
  - refine (proj1 (proj2 (proj2
      (H401 (str "/api/chats") no_opts {| status := 401; json_body := None |} _ _))));
      reflexivity.
  - refine (proj1 (proj2 (Hguard VNull _ _ _))); reflexivity.
Defined.

Lemma apiFetch_never_throws_witness :
  outcome (apiFetch failing_server (str "/api/chats") no_opts page0) = Ok VNull
  /\ outcome (apiFetch demo_server (str "/api/chats/abc/messages") no_opts page0)
     = Ok (VObj [(str "assistant", VStr (str "hello"))]).
Proof.
  split.
  - refine (proj1 (proj2 (proj2
      (apiFetch_never_throws failing_server (str "/api/chats") no_opts page0)))
      {| status := 500; json_body := None |} _ _); reflexivity.
  - refine (proj2 (proj2 (proj2 (proj2
      (apiFetch_never_throws demo_server (str "/api/chats/abc/messages") no_opts page0))))
      {| status := 200;
         json_body := Some (VObj [(str "assistant", VStr (str "hello"))]) |}
      _ _ _ _); reflexivity.
Defined.

Lemma openChat_highlight_witness :
  length (List.filter is_active_row
            (chat_list (final (openChat demo_server (VStr (str "abc")) open_page))))
  = 1
  /\ location (final (openChat demo_server (VStr (str "abc")) open_page))
     = str "/c/abc".
Proof.
  destruct (openChat_highlight demo_server (str "abc") open_page)
    as (_ & _ & _ & _ & _ & _ & Hloc & _ & _ & Hcount).
  split; [rewrite Hcount; reflexivity|exact Hloc].
Defined.

Lemma deleteChat_effects_witness :
  user_confirms demo_server (clock open_page) confirm_text = true
  /\ activeChatId (final (deleteChat demo_server (VStr (str "abc")) open_page)) = VNull
  /\ location (final (deleteChat demo_server (VStr (str "abc")) open_page)) = str "/c/".
Proof.
  assert (Hc : user_confirms demo_server (clock open_page) confirm_text = true)
    by reflexivity.
  assert (Hactive_id : strict_eq (VStr (str "abc")) (activeChatId open_page) = true)
    by (vm_compute; reflexivity).
  pose (fetched := apiFetch demo_server (str "/api/chats/" ++ ToString (VStr (str "abc")))
                     delete_opts (sent open_page)).
  assert (Hrun : fetched = MkRun (Ok (VObj
                    [(str "id", VStr (str "abc")); (str "title", VStr (str "T"));
                     (str "messages",
                      VArr [VObj [(str "role", VStr (str "user"));
                                  (str "content", VStr (str "hi"))]])]))
                   (final fetched) (trace fetched))
    by (vm_compute; reflexivity).
  destruct (deleteChat_effects demo_server (VStr (str "abc")) open_page _ _ _ Hc Hrun)
    as (Hdone & _).
  destruct (Hdone eq_refl) as (st2 & cleanup & rest & _ & _ & Hactive & _).
  destruct (Hactive Hactive_id) as (_ & _ & Ha & Hl & _).
  split; [exact Hc|]. split; [exact Ha|exact Hl].
Defined.

Lemma sendMessage_noop_witness :
  truthy (activeChatId page0) = false
  /\ sendMessage demo_server page0 = MkRun (Ok tt) page0 [].
Proof.
  assert (H : truthy (activeChatId page0) = false) by reflexivity.
  split; [exact H|]. apply sendMessage_noop. left. exact H.
Defined.

Lemma openChatFromLocation_iff_witness :
  segments (location page0) = [str "c"; str "abc"]
  /\ openChatFromLocation demo_server page0
     = openChat demo_server (VStr (str "abc")) page0.
Proof.
  assert (H : segments (location page0) = [str "c"; str "abc"]) by reflexivity.
  split; [exact H|].
  exact (proj1 (openChatFromLocation_iff demo_server page0) (str "abc") H).
Defined.

Lemma loadChatList_placeholder_witness :
  outcome (apiFetch failing_server (str "/api/chats") no_opts page0) = Ok VNull
  /\ chat_list (final (loadChatList failing_server page0)) = [empty_hint 0].
Proof.
  assert (H : outcome (apiFetch failing_server (str "/api/chats") no_opts page0)
              = Ok VNull) by reflexivity.
  split; [exact H|].
  exact (proj1 (proj2 (loadChatList_placeholder failing_server page0 VNull H
                         (or_introl eq_refl)))).
Defined.

Lemma renderChatList_idempotent_witness :
  Forall (fun c => nullish c = false) two_chats
  /\ outcome (renderChatList (VArr two_chats) open_page) = Ok tt.
Proof.
  assert (H : Forall (fun c => nullish c = false) two_chats)
    by (repeat constructor).
  split; [exact H|].
  exact (proj1 (renderChatList_idempotent two_chats open_page H)).
Defined.

Lemma apiFetch_request_witness :
  exists req,
    List.filter is_fetch (trace (apiFetch demo_server (str "/api/chats") no_opts page0))
    = [Fetch req]
    /\ req_headers req !! str "Authorization" = Some (str "Bearer tok")
    /\ req_headers req !! str "Content-Type" = Some (str "application/json").
Proof.
  destruct (apiFetch_request demo_server (str "/api/chats") no_opts page0)
    as (req & Ht & _ & _ & _ & _ & _ & Hct & Hauth & _).
  exists req. split; [exact Ht|]. split.
  - etransitivity; [exact (Hauth eq_refl)|reflexivity].
  - exact (Hct eq_refl).
Defined.

Lemma apiFetch_leaves_page_witness :
  final (apiFetch failing_server (str "/api/chats") no_opts page0) = sent page0.
Proof.
  refine (proj1 (proj1 (proj2
    (apiFetch_leaves_page failing_server (str "/api/chats") no_opts page0)) _)).
  intros r Hr. injection Hr as <-. discriminate.
Defined.

Lemma deleteChat_declined_noop_witness :
  user_confirms declining_user (clock open_page) confirm_text = false
  /\ outcome (deleteChat declining_user (VStr (str "abc")) open_page) = Ok tt.
Proof.
  assert (H : user_confirms declining_user (clock open_page) confirm_text = false)
    by reflexivity.
  split; [exact H|].
  exact (proj1 (deleteChat_declined_noop declining_user (VStr (str "abc")) open_page H)).
Defined.

Lemma escapeHtml_strings_witness :
  existsb is_metachar (str "abc") = false
  /\ escapeHtml (VStr (str "abc")) = str "abc".
Proof.
  assert (H : existsb is_metachar (str "abc") = false) by reflexivity.
  split; [exact H|].
  exact (proj2 (proj1 (escapeHtml_strings (str "abc") [])) H).
Defined.

Lemma openChat_renders_thread_witness :
  outcome (openChat demo_server (VStr (str "abc")) open_page) = Ok tt
  /\ messages_panel (final (openChat demo_server (VStr (str "abc")) open_page))
     = [message_element 2 (VStr (str "user")) (VStr (str "hi"))].
Proof.
  pose (chat := VObj
          [(str "id", VStr (str "abc")); (str "title", VStr (str "T"));
           (str "messages",
            VArr [VObj [(str "role", VStr (str "user"));
                        (str "content", VStr (str "hi"))]])]).
  pose (items := [VObj [(str "role", VStr (str "user"));
                        (str "content", VStr (str "hi"))]]).
  assert (H1 : outcome (apiFetch demo_server (str "/api/chats/" ++ ToString (VStr (str "abc")))
                          no_opts (final (openChat_begin (VStr (str "abc")) open_page)))
               = Ok chat) by (vm_compute; reflexivity).
  assert (H2 : truthy chat = true) by reflexivity.
  assert (H3 : array_items (or_else (prop chat (str "messages")) (VArr [])) = Ok items)
    by reflexivity.
  assert (H4 : Forall (fun m => nullish m = false) items) by (repeat constructor).
  destruct (openChat_renders_thread demo_server (VStr (str "abc")) chat open_page items
              H1 H2 H3 H4) as (Ho & Hp & _).
  split; [exact Ho|exact Hp].
Defined.

Lemma openChat_load_failed_witness :
  outcome (openChat failing_server (VStr (str "abc")) open_page) = Ok tt
  /\ input_area_display (final (openChat failing_server (VStr (str "abc")) open_page))
     = str "flex"
  /\ length (messages_panel (final (openChat failing_server (VStr (str "abc")) open_page)))
     = 1.
Proof.
  assert (H1 : outcome (apiFetch failing_server
                          (str "/api/chats/" ++ ToString (VStr (str "abc")))
                          no_opts (final (openChat_begin (VStr (str "abc")) open_page)))
               = Ok VNull) by (vm_compute; reflexivity).
  destruct (openChat_load_failed failing_server (VStr (str "abc")) VNull open_page
              H1 eq_refl) as (Ho & Hp & Hd & _).
  split; [exact Ho|]. split; [exact Hd|]. rewrite Hp. reflexivity.
Defined.

Lemma openChat_malformed_messages_witness :
  outcome (openChat malformed_server (VStr (str "abc")) open_page) = Throw TypeError
  /\ messages_panel (final (openChat malformed_server (VStr (str "abc")) open_page))
     = [message_element 2 (VStr (str "user")) (VStr (str "hi"))].
Proof.
  assert (H1 : outcome (apiFetch malformed_server
                          (str "/api/chats/" ++ ToString (VStr (str "abc")))
                          no_opts (final (openChat_begin (VStr (str "abc")) open_page)))
               = Ok broken_chat) by (vm_compute; reflexivity).
  destruct (openChat_malformed_messages malformed_server (VStr (str "abc")) broken_chat
              open_page H1 eq_refl) as (_ & Hstop).
  destruct (Hstop [VObj [(str "role", VStr (str "user"));
                         (str "content", VStr (str "hi"))]]
                  VNull
                  [VObj [(str "role", VStr (str "assistant"));
                         (str "content", VStr (str "hello"))]]
                  eq_refl ltac:(repeat constructor) eq_refl) as (Ho & Hp & _).
  split; [exact Ho|exact Hp].
Defined.

Lemma createNewChat_failed_witness :
  outcome (createNewChat failing_server open_page) = Ok tt
  /\ activeChatId (final (createNewChat failing_server open_page)) = VStr (str "abc").
Proof.
  assert (H1 : outcome (apiFetch failing_server (str "/api/chats") create_opts open_page)
               = Ok VNull) by (vm_compute; reflexivity).
  destruct (createNewChat_failed failing_server open_page VNull H1 eq_refl)
    as (Ho & _ & _ & _ & Ha & _).
  split; [exact Ho|exact Ha].
Defined.

Lemma createNewChat_opens_witness :
  activeChatId (final (createNewChat creating_server open_page)) = VStr (str "n1")
  /\ location (final (createNewChat creating_server open_page)) = str "/c/n1".
Proof.
  assert (H1 : outcome (apiFetch creating_server (str "/api/chats") create_opts open_page)
               = Ok new_chat) by (vm_compute; reflexivity).
  assert (H2 : outcome (loadChatList creating_server
                          (final (apiFetch creating_server (str "/api/chats") create_opts
                                    open_page))) = Ok tt)
    by (vm_compute; reflexivity).
  destruct (createNewChat_opens creating_server open_page new_chat H1 eq_refl)
    as (Hopen & _).
  destruct (Hopen H2) as (_ & Ha & Hl & _).
  split; [exact Ha|exact Hl].
Defined.

Lemma renderChatList_rows_shown_witness :
  two_chats <> []
  /\ map is_active_row (chat_list (final (renderChatList (VArr two_chats) open_page)))
     = [true; false].
Proof.
  assert (H1 : two_chats <> []) by discriminate.
  assert (H2 : Forall (fun c => nullish c = false) two_chats) by (repeat constructor).
  destruct (renderChatList_rows_shown two_chats open_page H1 H2)
    as (_ & _ & _ & Ha & _).
  split; [exact H1|]. etransitivity; [exact Ha|reflexivity].
Defined.

Lemma openChat_numeric_id_witness :
  length (List.filter is_active_row
            (chat_list (final (renderChatList (VArr numbered_chats)
                                 (with_activeChatId (VNum 7) page0))))) = 1
  /\ List.filter is_active_row
       (chat_list (final (openChat demo_server (VNum 7)
                            (final (renderChatList (VArr numbered_chats)
                                      (with_activeChatId (VNum 7) page0)))))) = [].
Proof.
  assert (H : Forall (fun c => nullish c = false) numbered_chats)
    by (repeat constructor).
  destruct (openChat_numeric_id demo_server 7 numbered_chats page0 H) as (Hc & Hn).
  split; [etransitivity; [exact Hc|reflexivity]|exact Hn].
Defined.

Lemma renderChatList_malformed_witness :
  outcome (renderChatList (VArr (two_chats ++ VNull :: numbered_chats)) page0)
  = Throw TypeError
  /\ length (chat_list (final (renderChatList
                                 (VArr (two_chats ++ VNull :: numbered_chats)) page0)))
     = 2.
Proof.
  destruct (proj2 (renderChatList_malformed
                     (VArr (two_chats ++ VNull :: numbered_chats)) page0)
              two_chats VNull numbered_chats eq_refl ltac:(repeat constructor) eq_refl)
    as (Ho & _ & Hl).
  split; [exact Ho|exact Hl].
Defined.

Lemma onDOMContentLoaded_session_witness :
  truthy (token_of page0) = true
  /\ user_email (final (onDOMContentLoaded demo_server page0)) = VStr (str "a@b.c")
  /\ wired (final (onDOMContentLoaded demo_server page0)) = wired_controls.
Proof.
  pose (me := VObj [(str "uid", VStr (str "u1")); (str "email", VStr (str "a@b.c"))]).
  assert (H1 : truthy (token_of page0) = true) by reflexivity.
  assert (H2 : outcome (apiFetch demo_server (str "/api/auth/me") no_opts page0) = Ok me)
    by (vm_compute; reflexivity).
  destruct (onDOMContentLoaded_session demo_server page0 me H1 H2 eq_refl)
    as (Hu & Hw & _).
  split; [exact H1|]. split; [etransitivity; [exact Hu|reflexivity]|exact Hw].
Defined.

Lemma sendMessage_input_and_requests_witness :
  truthy (activeChatId typing_page) = true
  /\ trim (msg_input typing_page) <> []
  /\ nodes_fresh typing_page
  /\ msg_input (final (sendMessage demo_server typing_page)) = str "".
Proof.
  assert (H1 : truthy (activeChatId typing_page) = true) by reflexivity.
  assert (H2 : trim (msg_input typing_page) <> []) by (vm_compute; discriminate).
  assert (H3 : nodes_fresh typing_page).
  { unfold nodes_fresh. repeat constructor. }
  split; [exact H1|]. split; [exact H2|]. split; [exact H3|].
  exact (proj1 (proj2 (sendMessage_input_and_requests demo_server typing_page H1 H2 H3))).
Defined.

Lemma logout_clears_then_leaves_witness :
  outcome (logout offline (Some (throw NetworkError)) open_page) = Throw NetworkError
  /\ localStorage (final (logout offline (Some (throw NetworkError)) open_page)) = ∅
  /\ navigation (final (logout demo_server None open_page)) = Some (str "/").
Proof.
  destruct (logout_clears_then_leaves offline (Some (throw NetworkError)) open_page)
    as (Hs & _ & _ & Hoff).
  destruct (logout_clears_then_leaves demo_server None open_page)
    as (_ & _ & Hon & _).
  split; [exact (proj1 (Hoff eq_refl))|]. split; [exact Hs|].
  exact (proj2 (Hon {| status := 404; json_body := None |} eq_refl)).
Defined.

Lemma exchange_redirects_iff_accepted_witness :
  login_accepted auth_demo alice = true
  /\ Auth.href (Auth.final (Auth.exchangeTokenAndRedirect auth_demo alice landing))
     = Some (str "/c/")
  /\ login_accepted auth_refusing alice = false
  /\ Auth.authError_display
       (Auth.final (Auth.exchangeTokenAndRedirect auth_refusing alice landing))
     = str "block".
Proof.
  assert (H1 : login_accepted auth_demo alice = true) by reflexivity.
  assert (H2 : login_accepted auth_refusing alice = false) by reflexivity.
  destruct (exchange_redirects_iff_accepted auth_demo alice landing) as (_ & Hyes & _).
  destruct (exchange_redirects_iff_accepted auth_refusing alice landing)
    as (_ & _ & Hno).
  split; [exact H1|]. split; [exact (proj1 (Hyes H1))|].
  split; [exact H2|]. exact (proj2 (proj2 (Hno H2))).
Defined.

Lemma exchange_stores_before_asking_witness :
  Auth.getIdToken auth_refusing alice = Auth.Fulfilled (str "tok")
  /\ Auth.storage (Auth.final (Auth.exchangeTokenAndRedirect auth_refusing alice landing))
     !! str "fb_id_token" = Some (str "tok").
Proof.
  assert (H : Auth.getIdToken auth_refusing alice = Auth.Fulfilled (str "tok"))
    by reflexivity.
  split; [exact H|].
  exact (proj1 (proj2
    (proj1 (exchange_stores_before_asking auth_refusing alice landing) (str "tok") H))).
Defined.

Lemma handlers_need_both_fields_witness :
  (trim (Auth.emailInput blank_landing) = [] \/ Auth.passwordInput blank_landing = [])
  /\ Auth.handleSignup auth_demo blank_landing = Auth.handleLogin auth_demo blank_landing
  /\ Auth.href (Auth.final (Auth.handleLogin auth_demo blank_landing)) = None.
Proof.
  assert (H : trim (Auth.emailInput blank_landing) = []
              \/ Auth.passwordInput blank_landing = [])
    by (left; vm_compute; reflexivity).
  destruct (handlers_need_both_fields auth_demo blank_landing H)
    as (_ & Hsame & _ & Hhref & _).
  split; [exact H|]. split; [exact Hsame|exact Hhref].
Defined.

Lemma handlers_report_rejection_witness :
  trim (Auth.emailInput landing) <> []
  /\ Auth.passwordInput landing <> []
  /\ Auth.authError_textContent (Auth.final (Auth.handleSignup auth_demo landing))
     = VStr (str "auth/email-already-in-use")
  /\ Auth.href (Auth.final (Auth.handleLogin auth_demo landing)) = Some (str "/c/").
Proof.
  assert (H1 : trim (Auth.emailInput landing) <> []) by (vm_compute; discriminate).
  assert (H2 : Auth.passwordInput landing <> []) by discriminate.
  destruct (handlers_report_rejection auth_demo landing) as (_ & _ & Hfilled).
  destruct (Hfilled H1 H2) as (_ & Hup & Hin & _).
  split; [exact H1|]. split; [exact H2|]. split.
  - rewrite (Hup (str "auth/email-already-in-use") eq_refl). reflexivity.
  - exact (proj2 (Hin alice eq_refl)).
Defined.
